(** * Appointment booker: the REST backend, embedded and verified

    The backend exists twice: [src/api/[...all].js] (the serverless handler,
    statements go through [pool]) and [src/appointment-database/index.js]
    (the listening process, statements go through [db]).  Apart from the
    public holiday lookup the two route tables are the same text, so one
    definition per route serves both; the holiday lookup is embedded once
    per file.

    Modelling conventions.
    - JavaScript strings are sequences of character codes ([string]); this
      is exact for ASCII text.  JavaScript numbers are exact integers
      ([Z]), with [None] for NaN; this is exact below 2^53.
    - A TIME column holds a signed number of seconds, a DATE column a day
      number; the driver hands TIME values to JavaScript as text
      ([Sql.time_text]).
    - A statement either fails (the handler's [err] branch) or returns rows.
      Failures that the source cannot foresee (connectivity and the like)
      are decided by an oracle ([Faults]); a parameter that does not
      convert to its column's type makes the statement fail as well, except
      inside [TIME(?)], which yields NULL.  TIME arithmetic is exact: its
      saturation at 838:59:59 is out of reach of times of day.
    - The body of a request is the JSON object restricted to the fields the
      routes read: text fields are strings or absent, flags and the
      duration are JSON scalars ([Js.val]). *)

From Stdlib Require Import ZArith Ascii String DecimalString Lia.
From Stdlib Require DecimalPos.
From stdpp Require Import base option list gmap strings.

Local Open Scope Z_scope.

(* ================================================================== *)
(** ** JavaScript primitives used by the handlers *)

Module Js.

(** A number: an integer, or NaN. *)
Definition num : Type := option Z.

(** The JSON scalars a request field can hold. *)
Inductive val : Type :=
| VUndef
| VNull
| VBool (b : bool)
| VNum (z : Z)
| VStr (s : string).

Definition is_digit (c : ascii) : bool :=
  let n := nat_of_ascii c in ((48 <=? n) && (n <=? 57))%nat.

Definition digit_value (c : ascii) : Z := Z.of_nat (nat_of_ascii c) - 48.

(** White space of the ASCII range: TAB, LF, VT, FF, CR, SP. *)
Definition is_space (c : ascii) : bool :=
  let n := nat_of_ascii c in
  (((9 <=? n) && (n <=? 13)) || (n =? 32))%nat.

(** [s.replace(/\D/g, "")] *)
Fixpoint strip_non_digits (s : string) : string :=
  match s with
  | EmptyString => EmptyString
  | String c r =>
      if is_digit c then String c (strip_non_digits r) else strip_non_digits r
  end.

Fixpoint all_digits (s : string) : bool :=
  match s with
  | EmptyString => true
  | String c r => is_digit c && all_digits r
  end.

Fixpoint digits_value (acc : Z) (s : string) : Z :=
  match s with
  | EmptyString => acc
  | String c r => digits_value (10 * acc + digit_value c) r
  end.

Fixpoint skip_spaces (s : string) : string :=
  match s with
  | String c r => if is_space c then skip_spaces r else s
  | EmptyString => EmptyString
  end.

Definition trim (s : string) : string :=
  String.rev (skip_spaces (String.rev (skip_spaces s))).

(** The leading digits of a text, and what follows them. *)
Fixpoint span_digits (s : string) : string * string :=
  match s with
  | String c r =>
      if is_digit c then (String c (fst (span_digits r)), snd (span_digits r))
      else (EmptyString, s)
  | EmptyString => (EmptyString, EmptyString)
  end.

(** The exponent of a decimal literal: an optional sign, digits. *)
Definition signed_digits (s : string) : num :=
  match s with
  | String "-" r =>
      if all_digits r && negb (String.eqb r "") then Some (- digits_value 0 r) else None
  | String "+" r =>
      if all_digits r && negb (String.eqb r "") then Some (digits_value 0 r) else None
  | r => if all_digits r && negb (String.eqb r "") then Some (digits_value 0 r) else None
  end.

(** An unsigned decimal literal, "digits[.digits][e[+-]digits]" or
    ".digits[e[+-]digits]", whose value is an integer: "30.0", "3e1" and
    "300e-1" are 30. *)
Definition decimal_literal (s : string) : num :=
  let i := fst (span_digits s) in
  let r1 := snd (span_digits s) in
  let f := match r1 with String "." r => fst (span_digits r) | _ => EmptyString end in
  let r2 := match r1 with String "." r => snd (span_digits r) | _ => r1 end in
  let e := match r2 with
           | EmptyString => Some 0
           | String c r =>
               if Ascii.eqb c "e" || Ascii.eqb c "E" then signed_digits r else None
           end in
  if String.eqb i "" && String.eqb f "" then None
  else match e with
       | None => None
       | Some e =>
           let m := digits_value 0 (i +:+ f) in
           let k := e - Z.of_nat (String.length f) in
           if 0 <=? k then Some (m * 10 ^ k)
           else if m mod 10 ^ (- k) =? 0 then Some (m / 10 ^ (- k))
           else None
       end.

Definition radix_digit (c : ascii) : option Z :=
  let n := Z.of_nat (nat_of_ascii c) in
  if (48 <=? n) && (n <=? 57) then Some (n - 48)
  else if (97 <=? n) && (n <=? 102) then Some (n - 87)
  else if (65 <=? n) && (n <=? 70) then Some (n - 55)
  else None.

Fixpoint radix_value (base acc : Z) (s : string) : num :=
  match s with
  | EmptyString => Some acc
  | String c r =>
      match radix_digit c with
      | Some v => if v <? base then radix_value base (base * acc + v) r else None
      | None => None
      end
  end.

(** "0x", "0o" and "0b" literals, in either case; they take no sign. *)
Definition radix_literal (s : string) : num :=
  match s with
  | String "0" (String c r) =>
      if String.eqb r "" then None
      else if Ascii.eqb c "x" || Ascii.eqb c "X" then radix_value 16 0 r
      else if Ascii.eqb c "o" || Ascii.eqb c "O" then radix_value 8 0 r
      else if Ascii.eqb c "b" || Ascii.eqb c "B" then radix_value 2 0 r
      else None
  | _ => None
  end.

(** [Number(s)] on a string: optional surrounding white space around a
    decimal literal with an optional sign or a radix literal; the empty
    string is 0.  A value that is no integer ("7.5", "Infinity") is
    mapped to NaN, like a text that is no number: the handlers pass every
    result of [Number] on a request field to [Number.isInteger], which
    refuses both alike. *)
Definition Number (s : string) : num :=
  match trim s with
  | EmptyString => Some 0
  | String "-" r =>
      if all_digits r && negb (String.eqb r "") then Some (- digits_value 0 r)
      else Z.opp <$> decimal_literal r
  | String "+" r =>
      if all_digits r && negb (String.eqb r "") then Some (digits_value 0 r)
      else decimal_literal r
  | r => if all_digits r then Some (digits_value 0 r)
         else match radix_literal r with
              | Some z => Some z
              | None => decimal_literal r
              end
  end.

(** [Number(v)] on a scalar. *)
Definition Number_val (v : val) : num :=
  match v with
  | VUndef => None
  | VNull => Some 0
  | VBool b => Some (if b then 1 else 0)
  | VNum z => Some z
  | VStr s => Number s
  end.

(** [String(n)] *)
Definition String_ (n : num) : string :=
  match n with
  | Some z => NilZero.string_of_int (Z.to_int z)
  | None => "NaN"
  end.

(** Truthiness. *)
Definition truthy (v : val) : bool :=
  match v with
  | VUndef | VNull => false
  | VBool b => b
  | VNum z => negb (z =? 0)
  | VStr s => negb (String.eqb s "")
  end.

(** Truthiness of a text field: absent and empty are falsy. *)
Definition truthy_text (o : option string) : bool :=
  match o with
  | Some s => negb (String.eqb s "")
  | None => false
  end.

(** [s.padStart(width, fill)] with a one-character [fill]. *)
Definition padStart (width : nat) (fill : ascii) (s : string) : string :=
  string_of_list_ascii (repeat fill (width - String.length s)) +:+ s.

(** [s.split(sep)] with a one-character separator. *)
Fixpoint split (sep : ascii) (s : string) : list string :=
  match s with
  | EmptyString => [EmptyString]
  | String c r =>
      if Ascii.eqb c sep then EmptyString :: split sep r
      else match split sep r with
           | hd :: tl => String c hd :: tl
           | [] => [String c EmptyString]
           end
  end.

(** [s.slice(0, n)] *)
Definition slice0 (n : nat) (s : string) : string := String.substring 0 n s.

(** [s.slice(1)] *)
Definition slice1 (s : string) : string :=
  match s with
  | EmptyString => EmptyString
  | String _ r => r
  end.

(** [s.startsWith(c)] for a one-character [c]. *)
Definition startsWith (c : ascii) (s : string) : bool :=
  match s with
  | String d _ => Ascii.eqb d c
  | EmptyString => false
  end.

(** Anchored patterns made of [\d] and literal characters. *)
Inductive atom : Type := D | L (c : ascii).

Fixpoint matches (p : list atom) (s : string) : bool :=
  match p, s with
  | [], EmptyString => true
  | D :: p', String c r => is_digit c && matches p' r
  | L a :: p', String c r => Ascii.eqb c a && matches p' r
  | _, _ => false
  end.

(** [parseInt(s, 10)]: leading white space, an optional sign, then the
    longest run of digits; NaN when there is none. *)
Fixpoint leading_digits (s : string) : string :=
  match s with
  | String c r => if is_digit c then String c (leading_digits r) else EmptyString
  | EmptyString => EmptyString
  end.

Definition parseInt_digits (s : string) : num :=
  match leading_digits s with
  | EmptyString => None
  | ds => Some (digits_value 0 ds)
  end.

Definition parseInt (o : option string) : num :=
  match o with
  | None => None
  | Some s =>
      match skip_spaces s with
      | String "-" r => Z.opp <$> parseInt_digits r
      | String "+" r => parseInt_digits r
      | r => parseInt_digits r
      end
  end.

(** [x || d] on numbers: NaN and 0 are falsy. *)
Definition or_num (x : num) (d : Z) : Z :=
  match x with
  | Some z => if z =? 0 then d else z
  | None => d
  end.

(** String comparison by code unit. *)
Definition str_le (a b : string) : bool := String.leb a b.
Definition str_lt (a b : string) : bool := String.ltb a b.
Definition str_gt (a b : string) : bool := String.ltb b a.
Definition str_ge (a b : string) : bool := String.leb b a.

(** JSON values built by the handlers. *)
#[local] Unset Elimination Schemes.
Inductive json : Type :=
| JNull
| JBool (b : bool)
| JNum (z : Z)
| JStr (s : string)
| JArr (l : list json)
| JObj (fields : list (string * json)).
#[local] Set Elimination Schemes.

(** [x || null] on a text column value. *)
Definition text_or_null (o : option string) : json :=
  match o with
  | Some s => if String.eqb s "" then JNull else JStr s
  | None => JNull
  end.

(** The runtime's [Date]: parsing of a date-time string in local time to
    an instant ([None] is an invalid date), the local calendar day
    printed by [toDateString], and [getDay] (0 is Sunday). *)
Record DateApi : Type := {
  Date_parse : string -> option Z;
  toDateString : Z -> string;
  getDay : Z -> Z;
}.

End Js.

(* ================================================================== *)
(** ** The storage layer: column types, rows and tables *)

Module Sql.

(** *** TIME and DATE values *)

Definition HHMM : list Js.atom := [Js.D; Js.D; Js.L ":"%char; Js.D; Js.D].
Definition HHMMSS : list Js.atom :=
  [Js.D; Js.D; Js.L ":"%char; Js.D; Js.D; Js.L ":"%char; Js.D; Js.D].
Definition YYYYMMDD : list Js.atom :=
  [Js.D; Js.D; Js.D; Js.D; Js.L "-"%char; Js.D; Js.D; Js.L "-"%char; Js.D; Js.D].

Definition two_digits (s : string) (pos : nat) : Z :=
  Js.digits_value 0 (String.substring pos 2 s).

(** Conversion of a time literal to a TIME value (seconds).  The handlers
    only let "HH:MM" and "HH:MM:SS" reach the server; minutes and seconds
    above 59 do not convert. *)
Definition time_of_text (s : string) : option Z :=
  if Js.matches HHMM s || Js.matches HHMMSS s then
    let h := two_digits s 0 in
    let m := two_digits s 3 in
    let sec := if Js.matches HHMMSS s then two_digits s 6 else 0 in
    if (m <? 60) && (sec <? 60) then Some (h * 3600 + m * 60 + sec) else None
  else None.

Definition pad2 (n : Z) : string := Js.padStart 2 "0" (Js.String_ (Some n)).

(** The text of a TIME value as the driver delivers it: "HH:MM:SS", with
    more hour digits from 100 hours on and a sign for negative values. *)
Definition time_text (t : Z) : string :=
  let a := Z.abs t in
  (if t <? 0 then "-" else "") +:+
  pad2 (a / 3600) +:+ ":" +:+ pad2 ((a / 60) mod 60) +:+ ":" +:+ pad2 (a mod 60).

(** [DATE_FORMAT(t, '%H:%i')] on a TIME value: the value is read as an
    instant of the current day, so the hour is taken modulo 24. *)
Definition date_format_Hi (t : Z) : string :=
  let m := (t / 60) mod 1440 in
  pad2 (m / 60) +:+ ":" +:+ pad2 (m mod 60).

Definition is_leap (y : Z) : bool :=
  ((y mod 4 =? 0) && negb (y mod 100 =? 0)) || (y mod 400 =? 0).

Definition days_in_month (y m : Z) : Z :=
  if m =? 2 then (if is_leap y then 29 else 28)
  else if (m =? 4) || (m =? 6) || (m =? 9) || (m =? 11) then 30
  else 31.

(** Day number of a calendar date (days since 1970-01-01). *)
Definition days_from_civil (y m d : Z) : Z :=
  let y' := if m <=? 2 then y - 1 else y in
  let era := y' / 400 in
  let yoe := y' - era * 400 in
  let mp := (m + 9) mod 12 in
  let doy := (153 * mp + 2) / 5 + d - 1 in
  let doe := yoe * 365 + yoe / 4 - yoe / 100 + doy in
  era * 146097 + doe - 719468.

(** Conversion of a "YYYY-MM-DD" literal to a DATE value; a literal that
    names no calendar day does not convert. *)
Definition date_of_text (s : string) : option Z :=
  if Js.matches YYYYMMDD s then
    let y := Js.digits_value 0 (String.substring 0 4 s) in
    let m := two_digits s 5 in
    let d := two_digits s 8 in
    if (1 <=? m) && (m <=? 12) && (1 <=? d) && (d <=? days_in_month y m)
    then Some (days_from_civil y m d) else None
  else None.

(** *** Rows *)

Record Appointment : Type := {
  a_id : Z;
  a_name : string;
  a_phoneNumber : option string;
  a_email : option string;
  a_date : Z;
  a_time : Z;
  a_duration : Z;
  a_type : string;
  a_comments : option string;
  a_active : Z;
  a_paid : Z;
}.

(** [business_hours] is keyed by [week_day]; a row holds the other columns. *)
Record BusinessHour : Type := {
  bh_start_time : option Z;
  bh_end_time : option Z;
  bh_is_open : Z;
}.

Record HolidayHour : Type := {
  h_id : Z;
  h_start_date : Z;
  h_end_date : option Z;
  h_holiday : string;
  h_comment : option string;
  h_is_open : Z;
  h_start_time : option Z;
  h_end_time : option Z;
}.

Record DB : Type := {
  appointments : list Appointment;
  next_appointment_id : Z;
  business_hours : gmap Z BusinessHour;
  holiday_hours : list HolidayHour;
  next_holiday_id : Z;
}.

(** The statements of the routes embedded here, for the failure oracle. *)
Inductive Stmt : Type :=
| HolidayForDate
| BusinessHoursForDay
| AppointmentsOnDate
| ConflictCheck
| InsertAppointment
| UpdateAppointment
| SelectAppointment
| ListAppointments
| ListBusinessHours
| UpsertBusinessHours
| CloseBusinessHours
| ListHolidays
| InsertHoliday
| UpdateHoliday
| DeleteHoliday
| HolidayInfo.

Definition Faults : Type := Stmt -> bool.

Definition no_faults : Faults := fun _ => false.

(** *** The ranged holiday lookup

    [WHERE start_date <= ? AND COALESCE(end_date, start_date) >= ?
     ORDER BY (COALESCE(end_date, start_date) = start_date) DESC,
              DATEDIFF(COALESCE(end_date, start_date), start_date) ASC,
              id ASC
     LIMIT 1] *)

Definition effective_end (h : HolidayHour) : Z :=
  default (h_start_date h) (h_end_date h).

Definition covers (d : Z) (h : HolidayHour) : bool :=
  (h_start_date h <=? d) && (effective_end h >=? d).

Definition single_day (h : HolidayHour) : bool :=
  effective_end h =? h_start_date h.

Definition span (h : HolidayHour) : Z := effective_end h - h_start_date h.

(** [h1] sorts strictly before [h2] under the ORDER BY clause. *)
Definition sorts_before (h1 h2 : HolidayHour) : bool :=
  if negb (Bool.eqb (single_day h1) (single_day h2)) then single_day h1
  else if negb (span h1 =? span h2) then span h1 <? span h2
  else h_id h1 <? h_id h2.

(** First row of the ordering among [rows]. *)
Fixpoint first_by {A : Type} (before : A -> A -> bool) (rows : list A) : option A :=
  match rows with
  | [] => None
  | r :: rest =>
      match first_by before rest with
      | Some b => if before b r then Some b else Some r
      | None => Some r
      end
  end.

Definition holiday_for_date (d : Z) (rows : list HolidayHour) : option HolidayHour :=
  first_by sorts_before (filter (fun h => covers d h = true) rows).

(** *** The overlap condition of the conflict checks

    [TIME(?) < ADDTIME(time, SEC_TO_TIME(duration*60))
     AND ADDTIME(TIME(?), SEC_TO_TIME(?*60)) > time]
    A start that does not convert makes [TIME(?)] NULL and the condition
    fail for every row. *)
Definition sql_overlaps (start : option Z) (dur : Z) (a : Appointment) : bool :=
  match start with
  | Some s => (s <? a_time a + a_duration a * 60) && (s + dur * 60 >? a_time a)
  | None => false
  end.

(** Insertion sort, for the ORDER BY clauses of the listings. *)
Fixpoint insert_by {A : Type} (le : A -> A -> bool) (x : A) (l : list A) : list A :=
  match l with
  | [] => [x]
  | y :: r => if le x y then x :: l else y :: insert_by le x r
  end.

Definition sort_by {A : Type} (le : A -> A -> bool) (l : list A) : list A :=
  foldr (insert_by le) [] l.

End Sql.

(* ================================================================== *)
(** ** Requests, responses and the helpers of the route files *)

Module App.
Import Js Sql.

Record User : Type := {
  u_id : Z;
  u_email : string;
  u_role : string;
}.

(** [req.body || {}], restricted to the fields some route reads. *)
Record Body : Type := {
  name : option string;
  phoneNumber : option string;
  email : option string;
  date : option string;
  time : option string;
  duration : val;
  type : option string;
  comments : option string;
  active : val;
  paid : val;
  is_open : val;
  start_time : option string;
  end_time : option string;
  start_date : option string;
  end_date : option string;
  holiday : option string;
  comment : option string;
}.

(** A request: the session's user, the route parameters, the query string
    as decoded key by key (a repeated or bracketed key, which the parser
    would turn into an array or an object, is not modelled) and the body. *)
Record Request : Type := {
  session_user : option User;
  params : list (string * string);
  query : list (string * string);
  body : Body;
}.

(** First value bound to [key], as [req.query.key] and [req.params.key]. *)
Fixpoint field (key : string) (kvs : list (string * string)) : option string :=
  match kvs with
  | [] => None
  | (k, v) :: rest => if String.eqb k key then Some v else field key rest
  end.

(** What [res.json] is given: an object built by the handler, or rows as
    the driver returned them. *)
Inductive Payload : Type :=
| Json (j : json)
| AppointmentRows (rows : list Appointment)
| AppointmentRow (row : option Appointment)
| BusinessHourRows (rows : list (Z * BusinessHour))
| HolidayRows (rows : list HolidayHour).

Record Response : Type := {
  status : Z;
  payload : Payload;
}.

Definition respond (code : Z) (fields : list (string * json)) : Response :=
  {| status := code; payload := Json (JObj fields) |}.

Definition message (code : Z) (text : string) : Response :=
  respond code [("message", JStr text)].

Definition error (code : Z) (text : string) : Response :=
  respond code [("error", JStr text)].

(** *** Helpers *)

Definition onlyDigits (s : string) : string := strip_non_digits s.

Definition normalizeNANPTo10 (raw : string) : option string :=
  let d := onlyDigits raw in
  if (String.length d =? 10)%nat then Some d
  else if (String.length d =? 11)%nat && startsWith "1" d then Some (slice1 d)
  else None.

Definition isISODate (s : option string) : bool :=
  matches YYYYMMDD (default "" s).

Definition normalizeTimeHHMMSS (t : option string) : option string :=
  match t with
  | None => None
  | Some s =>
      if String.eqb s "" then None
      else if negb (matches HHMM s || matches HHMMSS s) then None
      else if (String.length s =? 5)%nat then Some (s +:+ ":00") else Some s
  end.

Definition isValidWeekday (n : num) : bool :=
  match n with
  | Some z => (1 <=? z) && (z <=? 7)
  | None => false
  end.

Definition toHHMM (timeStr : string) : string := slice0 5 timeStr.

Definition addMinutesHHMM (hhmm : string) (mins : Z) : string :=
  let parts := Number <$> split ":" hhmm in
  match default None (parts !! 0%nat), default None (parts !! 1%nat) with
  | Some H, Some M =>
      let total := H * 60 + M + mins in
      let h := total / 60 in
      let m := Z.rem total 60 in
      padStart 2 "0" (String_ (Some h)) +:+ ":" +:+ padStart 2 "0" (String_ (Some m))
  | _, _ => "NaN:NaN"
  end.

Definition jsWeekdayMonday1to7 (api : DateApi) (dateISO : string) : num :=
  match Date_parse api (dateISO +:+ "T00:00:00") with
  | Some d => let n := getDay api d in Some (if n =? 0 then 7 else n)
  | None => None
  end.

(** *** Guards *)

Inductive Outcome : Type :=
| Next
| Done (r : Response).

Definition Guard : Type := Request -> Outcome.

Definition requireAuth : Guard := fun req =>
  match session_user req with
  | Some _ => Next
  | None => Done (message 401 "Not authenticated")
  end.

Definition requireRole (role : string) : Guard := fun req =>
  match session_user req with
  | Some u => if String.eqb (u_role u) role then Next
              else Done (message 403 "Forbidden")
  | None => Done (message 403 "Forbidden")
  end.

(** *** GET /api/availability *)

Definition availability_body (date : string) (slotMinutes : Z)
    (times : list string) (meta : list (string * json)) : Response :=
  respond 200 ([("date", JStr date); ("slotMinutes", JNum slotMinutes);
                ("times", JArr (JStr <$> times))] ++ meta).

(** The candidate loop
    [for (t = start; addMinutesHHMM(t, slotMinutes) <= end;
          t = addMinutesHHMM(t, slotMinutes)) candidates.push(t)];
    [None] when [fuel] iterations do not reach the exit. *)
Fixpoint candidates_from (fuel : nat) (t e : string) (slotMinutes : Z)
    : option (list string) :=
  match fuel with
  | O => None
  | S fuel' =>
      if str_le (addMinutesHHMM t slotMinutes) e then
        cons t <$> candidates_from fuel' (addMinutesHHMM t slotMinutes) e slotMinutes
      else Some []
  end.

Definition overlaps (s e S E : string) : bool := str_lt s E && str_gt e S.

Definition is_today (api : DateApi) (now : Z) (date : string) : bool :=
  String.eqb
    (match Date_parse api (date +:+ "T00:00:00") with
     | Some d => toDateString api d
     | None => "Invalid Date"
     end)
    (toDateString api now).

Definition in_future (api : DateApi) (now : Z) (date t : string) : bool :=
  match Date_parse api (date +:+ "T" +:+ t +:+ ":00") with
  | Some d => d >? now
  | None => false
  end.

(** [SELECT id, time, duration FROM appointments WHERE date = ?] *)
Definition appointments_on (faults : Faults) (db : DB) (date : string)
    : option (list Appointment) :=
  if faults AppointmentsOnDate then None
  else match date_of_text date with
       | Some d => Some (filter (fun a => a_date a = d) (appointments db))
       | None => None
       end.

Definition existing_of (aRows : list Appointment) : list (string * string) :=
  (fun r => (toHHMM (time_text (a_time r)),
             addMinutesHHMM (toHHMM (time_text (a_time r)))
                            (or_num (Some (a_duration r)) 0))) <$> aRows.

Definition is_free (slotMinutes : Z) (existing : list (string * string))
    (t : string) : bool :=
  let endT := addMinutesHHMM t slotMinutes in
  negb (existsb (fun ex => overlaps t endT (fst ex) (snd ex)) existing).

Definition handleWithWindow (api : DateApi) (now : Z) (faults : Faults)
    (db : DB) (fuel : nat) (date : string) (slotMinutes : Z)
    (startTimeStr endTimeStr : option string) (meta : list (string * json))
    : option Response :=
  match startTimeStr, endTimeStr with
  | Some startTimeStr, Some endTimeStr =>
      let start := toHHMM startTimeStr in
      let e := toHHMM endTimeStr in
      match candidates_from fuel start e slotMinutes with
      | None => None
      | Some candidates =>
          let future :=
            if is_today api now date
            then List.filter (in_future api now date) candidates
            else candidates in
          match future with
          | [] => Some (availability_body date slotMinutes [] meta)
          | _ =>
              match appointments_on faults db date with
              | None => Some (error 500 "Database error")
              | Some aRows =>
                  let existing := existing_of aRows in
                  let free := List.filter (is_free slotMinutes existing) future in
                  Some (availability_body date slotMinutes free meta)
              end
          end
      end
  | _, _ => Some (availability_body date slotMinutes [] meta)
  end.

(** [SELECT ... FROM holiday_hours WHERE ... ORDER BY ... LIMIT 1] *)
Definition holiday_rows (stmt : Stmt) (faults : Faults) (db : DB) (date : string)
    : option (list HolidayHour) :=
  if faults stmt then None
  else match date_of_text date with
       | Some d => Some (option_list (holiday_for_date d (holiday_hours db)))
       | None => None
       end.

(** [SELECT start_time, end_time FROM business_hours WHERE week_day = ? LIMIT 1] *)
Definition business_rows (faults : Faults) (db : DB) (weekDay : num)
    : option (list BusinessHour) :=
  if faults BusinessHoursForDay then None
  else match weekDay with
       | Some w => Some (option_list (business_hours db !! w))
       | None => None
       end.

Definition holiday_meta (h : HolidayHour) (open : bool) : list (string * json) :=
  [("holidayLabel", text_or_null (Some (h_holiday h)));
   ("holidayComment", text_or_null (h_comment h));
   ("isOpenOverride", JBool open)].

Definition weekly_window (api : DateApi) (now : Z) (faults : Faults) (db : DB)
    (fuel : nat) (date : string) (slotMinutes : Z) : option Response :=
  let weekDay := jsWeekdayMonday1to7 api date in
  match business_rows faults db weekDay with
  | None => Some (error 500 "Database error")
  | Some [] => Some (availability_body date slotMinutes [] [])
  | Some (b :: _) =>
      handleWithWindow api now faults db fuel date slotMinutes
        (time_text <$> bh_start_time b) (time_text <$> bh_end_time b) []
  end.

(** The handler's [try]/[catch] guards code that does not throw on the
    requests modelled here; its 500 "Unexpected error" branch is left out.
    [excludeId] is parsed and not used. *)
Definition GET_availability (api : DateApi) (now : Z) (faults : Faults)
    (fuel : nat) (req : Request) (db : DB) : option Response :=
  let date := field "date" (query req) in
  let slotMinutes := Z.max 5 (or_num (parseInt (field "slotMinutes" (query req))) 30) in
  let excludeId := parseInt (field "excludeId" (query req)) in
  if negb (isISODate date) then Some (error 400 "date must be YYYY-MM-DD")
  else
    let date := default "" date in
    match holiday_rows HolidayForDate faults db date with
    | None => Some (error 500 "Database error")
    | Some hRows =>
        match hRows with
        | h :: _ =>
            if h_is_open h =? 0 then
              Some (availability_body date slotMinutes [] (holiday_meta h false))
            else if h_is_open h =? 1 then
              handleWithWindow api now faults db fuel date slotMinutes
                (time_text <$> h_start_time h) (time_text <$> h_end_time h)
                (holiday_meta h true)
            else weekly_window api now faults db fuel date slotMinutes
        | [] => weekly_window api now faults db fuel date slotMinutes
        end
    end.

(** *** GET /api/holiday-info *)

Definition time_json (t : option Z) : json :=
  match t with
  | Some t => JStr (date_format_Hi t)
  | None => JNull
  end.

Definition option_json (o : option string) : json :=
  match o with
  | Some s => JStr s
  | None => JNull
  end.

Definition holiday_info_body (rows : list HolidayHour) : Response :=
  match rows with
  | [] => respond 200 [("exists", JBool false)]
  | r :: _ =>
      respond 200 [("exists", JBool true);
                   ("holiday", JStr (h_holiday r));
                   ("comment", option_json (h_comment r));
                   ("is_open", JBool (h_is_open r =? 1));
                   ("start_time", time_json (h_start_time r));
                   ("end_time", time_json (h_end_time r))]
  end.

(** [src/api/[...all].js]: the ranged, ordered lookup. *)
Definition GET_holiday_info (faults : Faults) (req : Request) (db : DB) : Response :=
  let date := field "date" (query req) in
  if negb (isISODate date) then error 400 "date must be YYYY-MM-DD"
  else
    match holiday_rows HolidayInfo faults db (default "" date) with
    | None => error 500 "Database error"
    | Some rows => holiday_info_body rows
    end.

(** Modelled from the spec: the columns of [holiday_hours] (the table
    definition is not part of the sources; section 6 lists the columns,
    and they are the ones every other statement of both files names).
    A DATE column is found by its name. *)
Definition holiday_date_column (column : string) : option (HolidayHour -> option Z) :=
  if String.eqb column "start_date" then Some (fun h => Some (h_start_date h))
  else if String.eqb column "end_date" then Some h_end_date
  else None.

(** [SELECT ... FROM holiday_hours WHERE <column> = ? LIMIT 1]; a column the
    table does not have makes the statement fail. *)
Definition holiday_rows_where (column : string) (faults : Faults) (db : DB)
    (date : string) : option (list HolidayHour) :=
  if faults HolidayInfo then None
  else match holiday_date_column column, date_of_text date with
       | Some col, Some d =>
           Some (take 1 (filter (fun h => col h = Some d) (holiday_hours db)))
       | _, _ => None
       end.

(** [src/appointment-database/index.js]: [WHERE date = ?]. *)
Definition GET_holiday_info_listener (faults : Faults) (req : Request) (db : DB)
    : Response :=
  let date := field "date" (query req) in
  if negb (isISODate date) then error 400 "date must be YYYY-MM-DD"
  else
    match holiday_rows_where "date" faults db (default "" date) with
    | None => error 500 "Database error"
    | Some rows => holiday_info_body rows
    end.

(** *** POST /api/BookAppointment *)

Definition valid_duration (dur : num) : bool :=
  match dur with
  | Some d => (d =? 30) || (d =? 60)
  | None => false
  end.

(** What the validation hands to the storage steps. *)
Record Booking : Type := {
  bk_name : string;
  bk_phone10 : option string;
  bk_email : option string;
  bk_date : string;
  bk_startHHMM : string;
  bk_dur : Z;
  bk_type : string;
  bk_comments : option string;
}.

Definition nonempty (o : option string) : option string :=
  match o with
  | Some s => if String.eqb s "" then None else Some s
  | None => None
  end.

Definition in_past (api : DateApi) (now : Z) (text : string) : bool :=
  match Date_parse api text with
  | Some t => t <? now
  | None => false
  end.

Definition book_validate (api : DateApi) (now : Z) (b : Body)
    : Response + Booking :=
  if negb (truthy_text (name b)) || negb (truthy_text (date b))
     || negb (truthy_text (time b)) || negb (truthy (duration b))
     || negb (truthy_text (type b))
  then inl (message 400 "Missing required fields")
  else
    let dur := Number_val (duration b) in
    if negb (valid_duration dur)
    then inl (message 400 "Duration must be 30 or 60 minutes")
    else
      let phone10 :=
        match nonempty (phoneNumber b) with
        | Some p => normalizeNANPTo10 p
        | None => None
        end in
      if truthy_text (phoneNumber b) && negb (bool_decide (is_Some phone10))
      then inl (message 400 "Invalid phone number")
      else
        let startHHMM := slice0 5 (default "" (time b)) in
        let date := default "" (date b) in
        if negb (matches HHMM startHHMM) || negb (matches YYYYMMDD date)
        then inl (message 400 "Invalid date/time")
        else if in_past api now (date +:+ "T" +:+ startHHMM)
        then inl (message 400 "Appointment cannot be in the past")
        else inr {| bk_name := default "" (name b);
                    bk_phone10 := phone10;
                    bk_email := nonempty (email b);
                    bk_date := date;
                    bk_startHHMM := startHHMM;
                    bk_dur := default 0 dur;
                    bk_type := default "" (type b);
                    bk_comments := nonempty (comments b) |}.

(** [SELECT id FROM appointments WHERE date = ? AND <overlap> LIMIT 1],
    with [AND id <> ?] for the update. *)
Definition conflict_rows (faults : Faults) (db : DB) (date : string)
    (skip : option Z) (startHHMM : string) (dur : Z) : option (list Appointment) :=
  if faults ConflictCheck then None
  else match date_of_text date with
       | Some d =>
           Some (take 1 (filter
             (fun a => a_date a = d /\ Some (a_id a) <> skip /\
                       sql_overlaps (time_of_text startHHMM) dur a = true)
             (appointments db)))
       | None => None
       end.

Definition new_appointment (id d t : Z) (k : Booking) : Appointment :=
  {| a_id := id; a_name := bk_name k; a_phoneNumber := bk_phone10 k;
     a_email := bk_email k; a_date := d; a_time := t; a_duration := bk_dur k;
     a_type := bk_type k; a_comments := bk_comments k;
     a_active := 1; a_paid := 0 |}.

(** [INSERT INTO appointments (...) VALUES (?, ?, ?, ?, ?, ?, ?, ?, 1, 0)] *)
Definition insert_appointment (faults : Faults) (db : DB) (k : Booking) : option DB :=
  if faults InsertAppointment then None
  else match date_of_text (bk_date k), time_of_text (bk_startHHMM k +:+ ":00") with
       | Some d, Some t =>
           Some {| appointments :=
                     appointments db ++ [new_appointment (next_appointment_id db) d t k];
                   next_appointment_id := next_appointment_id db + 1;
                   business_hours := business_hours db;
                   holiday_hours := holiday_hours db;
                   next_holiday_id := next_holiday_id db |}
       | _, _ => None
       end.

Definition book_store (faults : Faults) (db : DB) (k : Booking) : Response * DB :=
  match conflict_rows faults db (bk_date k) None (bk_startHHMM k) (bk_dur k) with
  | None => (message 500 "Database error", db)
  | Some (_ :: _) => (message 409 "Time conflict with another appointment", db)
  | Some [] =>
      match insert_appointment faults db k with
      | None => (message 500 "Database error", db)
      | Some db' => (message 200 "Appointment saved successfully", db')
      end
  end.

Definition POST_BookAppointment (api : DateApi) (now : Z) (faults : Faults)
    (req : Request) (db : DB) : Response * DB :=
  match book_validate api now (body req) with
  | inl r => (r, db)
  | inr k => book_store faults db k
  end.

(** *** PUT /api/appointments/:id *)

Definition positive_id (n : num) : option Z :=
  match n with
  | Some z => if z <=? 0 then None else Some z
  | None => None
  end.

Record Edit : Type := {
  ed_id : Z;
  ed_booking : Booking;
  ed_active : val;
  ed_paid : val;
}.

Definition update_validate (api : DateApi) (now : Z) (req : Request)
    : Response + Edit :=
  let b := body req in
  match positive_id (field "id" (params req) ≫= Number) with
  | None => inl (message 400 "Invalid appointment id")
  | Some apptId =>
      if negb (truthy_text (name b)) || negb (truthy_text (date b))
         || negb (truthy_text (time b)) || negb (truthy (duration b))
         || negb (truthy_text (type b))
      then inl (message 400 "Missing required fields")
      else
        let dur := Number_val (duration b) in
        if negb (valid_duration dur)
        then inl (message 400 "Duration must be 30 or 60 minutes")
        else
          let phone10 :=
            match nonempty (phoneNumber b) with
            | Some p => normalizeNANPTo10 p
            | None => None
            end in
          if bool_decide (is_Some (nonempty (phoneNumber b)))
             && negb (bool_decide (is_Some phone10))
          then inl (message 400 "Invalid phone number")
          else
            let startHHMM := slice0 5 (default "" (time b)) in
            let date := default "" (date b) in
            match Date_parse api (date +:+ "T" +:+ startHHMM) with
            | None => inl (message 400 "Invalid date/time")
            | Some selectedDateTime =>
                if selectedDateTime <? now
                then inl (message 400 "Appointment cannot be in the past")
                else inr {| ed_id := apptId;
                            ed_booking :=
                              {| bk_name := default "" (name b);
                                 bk_phone10 := phone10;
                                 bk_email := nonempty (email b);
                                 bk_date := date;
                                 bk_startHHMM := startHHMM;
                                 bk_dur := default 0 dur;
                                 bk_type := default "" (type b);
                                 bk_comments := nonempty (comments b) |};
                            ed_active := active b;
                            ed_paid := paid b |}
            end
  end.

Definition flag (v : val) (old : Z) : Z :=
  match v with
  | VUndef => old
  | _ => if truthy v then 1 else 0
  end.

Definition edit_row (e : Edit) (d t : Z) (a : Appointment) : Appointment :=
  let k := ed_booking e in
  {| a_id := a_id a; a_name := bk_name k;
     a_phoneNumber :=
       match bk_phone10 k with Some p => Some p | None => a_phoneNumber a end;
     a_email := bk_email k; a_date := d; a_time := t; a_duration := bk_dur k;
     a_type := bk_type k; a_comments := bk_comments k;
     a_active := flag (ed_active e) (a_active a);
     a_paid := flag (ed_paid e) (a_paid a) |}.

(** [UPDATE appointments SET ... WHERE id = ?] *)
Definition update_appointment (faults : Faults) (db : DB) (e : Edit) : option DB :=
  let k := ed_booking e in
  if faults UpdateAppointment then None
  else match date_of_text (bk_date k), time_of_text (bk_startHHMM k +:+ ":00") with
       | Some d, Some t =>
           Some {| appointments :=
                     (fun a => if a_id a =? ed_id e then edit_row e d t a else a)
                       <$> appointments db;
                   next_appointment_id := next_appointment_id db;
                   business_hours := business_hours db;
                   holiday_hours := holiday_hours db;
                   next_holiday_id := next_holiday_id db |}
       | _, _ => None
       end.

Definition update_store (faults : Faults) (db : DB) (e : Edit) : Response * DB :=
  let k := ed_booking e in
  match conflict_rows faults db (bk_date k) (Some (ed_id e)) (bk_startHHMM k) (bk_dur k) with
  | None => (message 500 "Database error", db)
  | Some (_ :: _) => (message 409 "Time conflict with another appointment", db)
  | Some [] =>
      match update_appointment faults db e with
      | None => (message 500 "Failed to update appointment", db)
      | Some db' =>
          if faults SelectAppointment
          then (message 500 "Updated but failed to fetch", db')
          else ({| status := 200;
                   payload := AppointmentRow
                     (head (filter (fun a => a_id a = ed_id e) (appointments db'))) |},
                db')
      end
  end.

Definition PUT_appointment (api : DateApi) (now : Z) (faults : Faults)
    (req : Request) (db : DB) : Response * DB :=
  match update_validate api now req with
  | inl r => (r, db)
  | inr e => update_store faults db e
  end.

(** *** GET /api/appointments *)

Definition filter_columns : list string :=
  ["id"; "name"; "phoneNumber"; "email"; "date"; "time"; "duration"; "type";
   "comments"; "active"; "paid"].

Definition by_date_time (a b : Appointment) : bool :=
  (a_date a <? a_date b) || ((a_date a =? a_date b) && (a_time a <=? a_time b)).

(** [column_equals] is the server's [column = ?] on a row of
    [appointments]; it depends on collations and coercions that the sources
    do not fix, and is left to the caller. *)
Definition GET_appointments (column_equals : string -> string -> Appointment -> bool)
    (faults : Faults) (req : Request) (db : DB) : Response :=
  let filters := query req in
  let conditions :=
    filter (fun kv => fst kv ∈ filter_columns) filters in
  let lim :=
    match nonempty (field "limit" filters) with
    | Some l => positive_id (Number l)
    | None => None
    end in
  if faults ListAppointments then message 500 "Database error"
  else
    let rows :=
      sort_by by_date_time
        (List.filter
           (fun a => forallb (fun kv => column_equals (fst kv) (snd kv) a) conditions)
           (appointments db)) in
    {| status := 200;
       payload := AppointmentRows
         (match lim with Some n => take (Z.to_nat n) rows | None => rows end) |}.

(** *** Weekly business hours *)

Definition set_business_hours (db : DB) (m : gmap Z BusinessHour) : DB :=
  {| appointments := appointments db;
     next_appointment_id := next_appointment_id db;
     business_hours := m;
     holiday_hours := holiday_hours db;
     next_holiday_id := next_holiday_id db |}.

Definition GET_business_hours (faults : Faults) (req : Request) (db : DB) : Response :=
  if faults ListBusinessHours then error 500 "Failed to load business hours"
  else {| status := 200;
          payload := BusinessHourRows
            (sort_by (fun x y => fst x <=? fst y) (map_to_list (business_hours db))) |}.

(** A nullable TIME parameter: NULL, a value, or a literal that does not
    convert. *)
Definition time_param (o : option string) : option (option Z) :=
  match o with
  | None => Some None
  | Some s => Some <$> time_of_text s
  end.

Definition PUT_business_hours (faults : Faults) (req : Request) (db : DB)
    : Response * DB :=
  let day := field "week_day" (params req) ≫= Number in
  if negb (isValidWeekday day) then (error 400 "week_day must be 1..7", db)
  else
    let isOpen := truthy (is_open (body req)) in
    let start := normalizeTimeHHMMSS (start_time (body req)) in
    let e := normalizeTimeHHMMSS (end_time (body req)) in
    if isOpen && negb (bool_decide (is_Some start) && bool_decide (is_Some e))
    then (error 400 "When is_open is true, start_time and end_time are required", db)
    else if isOpen && str_ge (default "" start) (default "" e)
    then (error 400 "start_time must be before end_time", db)
    else
      match (if faults UpsertBusinessHours then None else Some tt),
            time_param start, time_param e with
      | Some _, Some st, Some et =>
          (respond 200 [("ok", JBool true)],
           set_business_hours db
             (<[default 0 day :=
                  {| bh_start_time := st; bh_end_time := et;
                     bh_is_open := if isOpen then 1 else 0 |}]>
                (business_hours db)))
      | _, _, _ => (error 500 "Failed to save", db)
      end.

(** Modelled from the spec: [start_time] and [end_time] of [business_hours]
    are nullable (section 3) and the table definition, which is not part
    of the sources, gives them no other default, so a row inserted without
    them holds NULL in both. *)
Definition closed_row : BusinessHour :=
  {| bh_start_time := None; bh_end_time := None; bh_is_open := 0 |}.

(** [INSERT INTO business_hours (week_day, is_open) VALUES (?, 0)
     ON DUPLICATE KEY UPDATE is_open = VALUES(is_open)] *)
Definition close_weekday (day : Z) (m : gmap Z BusinessHour) : gmap Z BusinessHour :=
  match m !! day with
  | Some r =>
      <[day := {| bh_start_time := bh_start_time r; bh_end_time := bh_end_time r;
                  bh_is_open := 0 |}]> m
  | None => <[day := closed_row]> m
  end.

Definition DELETE_business_hours (faults : Faults) (req : Request) (db : DB)
    : Response * DB :=
  let day := field "week_day" (params req) ≫= Number in
  if negb (isValidWeekday day) then (error 400 "week_day must be 1..7", db)
  else if faults CloseBusinessHours then (error 500 "Failed to close weekday", db)
  else (respond 200 [("ok", JBool true)],
        set_business_hours db (close_weekday (default 0 day) (business_hours db))).

(** *** Holiday overrides (admin) *)

Definition set_holiday_hours (db : DB) (rows : list HolidayHour) (next : Z) : DB :=
  {| appointments := appointments db;
     next_appointment_id := next_appointment_id db;
     business_hours := business_hours db;
     holiday_hours := rows;
     next_holiday_id := next |}.

Definition by_start_end_id (a b : HolidayHour) : bool :=
  (h_start_date a <? h_start_date b)
  || ((h_start_date a =? h_start_date b)
      && ((effective_end a <? effective_end b)
          || ((effective_end a =? effective_end b) && (h_id a <=? h_id b)))).

Definition normalize_open (h : HolidayHour) : HolidayHour :=
  {| h_id := h_id h; h_start_date := h_start_date h; h_end_date := h_end_date h;
     h_holiday := h_holiday h; h_comment := h_comment h;
     h_is_open := if h_is_open h =? 1 then 1 else 0;
     h_start_time := h_start_time h; h_end_time := h_end_time h |}.

Definition GET_holiday_hours (faults : Faults) (req : Request) (db : DB) : Response :=
  let from := field "from" (query req) in
  let to := field "to" (query req) in
  if negb (isISODate from) || negb (isISODate to)
  then error 400 "from and to (YYYY-MM-DD) are required"
  else
    match (if faults ListHolidays then None else Some tt),
          date_of_text (default "" from), date_of_text (default "" to) with
    | Some _, Some f, Some t =>
        {| status := 200;
           payload := HolidayRows
             (normalize_open <$>
                sort_by by_start_end_id
                  (List.filter
                     (fun h => negb ((effective_end h <? f) || (h_start_date h >? t)))
                     (holiday_hours db))) |}
    | _, _, _ => error 500 "Failed to load holiday hours"
    end.

(** The values of a holiday row as the create and update routes pass them
    to their statements. *)
Record HolidayValues : Type := {
  hv_start_date : string;
  hv_end_date : option string;
  hv_holiday : string;
  hv_comment : option string;
  hv_open : bool;
  hv_st : option string;
  hv_et : option string;
}.

(** The validation that the create and the update route both carry. *)
Definition holiday_validate (b : Body) : Response + HolidayValues :=
  if negb (isISODate (start_date b))
  then inl (error 400 "start_date must be YYYY-MM-DD")
  else if truthy_text (end_date b) && negb (isISODate (end_date b))
  then inl (error 400 "end_date must be YYYY-MM-DD")
  else if negb (truthy_text (holiday b))
          || String.eqb (trim (default "" (holiday b))) ""
  then inl (error 400 "holiday is required")
  else
    let open := truthy (is_open b) in
    let st := if open then normalizeTimeHHMMSS (start_time b) else None in
    let et := if open then normalizeTimeHHMMSS (end_time b) else None in
    if open && negb (bool_decide (is_Some st) && bool_decide (is_Some et))
    then inl (error 400 "start_time and end_time required when is_open=true")
    else if open && str_ge (default "" st) (default "" et)
    then inl (error 400 "start_time must be before end_time")
    else if truthy_text (end_date b)
            && str_lt (default "" (end_date b)) (default "" (start_date b))
    then inl (error 400 "end_date must be on/after start_date")
    else inr {| hv_start_date := default "" (start_date b);
                hv_end_date := end_date b;
                hv_holiday := trim (default "" (holiday b));
                hv_comment := trim <$> nonempty (comment b);
                hv_open := open;
                hv_st := st;
                hv_et := et |}.

Definition date_param (o : option string) : option (option Z) :=
  match o with
  | None => Some None
  | Some s => Some <$> date_of_text s
  end.

(** The row of given id that the values convert to, if they all convert. *)
Definition holiday_row (id : Z) (v : HolidayValues) : option HolidayHour :=
  match date_of_text (hv_start_date v), date_param (hv_end_date v),
        time_param (hv_st v), time_param (hv_et v) with
  | Some sd, Some ed, Some st, Some et =>
      Some {| h_id := id; h_start_date := sd; h_end_date := ed;
              h_holiday := hv_holiday v; h_comment := hv_comment v;
              h_is_open := if hv_open v then 1 else 0;
              h_start_time := st; h_end_time := et |}
  | _, _, _, _ => None
  end.

Definition POST_holiday_hours (faults : Faults) (req : Request) (db : DB)
    : Response * DB :=
  match holiday_validate (body req) with
  | inl r => (r, db)
  | inr v =>
      match (if faults InsertHoliday then None else holiday_row (next_holiday_id db) v) with
      | None => (error 500 "Failed to save holiday", db)
      | Some row =>
          (respond 200 [("ok", JBool true); ("id", JNum (h_id row))],
           set_holiday_hours db (holiday_hours db ++ [row]) (next_holiday_id db + 1))
      end
  end.

Definition PUT_holiday_hours (faults : Faults) (req : Request) (db : DB)
    : Response * DB :=
  match positive_id (parseInt (field "id" (params req))) with
  | None => (error 400 "Invalid id", db)
  | Some id =>
      match holiday_validate (body req) with
      | inl r => (r, db)
      | inr v =>
          match (if faults UpdateHoliday then None else holiday_row id v) with
          | None => (error 500 "Failed to update holiday", db)
          | Some row =>
              if existsb (fun h => h_id h =? id) (holiday_hours db)
              then (respond 200 [("ok", JBool true)],
                    set_holiday_hours db
                      ((fun h => if h_id h =? id then row else h) <$> holiday_hours db)
                      (next_holiday_id db))
              else (error 404 "Not found", db)
          end
      end
  end.

Definition DELETE_holiday_hours (faults : Faults) (req : Request) (db : DB)
    : Response * DB :=
  match positive_id (parseInt (field "id" (params req))) with
  | None => (error 400 "Invalid id", db)
  | Some id =>
      if faults DeleteHoliday then (error 500 "Failed to delete holiday", db)
      else if existsb (fun h => h_id h =? id) (holiday_hours db)
      then (respond 200 [("ok", JBool true)],
            set_holiday_hours db
              (List.filter (fun h => negb (h_id h =? id)) (holiday_hours db))
              (next_holiday_id db))
      else (error 404 "Not found", db)
  end.

(** *** The route table *)

(** What a request meets besides the store: the clock, the failure oracle,
    the iteration bound of the candidate loop and the server's column
    comparison. *)
Record Env : Type := {
  api : DateApi;
  now : Z;
  faults : Faults;
  fuel : nat;
  column_equals : string -> string -> Appointment -> bool;
}.

Definition Handler : Type := Env -> Request -> DB -> option (Response * DB).

Record Route : Type := {
  method : string;
  path : string;
  guards : list Guard;
  handler : Handler;
}.

Inductive Variant : Type := Serverless | Listener.

Definition reads (f : Env -> Request -> DB -> Response) : Handler :=
  fun env req db => Some (f env req db, db).

Definition writes (f : Env -> Request -> DB -> Response * DB) : Handler :=
  fun env req db => Some (f env req db).

Definition admin : list Guard := [requireAuth; requireRole "admin"].

Definition routes (v : Variant) : list Route :=
  [ {| method := "GET"; path := "/api/availability"; guards := [];
       handler := fun env req db =>
         (fun r => (r, db)) <$>
           GET_availability (api env) (now env) (faults env) (fuel env) req db |};
    {| method := "PUT"; path := "/api/appointments/:id"; guards := admin;
       handler := writes (fun env => PUT_appointment (api env) (now env) (faults env)) |};
    {| method := "GET"; path := "/api/appointments"; guards := admin;
       handler := reads (fun env => GET_appointments (column_equals env) (faults env)) |};
    {| method := "GET"; path := "/api/admin/business-hours"; guards := admin;
       handler := reads (fun env => GET_business_hours (faults env)) |};
    {| method := "PUT"; path := "/api/admin/business-hours/:week_day"; guards := admin;
       handler := writes (fun env => PUT_business_hours (faults env)) |};
    {| method := "DELETE"; path := "/api/admin/business-hours/:week_day"; guards := admin;
       handler := writes (fun env => DELETE_business_hours (faults env)) |};
    {| method := "GET"; path := "/api/admin/holiday-hours"; guards := admin;
       handler := reads (fun env => GET_holiday_hours (faults env)) |};
    {| method := "POST"; path := "/api/admin/holiday-hours"; guards := admin;
       handler := writes (fun env => POST_holiday_hours (faults env)) |};
    {| method := "PUT"; path := "/api/admin/holiday-hours/:id"; guards := admin;
       handler := writes (fun env => PUT_holiday_hours (faults env)) |};
    {| method := "DELETE"; path := "/api/admin/holiday-hours/:id"; guards := admin;
       handler := writes (fun env => DELETE_holiday_hours (faults env)) |};
    {| method := "GET"; path := "/api/holiday-info"; guards := [];
       handler := reads (fun env =>
         match v with
         | Serverless => GET_holiday_info (faults env)
         | Listener => GET_holiday_info_listener (faults env)
         end) |};
    {| method := "POST"; path := "/api/BookAppointment"; guards := [];
       handler := writes (fun env => POST_BookAppointment (api env) (now env) (faults env)) |} ].

Fixpoint run_guards (gs : list Guard) (req : Request) : Outcome :=
  match gs with
  | [] => Next
  | g :: rest =>
      match g req with
      | Next => run_guards rest req
      | Done r => Done r
      end
  end.

(** A request served by a route: the guards in order, then the handler. *)
Definition serve (rt : Route) (env : Env) (req : Request) (db : DB)
    : option (Response * DB) :=
  match run_guards (guards rt) req with
  | Done r => Some (r, db)
  | Next => handler rt env req db
  end.

End App.

(* ================================================================== *)
(** ** The availability rule in the words of the specification

    Times are minutes since midnight.  The candidates are [start],
    [start + step], ... as long as the candidate's end does not exceed
    [end]; a candidate is free when its half-open interval meets no busy
    interval [(time, duration)]. *)

Module Spec.

Fixpoint starts (n : nat) (t step : Z) : list Z :=
  match n with
  | O => []
  | S n' => t :: starts n' (t + step) step
  end.

Definition candidate_starts (s e step : Z) : list Z :=
  starts (Z.to_nat ((e - s) / step)) s step.

Definition overlap (s1 e1 s2 e2 : Z) : bool := (s1 <? e2) && (e1 >? s2).

Definition free (step : Z) (busy : list (Z * Z)) (c : Z) : bool :=
  forallb (fun b => negb (overlap c (c + step) (fst b) (fst b + snd b))) busy.

Definition free_slots (s e step : Z) (busy : list (Z * Z)) : list Z :=
  List.filter (free step busy) (candidate_starts s e step).

(** "HH:MM" of a minute count. *)
Definition hhmm (m : Z) : string :=
  Sql.pad2 (m / 60) +:+ ":" +:+ Sql.pad2 (m mod 60).

(** The busy intervals of the appointments of a day, to the minute. *)
Definition busy_on (d : Z) (rows : list Sql.Appointment) : list (Z * Z) :=
  (fun a => (Sql.a_time a / 60, Sql.a_duration a))
    <$> filter (fun a => Sql.a_date a = d) rows.

End Spec.

(** The rows of a day that the comparison of "HH:MM" texts reads as
    intended: a start and an end below 100 hours. *)
Definition row_in_range (a : Sql.Appointment) : Prop :=
  0 <= Sql.a_time a /\ 0 <= Sql.a_duration a /\
  Sql.a_time a / 60 + Sql.a_duration a < 6000.

(** An appointment of day [d] whose [time, time + duration) meets the
    requested [t, t + dur); times in seconds, durations in minutes. *)
Definition overlapping (d t dur : Z) (a : Sql.Appointment) : Prop :=
  Sql.a_date a = d /\ t < Sql.a_time a + Sql.a_duration a * 60
  /\ t + dur * 60 > Sql.a_time a.



(** The endpoints that only an administrator may use. *)
Definition admin_endpoints : list (string * string) :=
  [("GET", "/api/appointments");
   ("PUT", "/api/appointments/:id");
   ("GET", "/api/admin/business-hours");
   ("PUT", "/api/admin/business-hours/:week_day");
   ("DELETE", "/api/admin/business-hours/:week_day");
   ("GET", "/api/admin/holiday-hours");
   ("POST", "/api/admin/holiday-hours");
   ("PUT", "/api/admin/holiday-hours/:id");
   ("DELETE", "/api/admin/holiday-hours/:id")].

(** The checks of the two appointment routes that come before the phone
    and the date: required fields and the duration. *)
Definition required_fields_ok (b : App.Body) : Prop :=
  Js.truthy_text (App.name b) = true /\ Js.truthy_text (App.date b) = true /\
  Js.truthy_text (App.time b) = true /\ Js.truthy (App.duration b) = true /\
  Js.truthy_text (App.type b) = true /\
  App.valid_duration (Js.Number_val (App.duration b)) = true.

(** A phone that is absent, empty, or normalizes. *)
Definition phone_ok (b : App.Body) : Prop :=
  match App.nonempty (App.phoneNumber b) with
  | Some p => is_Some (App.normalizeNANPTo10 p)
  | None => True
  end.

(* ================================================================== *)
(** ** Sample data: a clock in UTC, a store and some requests *)

Module Sample.
Import Js Sql App.

(** A stand-in for the runtime's [Date], in UTC, on the texts that the
    handlers build: "YYYY-MM-DDTHH:MM" and "YYYY-MM-DDTHH:MM:SS".  As in
    Node, the month is 01 to 12 and the day 01 to 31, a day past the end
    of its month rolling over into the next one (30 February is 2 March);
    the hour is 00 to 23 with minutes and seconds up to 59, or 24:00,
    the midnight that ends the day.  Every other text is no instant. *)
Definition parse (s : string) : option Z :=
  let date := String.substring 0 10 s in
  let time := String.substring 11 (String.length s - 11) s in
  if String.eqb (String.substring 10 1 s) "T" && matches YYYYMMDD date
     && (matches HHMM time || matches HHMMSS time)
  then
    let y := digits_value 0 (String.substring 0 4 date) in
    let m := two_digits date 5 in
    let d := two_digits date 8 in
    let h := two_digits time 0 in
    let mi := two_digits time 3 in
    let sec := if matches HHMMSS time then two_digits time 6 else 0 in
    if (1 <=? m) && (m <=? 12) && (1 <=? d) && (d <=? 31)
       && ((h <? 24) && (mi <? 60) && (sec <? 60)
           || (h =? 24) && (mi =? 0) && (sec =? 0))
    then Some (((days_from_civil y m 1 + (d - 1)) * 86400
                + h * 3600 + mi * 60 + sec) * 1000)
    else None
  else None.

Definition clock : DateApi :=
  {| Date_parse := parse;
     toDateString := fun t => String_ (Some (t / 86400000));
     getDay := fun t => (t / 86400000 + 4) mod 7 |}.

(** 2030-01-01T00:00 *)
Definition new_year : Z := 1893456000000.


(** 2030-06-03, a Monday. *)
Definition day : string := "2030-06-03".
Definition day_number : Z := 22068.

Definition nine_to_five : gmap Z BusinessHour :=
  {[ 1 := {| bh_start_time := Some 32400; bh_end_time := Some 61200; bh_is_open := 1 |} ]}.

Definition massage_at_ten : Appointment :=
  {| a_id := 1; a_name := "Ada"; a_phoneNumber := Some "5551234567";
     a_email := None; a_date := day_number; a_time := 36000; a_duration := 60;
     a_type := "consultation"; a_comments := None; a_active := 1; a_paid := 0 |}.

Definition christmas_break : HolidayHour :=
  {| h_id := 1; h_start_date := 22272; h_end_date := Some 22274;
     h_holiday := "Christmas break"; h_comment := None; h_is_open := 0;
     h_start_time := None; h_end_time := None |}.

Definition christmas_day : HolidayHour :=
  {| h_id := 2; h_start_date := 22273; h_end_date := None;
     h_holiday := "Christmas Day"; h_comment := Some "short day"; h_is_open := 1;
     h_start_time := Some 36000; h_end_time := Some 50400 |}.

Definition empty_store : DB :=
  {| appointments := []; next_appointment_id := 1;
     business_hours := nine_to_five;
     holiday_hours := [christmas_break; christmas_day]; next_holiday_id := 3 |}.

Definition busy_store : DB :=
  {| appointments := [massage_at_ten]; next_appointment_id := 2;
     business_hours := nine_to_five;
     holiday_hours := [christmas_break; christmas_day]; next_holiday_id := 3 |}.

Definition no_body : Body :=
  {| name := None; phoneNumber := None; email := None; date := None;
     time := None; duration := VUndef; type := None; comments := None;
     active := VUndef; paid := VUndef; is_open := VUndef;
     start_time := None; end_time := None; start_date := None;
     end_date := None; holiday := None; comment := None |}.

Definition booking_body (phone date time : string) (dur : val) : Body :=
  {| name := Some "Grace"; phoneNumber := Some phone; email := None;
     date := Some date; time := Some time; duration := dur;
     type := Some "checkup"; comments := None;
     active := VUndef; paid := VUndef; is_open := VUndef;
     start_time := None; end_time := None; start_date := None;
     end_date := None; holiday := None; comment := None |}.

Definition administrator : User :=
  {| u_id := 1; u_email := "owner@example.org"; u_role := "admin" |}.

Definition viewer : User :=
  {| u_id := 2; u_email := "desk@example.org"; u_role := "viewer" |}.

Definition request (u : option User) (ps qs : list (string * string)) (b : Body)
    : Request :=
  {| session_user := u; params := ps; query := qs; body := b |}.

Definition booking_request : Request :=
  request None [] [] (booking_body "+1 (555) 000-1111" day "11:00" (VStr "30")).

Definition booking : Booking :=
  {| bk_name := "Grace"; bk_phone10 := Some "5550001111"; bk_email := None;
     bk_date := day; bk_startHHMM := "11:00"; bk_dur := 30;
     bk_type := "checkup"; bk_comments := None |}.






Definition env : Env :=
  {| api := clock; now := new_year; faults := no_faults; fuel := Z.to_nat 6000;
     column_equals := fun _ _ _ => true |}.

End Sample.

(* ================================================================== *)
(** ** Properties of a store *)

Module Inv.
Import Js Sql App.

(** Two appointments of one date whose half-open intervals meet; times in
    seconds, durations in minutes. *)
Definition rows_overlap (a b : Appointment) : Prop :=
  a_date a = a_date b
  /\ a_time a < a_time b + a_duration b * 60
  /\ a_time b < a_time a + a_duration a * 60.

(** No two rows, at different positions, overlap. *)
Definition no_double_booking (rows : list Appointment) : Prop :=
  forall i j a b, i <> j -> rows !! i = Some a -> rows !! j = Some b ->
    ~ rows_overlap a b.

(** Ids are distinct and below the next id to be assigned. *)
Definition ids_fresh (db : DB) : Prop :=
  NoDup (a_id <$> appointments db)
  /\ forall a, a ∈ appointments db -> a_id a < next_appointment_id db.

Definition holiday_ids_fresh (db : DB) : Prop :=
  NoDup (h_id <$> holiday_hours db)
  /\ forall h, h ∈ holiday_hours db -> h_id h < next_holiday_id db.

(** A row whose time is a whole minute below 100 hours, with a duration
    that keeps its end below 100 hours. *)
Definition whole_minute (a : Appointment) : Prop :=
  0 <= a_time a /\ a_time a mod 60 = 0 /\ 0 <= a_duration a
  /\ a_time a / 60 + a_duration a < 6000.

(** A holiday row as the admin routes write it: the range is not reversed;
    an open row has a start before its end, a closed row has no times. *)
Definition holiday_well_formed (h : HolidayHour) : Prop :=
  h_start_date h <= effective_end h
  /\ (h_is_open h = 1
       /\ (exists a z, h_start_time h = Some a /\ h_end_time h = Some z /\ 0 <= a < z)
      \/ h_is_open h = 0 /\ h_start_time h = None /\ h_end_time h = None).

(** A list in which every element is [le] every later one. *)
Fixpoint ordered {A : Type} (le : A -> A -> bool) (l : list A) : Prop :=
  match l with
  | [] => True
  | x :: r => (forall y, y ∈ r -> le x y = true) /\ ordered le r
  end.

End Inv.

(* ================================================================== *)
(** ** The staff console ([src/src/Management.tsx])

    The handlers of the table of weekdays, as the requests they send. *)

Module Console.
Import Js Sql App.

(** A weekday as the page holds it. *)
Record BusinessHour : Type := {
  week_day : Z;
  ui_start_time : option string;
  ui_end_time : option string;
  ui_is_open : bool;
}.

Definition withSeconds (t : option string) : option string :=
  match t with
  | None => None
  | Some s =>
      if String.eqb s "" then None
      else if matches HHMMSS s then Some s else Some (s +:+ ":00")
  end.

Definition toMinutes (hhmm : string) : num :=
  let parts := Number <$> split ":" hhmm in
  match default None (parts !! 0%nat), default None (parts !! 1%nat) with
  | Some h, Some m => Some (h * 60 + m)
  | _, _ => None
  end.

(** [a >= b] on numbers: false when either is NaN. *)
Definition num_ge (a b : num) : bool :=
  match a, b with
  | Some x, Some y => y <=? x
  | _, _ => false
  end.

(** The JSON object that [putBusinessDay] sends. *)
Definition payload (row : BusinessHour) : Body :=
  {| name := None; phoneNumber := None; email := None; date := None;
     time := None; duration := VUndef; type := None; comments := None;
     active := VUndef; paid := VUndef;
     is_open := VBool (ui_is_open row);
     start_time := if ui_is_open row then withSeconds (ui_start_time row) else None;
     end_time := if ui_is_open row then withSeconds (ui_end_time row) else None;
     start_date := None; end_date := None; holiday := None; comment := None |}.

(** [PUT /api/admin/business-hours/${day}] with the session of [user]. *)
Definition putBusinessDay (user : option User) (day : Z) (row : BusinessHour)
    : Request :=
  {| session_user := user;
     params := [("week_day", String_ (Some day))];
     query := [];
     body := payload row |}.

Definition with_open (row : BusinessHour) (open : bool) : BusinessHour :=
  {| week_day := week_day row; ui_start_time := ui_start_time row;
     ui_end_time := ui_end_time row; ui_is_open := open |}.

(** The request of "Save", or none when the page refuses. *)
Definition handleBizSaveDay (user : option User) (bizRows : Z -> BusinessHour)
    (day : Z) : option Request :=
  let row := bizRows day in
  if ui_is_open row
     && (negb (truthy_text (ui_start_time row)) || negb (truthy_text (ui_end_time row)))
  then None
  else if ui_is_open row
          && num_ge (toMinutes (default "" (ui_start_time row)))
                    (toMinutes (default "" (ui_end_time row)))
  then None
  else Some (putBusinessDay user day row).

(** The request of "Close", once confirmed. *)
Definition handleBizCloseDay (user : option User) (bizRows : Z -> BusinessHour)
    (day : Z) : Request :=
  putBusinessDay user day (with_open (bizRows day) false).

(** The request of "Open and save". *)
Definition handleBizOpenAndSave (user : option User) (bizRows : Z -> BusinessHour)
    (day : Z) : Request :=
  let start := default "09:00" (ui_start_time (bizRows day)) in
  let e := default "17:00" (ui_end_time (bizRows day)) in
  let draft :=
    if num_ge (toMinutes start) (toMinutes e)
    then {| week_day := week_day (bizRows day); ui_start_time := Some "09:00";
            ui_end_time := Some "17:00"; ui_is_open := true |}
    else {| week_day := week_day (bizRows day); ui_start_time := Some start;
            ui_end_time := Some e; ui_is_open := true |} in
  putBusinessDay user day draft.

End Console.

(* ================================================================== *)
(** ** Phone numbers on the pages
    ([src/src/Login.tsx], [src/src/AllAppointments.tsx]) *)

Module Pages.
Import Js Sql App.

Definition onlyDigits (s : string) : string := strip_non_digits s.

Definition toE164 (raw : string) : option string :=
  let d := onlyDigits raw in
  if (String.length d =? 10)%nat then Some ("+1" +:+ d)
  else if (String.length d =? 11)%nat && startsWith "1" d then Some ("+" +:+ d)
  else None.

Definition isValidNANP (raw : string) : bool :=
  let d := onlyDigits raw in
  (String.length d =? 10)%nat || ((String.length d =? 11)%nat && startsWith "1" d).

(** [/^1(?=\d{10}$)/] *)
Definition country_code_then_ten : list atom := L "1"%char :: repeat D 10.

Definition formatPrettyNANP (rawOrE164 : string) : string :=
  let stripped := onlyDigits rawOrE164 in
  let digits :=
    if matches country_code_then_ten stripped then slice1 stripped else stripped in
  if negb (String.length digits =? 10)%nat then rawOrE164
  else
    let areaCode := String.substring 0 3 digits in
    let prefix := String.substring 3 3 digits in
    let lineNumber := String.substring 6 (String.length digits - 6) digits in
    "(" +:+ areaCode +:+ ") " +:+ prefix +:+ "-" +:+ lineNumber.

(** The form of the booking wizard. *)
Record FormData : Type := {
  f_name : string;
  f_phoneNumber : string;
  f_email : string;
  f_date : string;
  f_time : string;
  f_duration : string;
  f_type : string;
  f_comments : string;
}.

(** The body that [handleSubmit] posts to [/api/BookAppointment], or none
    when it stops at an alert; [now] is the clock of the browser. *)
Definition handleSubmit (api : DateApi) (now : Z) (formData : FormData)
    : option Body :=
  if String.eqb (f_date formData) "" || String.eqb (f_time formData) "" then None
  else if String.eqb (f_duration formData) "" then None
  else if negb (isValidNANP (f_phoneNumber formData)) then None
  else
    match toE164 (f_phoneNumber formData) with
    | None => None
    | Some phoneE164 =>
        if String.eqb (f_type formData) "" then None
        else if in_past api now (f_date formData +:+ "T" +:+ f_time formData) then None
        else Some {| name := Some (f_name formData);
                     phoneNumber := Some phoneE164;
                     email := Some (f_email formData);
                     date := Some (f_date formData);
                     time := Some (f_time formData);
                     duration := VStr (f_duration formData);
                     type := Some (f_type formData);
                     comments := Some (f_comments formData);
                     active := VUndef; paid := VUndef; is_open := VUndef;
                     start_time := None; end_time := None; start_date := None;
                     end_date := None; holiday := None; comment := None |}
    end.

(** The rows of the time picker of the booking wizard: one per hour,
    with the time on the hour and the time on the half hour. *)
Record Row : Type := {
  hour : num;
  zero : option string;
  thirty : option string;
}.

(** Equality of the keys of a [Map] and [===] on numbers agree on the
    values met here, except that NaN is a key equal to itself. *)
Definition same_key (a b : num) : bool :=
  match a, b with
  | Some x, Some y => x =? y
  | None, None => true
  | _, _ => false
  end.

Definition strictly_equal (a : num) (z : Z) : bool :=
  match a with
  | Some x => x =? z
  | None => false
  end.

(** One turn of the loop of [groupHalfHours]; the map is kept in insertion
    order. *)
Definition place (map : list Row) (t : string) : list Row :=
  let parts := Number <$> split ":" t in
  let hh := default None (parts !! 0%nat) in
  let mm := default None (parts !! 1%nat) in
  let map :=
    if existsb (fun r => same_key (hour r) hh) map then map
    else map ++ [{| hour := hh; zero := None; thirty := None |}] in
  (fun row =>
     if same_key (hour row) hh
     then {| hour := hour row;
             zero := if strictly_equal mm 0 then Some t else zero row;
             thirty := if strictly_equal mm 30 then Some t else thirty row |}
     else row) <$> map.

Definition groupHalfHours (times : list string) : list Row :=
  let sorted := sort_by String.leb times in
  List.filter (fun r => truthy_text (zero r) || truthy_text (thirty r))
              (foldl place [] sorted).

(** The times that the picker offers as buttons. *)
Definition pickable (times : list string) : list string :=
  row ← groupHalfHours times;
  (if truthy_text (zero row) then option_list (zero row) else [])
  ++ (if truthy_text (thirty row) then option_list (thirty row) else []).

(** What [AdminRoute] renders ([src/src/AdminRoute.tsx]). *)
Inductive Rendered : Type :=
| Navigate (to : string)
| Children.

Definition AdminRoute (user : option User) : Rendered :=
  match user with
  | None => Navigate "/login"
  | Some u => if negb (String.eqb (u_role u) "admin") then Navigate "/" else Children
  end.

End Pages.

(* ================================================================== *)
(** ** Sessions ([/auth/login], [/auth/me], [/auth/logout])

    The session is the [user] entry that the session store keeps for the
    cookie of the requester; requests carry it as [session_user]. *)

Module Auth.
Import Js Sql App.

(** A row of [users]. *)
Record Account : Type := {
  ac_id : Z;
  ac_email : string;
  ac_password_hash : string;
  ac_role : string;
}.

Record Credentials : Type := {
  cr_email : option string;
  cr_password : option string;
}.

Definition identity (a : Account) : User :=
  {| u_id := ac_id a; u_email := ac_email a; u_role := ac_role a |}.

Definition user_json (u : User) : json :=
  JObj [("id", JNum (u_id u)); ("email", JStr (u_email u)); ("role", JStr (u_role u))].

Section Routes.

(** The server's [email = ?] under the collation of the column, and
    [bcrypt.compare]: both are outside the sources. *)
Variable email_equals : string -> string -> bool.
Variable bcrypt_compare : string -> string -> bool.

(** [SELECT ... FROM users WHERE email = ? LIMIT 1] *)
Definition account_rows (users : list Account) (email : string) : list Account :=
  take 1 (List.filter (fun a => email_equals (ac_email a) email) users).

Definition POST_login (lookup_fails : bool) (users : list Account)
    (body : Credentials) (session : option User) : Response * option User :=
  if negb (truthy_text (cr_email body)) || negb (truthy_text (cr_password body))
  then (message 400 "Missing credentials", session)
  else if lookup_fails then (message 500 "DB error", session)
  else
    match account_rows users (default "" (cr_email body)) with
    | [] => (message 401 "Invalid email or password", session)
    | user :: _ =>
        if bcrypt_compare (default "" (cr_password body)) (ac_password_hash user)
        then ({| status := 200; payload := Json (user_json (identity user)) |},
              Some (identity user))
        else (message 401 "Invalid email or password", session)
    end.

End Routes.


Definition POST_logout (session : option User) : Response * option User :=
  (respond 200 [("ok", JBool true)], None).

(** A request of the requester whose session is [session]. *)
Definition with_session (session : option User) (req : Request) : Request :=
  {| session_user := session; params := params req; query := query req;
     body := body req |}.

End Auth.

(* ================================================================== *)
(** ** Reviews ([GET /api/reviews], [POST /api/reviews]) *)

Module Reviews.
Import Js Sql App.

(** A row of [Reviews]. *)
Record Review : Type := {
  ReviewID : Z;
  Rating : Z;
  TypeOfMassage : string;
  Comments : option string;
  CreatedAt : Z;
}.

Record Store : Type := {
  reviews : list Review;
  next_review_id : Z;
}.

(** [req.body || {}], restricted to the fields the route reads. *)
Record Body : Type := {
  b_Rating : val;
  b_TypeOfMassage : val;
  b_Comments : val;
}.

Inductive Content : Type :=
| Error (text : string)
| Created (row : option Review)
| Listed (rows : list Review).

Record Reply : Type := {
  code : Z;
  content : Content;
}.

Definition fail (c : Z) (text : string) : Reply :=
  {| code := c; content := Error text |}.

Definition valid_rating (n : num) : bool :=
  match n with
  | Some z => (1 <=? z) && (z <=? 5)
  | None => false
  end.

(** [Comments?.trim() || null] *)
Definition trimmed_or_null (text : option string) : option string :=
  match text with
  | Some s => if String.eqb (trim s) "" then None else Some (trim s)
  | None => None
  end.

(** Modelled from the spec: [CreatedAt] is set at insertion (section 3),
    here to the instant [now] of the request; the table definition is not
    part of the sources.  The row is inserted before it is read back, so
    a failure of the second statement leaves it stored. *)
Definition POST_reviews (now : Z) (insert_fails select_fails : bool)
    (b : Body) (st : Store) : Reply * Store :=
  let ratingNum := Number_val (b_Rating b) in
  if negb (valid_rating ratingNum)
  then (fail 400 "Rating must be an integer 1–5.", st)
  else
    match b_TypeOfMassage b with
    | VStr type =>
        if String.eqb (trim type) "" then (fail 400 "TypeOfMassage is required.", st)
        else if (50 <? String.length type)%nat
        then (fail 400 "TypeOfMassage must be ≤ 50 chars.", st)
        else
          match b_Comments b with
          | VBool _ | VNum _ => (fail 400 "Comments must be a string.", st)
          | comments =>
              let text := match comments with VStr s => Some s | _ => None end in
              if truthy_text text && (500 <? String.length (default "" text))%nat
              then (fail 400 "Comments must be ≤ 500 chars.", st)
              else if insert_fails then (fail 500 "Failed to submit review", st)
              else
                let insertedId := next_review_id st in
                let row := {| ReviewID := insertedId;
                              Rating := default 0 ratingNum;
                              TypeOfMassage := trim type;
                              Comments := trimmed_or_null text;
                              CreatedAt := now |} in
                let st' := {| reviews := reviews st ++ [row];
                              next_review_id := insertedId + 1 |} in
                if select_fails then (fail 500 "Failed to fetch created review", st')
                else ({| code := 201;
                         content := Created
                           (head (List.filter (fun r => ReviewID r =? insertedId)
                                              (reviews st'))) |},
                      st')
          end
    | _ => (fail 400 "TypeOfMassage is required.", st)
    end.

(** [ORDER BY CreatedAt DESC, ReviewID DESC] *)
Definition newest_first (a b : Review) : bool :=
  (CreatedAt b <? CreatedAt a)
  || ((CreatedAt a =? CreatedAt b) && (ReviewID b <=? ReviewID a)).

Definition GET_reviews (fails : bool) (query : list (string * string)) (st : Store)
    : Reply :=
  let limit := parseInt (field "limit" query) in
  if fails then fail 500 "Failed to load reviews"
  else
    let rows := sort_by newest_first (reviews st) in
    {| code := 200;
       content := Listed (match positive_id limit with
                          | Some n => take (Z.to_nat n) rows
                          | None => rows
                          end) |}.


End Reviews.

(** What the map of the time picker holds once the times of the minute
    counts [seen] have been placed: one row per hour met, with the time on
    the hour and the time on the half hour if they were met. *)
Definition picker_holds (map : list Pages.Row) (seen : list Z) : Prop :=
  NoDup (Pages.hour <$> map)
  /\ (forall r, r ∈ map -> exists h,
        Pages.hour r = Some h /\ 0 <= h
        /\ Pages.zero r
           = (if bool_decide (60 * h ∈ seen) then Some (Spec.hhmm (60 * h)) else None)
        /\ Pages.thirty r
           = (if bool_decide (60 * h + 30 ∈ seen)
              then Some (Spec.hhmm (60 * h + 30)) else None))
  /\ (forall x, x ∈ seen -> exists r, r ∈ map /\ Pages.hour r = Some (x / 60)).

(* ================================================================== *)
(** ** More sample data *)

Module Cases.
Import Js Sql App.

(** The appointment of the sample store moved by half an hour. *)
Definition move_request : Request :=
  Sample.request (Some Sample.administrator) [("id", "1")] []
    (Sample.booking_body "5550001111" Sample.day "10:30" (VNum 60)).


Definition hours_body (open : val) (st en : option string) : Body :=
  {| name := None; phoneNumber := None; email := None; date := None;
     time := None; duration := VUndef; type := None; comments := None;
     active := VUndef; paid := VUndef; is_open := open;
     start_time := st; end_time := en; start_date := None;
     end_date := None; holiday := None; comment := None |}.

(** Tuesdays from 08:00 to 12:00. *)
Definition tuesday_request : Request :=
  Sample.request (Some Sample.administrator) [("week_day", "2")] []
    (hours_body (VBool true) (Some "08:00") (Some "12:00")).

Definition holiday_body (sd : string) (ed : option string) (label : string)
    (open : val) (st en : option string) : Body :=
  {| name := None; phoneNumber := None; email := None; date := None;
     time := None; duration := VUndef; type := None; comments := None;
     active := VUndef; paid := VUndef; is_open := open;
     start_time := st; end_time := en; start_date := Some sd;
     end_date := ed; holiday := Some label; comment := None |}.

(** 2031-01-01, closed. *)
Definition new_year_closed : Request :=
  Sample.request (Some Sample.administrator) [] []
    (holiday_body "2031-01-01" None " New Year " (VBool false) None None).

Definition new_year_number : Z := 22280.

Definition ask (date : string) : Request :=
  Sample.request None [] [("date", date)] Sample.no_body.

Definition delete_third : Request :=
  Sample.request (Some Sample.administrator) [("id", "3")] [] Sample.no_body.


Definition december : Request :=
  Sample.request (Some Sample.administrator) []
    [("from", "2030-12-01"); ("to", "2030-12-31")] Sample.no_body.

(** The page of the console with every weekday open from 09:00 to 17:00. *)
Definition page_rows (day : Z) : Console.BusinessHour :=
  {| Console.week_day := day; Console.ui_start_time := Some "09:00";
     Console.ui_end_time := Some "17:00"; Console.ui_is_open := true |}.

(** Mondays from 09:00 to 99:30. *)
Definition late_store : DB :=
  {| appointments := []; next_appointment_id := 1;
     business_hours :=
       {[ 1 := {| bh_start_time := Some 32400; bh_end_time := Some 358200;
                  bh_is_open := 1 |} ]};
     holiday_hours := []; next_holiday_id := 1 |}.

Definition staff : list Auth.Account :=
  [ {| Auth.ac_id := 1; Auth.ac_email := "owner@example.org";
       Auth.ac_password_hash := "hash of secret"; Auth.ac_role := "admin" |};
    {| Auth.ac_id := 2; Auth.ac_email := "desk@example.org";
       Auth.ac_password_hash := "hash of hello"; Auth.ac_role := "viewer" |} ].

(** A stand-in for the comparison of a password with a hash. *)
Definition hash_check (password hash : string) : bool :=
  String.eqb hash ("hash of " +:+ password).

Definition owner_login : Auth.Credentials :=
  {| Auth.cr_email := Some "owner@example.org"; Auth.cr_password := Some "secret" |}.

Definition no_reviews : Reviews.Store :=
  {| Reviews.reviews := []; Reviews.next_review_id := 1 |}.

Definition five_stars : Reviews.Body :=
  {| Reviews.b_Rating := VStr "5";
     Reviews.b_TypeOfMassage := VStr " Deep tissue ";
     Reviews.b_Comments := VNull |}.

Definition wizard_form : Pages.FormData :=
  {| Pages.f_name := "Grace"; Pages.f_phoneNumber := "(555) 000-1111";
     Pages.f_email := ""; Pages.f_date := Sample.day; Pages.f_time := "11:00";
     Pages.f_duration := "30"; Pages.f_type := "checkup"; Pages.f_comments := "" |}.

Definition offered_on_sample_day : list string :=
  ["09:00"; "09:30"; "11:00"; "11:30"; "12:00"; "12:30"; "13:00"; "13:30";
   "14:00"; "14:30"; "15:00"; "15:30"; "16:00"; "16:30"].

End Cases.

(* ================================================================== *)
(** ** Facts about the primitives *)

Import Js Sql App.

(** *** Time texts and their comparison

    Below 100 hours a time text has two hour digits, and comparing two
    such texts is comparing their minute counts.  The facts on single
    two-digit fields are checked by evaluation over their finite range. *)

Lemma range_check (P : Z -> bool) (n : Z) :
  forallb P (seqZ 0 n) = true -> forall x, 0 <= x < n -> P x = true.
Proof.
  intros H x Hx. rewrite forallb_forall in H. apply H.
  apply list_elem_of_In, elem_of_seqZ. lia.
Qed.

Lemma parse_hhmm_table :
  forallb (fun v => bool_decide ((Number <$> split ":" (Spec.hhmm v)) = [Some (v / 60); Some (v mod 60)]))
          (seqZ 0 6000) = true.
Proof. vm_compute. reflexivity. Qed.

Lemma pad2_compare_table :
  forallb (fun x => forallb (fun y => bool_decide (String.compare (pad2 x) (pad2 y) = (x ?= y))) (seqZ 0 100)) (seqZ 0 100) = true.
Proof. vm_compute. reflexivity. Qed.

Lemma pad2_length_table :
  forallb (fun x => bool_decide (String.length (pad2 x) = 2%nat)) (seqZ 0 100) = true.
Proof. vm_compute. reflexivity. Qed.

Lemma pad2_compare x y :
  0 <= x < 100 -> 0 <= y < 100 -> String.compare (pad2 x) (pad2 y) = (x ?= y).
Proof.
  intros Hx Hy.
  pose proof (range_check _ _ pad2_compare_table x Hx) as H. cbv beta in H.
  pose proof (range_check _ _ H y Hy) as H'. cbv beta in H'.
  by apply bool_decide_eq_true in H'.
Qed.

Lemma pad2_length x : 0 <= x < 100 -> String.length (pad2 x) = 2%nat.
Proof.
  intros Hx. pose proof (range_check _ _ pad2_length_table x Hx) as H.
  by apply bool_decide_eq_true in H.
Qed.

Lemma parse_hhmm v :
  0 <= v < 6000 ->
  Number <$> split ":" (Spec.hhmm v) = [Some (v / 60); Some (v mod 60)].
Proof.
  intros Hv. pose proof (range_check _ _ parse_hhmm_table v Hv) as H.
  by apply bool_decide_eq_true in H.
Qed.

Lemma compare_app a : forall b r1 r2,
  String.length a = String.length b ->
  String.compare (a +:+ r1) (b +:+ r2) =
  match String.compare a b with Eq => String.compare r1 r2 | c => c end.
Proof.
  induction a as [|c a IH]; intros [|c' b] r1 r2 Hlen; simpl in *; try discriminate.
  - reflexivity.
  - destruct (Ascii.compare c c'); auto.
Qed.

Lemma length_app a b : String.length (a +:+ b) = (String.length a + String.length b)%nat.
Proof. induction a; simpl; auto. Qed.

Lemma slice0_app a : forall n b, String.length a = n -> slice0 n (a +:+ b) = a.
Proof.
  unfold slice0. induction a as [|c a IH]; intros n b Hn; simpl in *; subst.
  - destruct b; reflexivity.
  - simpl. f_equal. by apply IH.
Qed.

Lemma append_cons x a b : String x a +:+ b = String x (a +:+ b).
Proof. reflexivity. Qed.

Lemma append_assoc a b c : (a +:+ b) +:+ c = a +:+ (b +:+ c).
Proof.
  induction a as [|x a IH]; [reflexivity|].
  rewrite !append_cons. by rewrite IH.
Qed.

Lemma hhmm_compare u v :
  0 <= u < 6000 -> 0 <= v < 6000 -> String.compare (Spec.hhmm u) (Spec.hhmm v) = (u ?= v).
Proof.
  intros Hu Hv. unfold Spec.hhmm.
  pose proof (Z.div_mod u 60 ltac:(lia)). pose proof (Z.mod_pos_bound u 60 ltac:(lia)).
  pose proof (Z.div_mod v 60 ltac:(lia)). pose proof (Z.mod_pos_bound v 60 ltac:(lia)).
  assert (0 <= u / 60 < 100) by (split; [apply Z.div_pos | apply Z.div_lt_upper_bound]; lia).
  assert (0 <= v / 60 < 100) by (split; [apply Z.div_pos | apply Z.div_lt_upper_bound]; lia).
  rewrite compare_app by (rewrite !pad2_length; auto).
  rewrite pad2_compare by lia.
  change (String.compare (":" +:+ pad2 (u mod 60)) (":" +:+ pad2 (v mod 60)))
    with (String.compare (pad2 (u mod 60)) (pad2 (v mod 60))).
  rewrite pad2_compare by lia.
  destruct (Z.compare_spec (u / 60) (v / 60)), (Z.compare_spec (u mod 60) (v mod 60)),
    (Z.compare_spec u v); try reflexivity; lia.
Qed.

Lemma str_le_hhmm u v :
  0 <= u < 6000 -> 0 <= v < 6000 -> str_le (Spec.hhmm u) (Spec.hhmm v) = (u <=? v).
Proof.
  intros. unfold str_le, String.leb. rewrite hhmm_compare by auto.
  unfold Z.leb. reflexivity.
Qed.

Lemma str_lt_hhmm u v :
  0 <= u < 6000 -> 0 <= v < 6000 -> str_lt (Spec.hhmm u) (Spec.hhmm v) = (u <? v).
Proof.
  intros. unfold str_lt, String.ltb. rewrite hhmm_compare by auto.
  unfold Z.ltb. reflexivity.
Qed.

Lemma str_gt_hhmm u v :
  0 <= u < 6000 -> 0 <= v < 6000 -> str_gt (Spec.hhmm u) (Spec.hhmm v) = (u >? v).
Proof.
  intros. unfold str_gt. fold (str_lt (Spec.hhmm v) (Spec.hhmm u)).
  rewrite (str_lt_hhmm v u) by auto.
  rewrite Z.gtb_ltb. reflexivity.
Qed.

Lemma addMinutesHHMM_hhmm v k :
  0 <= v < 6000 -> 0 <= v + k -> addMinutesHHMM (Spec.hhmm v) k = Spec.hhmm (v + k).
Proof.
  intros Hv Hk. unfold addMinutesHHMM. rewrite parse_hhmm by auto.
  cbn [lookup list_lookup default from_option]. unfold id. cbv beta iota zeta.
  pose proof (Z.div_mod v 60 ltac:(lia)).
  replace (v / 60 * 60 + v mod 60 + k) with (v + k) by lia.
  rewrite Z.rem_mod_nonneg by lia. reflexivity.
Qed.

Lemma toHHMM_time_text t :
  0 <= t < 360000 -> toHHMM (time_text t) = Spec.hhmm (t / 60).
Proof.
  intros Ht. unfold toHHMM, time_text, Spec.hhmm.
  assert ((t <? 0) = false) as -> by lia. rewrite Z.abs_eq by lia.
  rewrite Z.div_div by lia. change (60 * 60) with 3600.
  assert (0 <= t / 3600 < 100) by (split; [apply Z.div_pos | apply Z.div_lt_upper_bound]; lia).
  pose proof (Z.mod_pos_bound (t / 60) 60 ltac:(lia)).
  set (H' := pad2 (t / 3600)). set (M' := pad2 ((t / 60) mod 60)).
  set (S' := pad2 (t mod 60)).
  transitivity (slice0 5 ((H' +:+ (":" +:+ M')) +:+ (":" +:+ S'))).
  { f_equal. rewrite !append_assoc. reflexivity. }
  apply slice0_app. subst H' M'.
  rewrite !length_app, !pad2_length by lia. reflexivity.
Qed.

Lemma candidates_from_starts n : forall fuel t e step,
  0 < step -> 0 <= t -> 0 <= e ->
  t + step < 6000 -> e + step < 6000 ->
  n = Z.to_nat ((e - t) / step) -> (n < fuel)%nat ->
  candidates_from fuel (Spec.hhmm t) (Spec.hhmm e) step
  = Some (Spec.hhmm <$> Spec.starts n t step).
Proof.
  induction n as [|n IH]; intros fuel t e step Hs Ht He Hts Hes Hn Hf;
    (destruct fuel as [|fuel]; [lia|]); cbn [candidates_from];
    rewrite addMinutesHHMM_hhmm, str_le_hhmm by lia;
    pose proof (Z.div_mod (e - t) step ltac:(lia));
    pose proof (Z.mod_pos_bound (e - t) step ltac:(lia)).
  - assert ((e - t) / step <= 0) by lia.
    assert ((t + step <=? e) = false) as -> by nia. reflexivity.
  - assert ((e - t) / step = Z.of_nat (S n)) by lia.
    assert (t + step <= e) by nia.
    assert ((t + step <=? e) = true) as -> by lia.
    rewrite (IH fuel (t + step) e step); try lia; [reflexivity|].
    replace (e - (t + step)) with ((e - t) + (-1) * step) by lia.
    rewrite Z.div_add by lia. lia.
Qed.

Lemma starts_bounds n : forall t step c,
  0 < step -> c ∈ Spec.starts n t step -> t <= c /\ c + step <= t + Z.of_nat n * step.
Proof.
  induction n as [|n IH]; intros t step c Hs Hc; cbn [Spec.starts] in Hc.
  - by apply elem_of_nil in Hc.
  - apply elem_of_cons in Hc as [-> | Hc]; [nia|].
    apply IH in Hc; [|lia]. nia.
Qed.

Lemma candidate_starts_bounds s e step c :
  0 < step -> c ∈ Spec.candidate_starts s e step -> s <= c /\ c + step <= e.
Proof.
  intros Hs Hc. unfold Spec.candidate_starts in Hc.
  destruct (Z.to_nat ((e - s) / step)) as [|n] eqn:Hn.
  - by apply elem_of_nil in Hc.
  - rewrite <- Hn in Hc. apply starts_bounds in Hc; [|lia].
    pose proof (Z.div_mod (e - s) step ltac:(lia)).
    pose proof (Z.mod_pos_bound (e - s) step ltac:(lia)).
    rewrite Z2Nat.id in Hc by lia. nia.
Qed.

Lemma or_num_some d : or_num (Some d) 0 = d.
Proof. unfold or_num. destruct (Z.eqb_spec d 0); congruence. Qed.

Lemma filter_fmap_ext {A B} (f : B -> bool) (g : A -> B) (h : A -> bool) (l : list A) :
  (forall x, x ∈ l -> f (g x) = h x) ->
  List.filter f (g <$> l) = g <$> List.filter h l.
Proof.
  induction l as [|x l IH]; intros Hl; [reflexivity|].
  cbn [fmap list_fmap List.filter]. rewrite (Hl x) by apply list_elem_of_here.
  rewrite IH by (intros y Hy; apply Hl; by apply list_elem_of_further).
  by destruct (h x).
Qed.

Lemma negb_existsb_fmap {A B C} (f : B -> bool) (g : A -> B) (k : C -> bool)
    (h : A -> C) (l : list A) :
  Forall (fun x => negb (f (g x)) = k (h x)) l ->
  negb (existsb f (g <$> l)) = forallb k (h <$> l).
Proof.
  induction 1 as [|x l Hx _ IH]; [reflexivity|].
  cbn [fmap list_fmap existsb forallb]. rewrite negb_orb, Hx. f_equal. exact IH.
Qed.

Lemma is_free_spec step rows c :
  0 <= c -> 0 < step -> c + step < 6000 ->
  Forall row_in_range rows ->
  is_free step (existing_of rows) (Spec.hhmm c)
  = Spec.free step ((fun a => (a_time a / 60, a_duration a)) <$> rows) c.
Proof.
  intros Hc Hstep Hcs Hrows. unfold is_free, Spec.free, existing_of.
  rewrite addMinutesHHMM_hhmm by lia.
  apply negb_existsb_fmap.
  eapply Forall_impl; [exact Hrows|].
  intros a [Ht [Hd Hb]]. cbn [fst snd].
  assert (0 <= a_time a / 60) by (apply Z.div_pos; lia).
  assert (a_time a < 360000).
  { pose proof (Z.div_mod (a_time a) 60 ltac:(lia)).
    pose proof (Z.mod_pos_bound (a_time a) 60 ltac:(lia)). lia. }
  unfold overlaps, Spec.overlap.
  rewrite toHHMM_time_text, or_num_some, addMinutesHHMM_hhmm by lia.
  rewrite str_lt_hhmm, str_gt_hhmm by lia. reflexivity.
Qed.

Lemma starts_count_bound s e step :
  0 < step -> 0 <= s -> e < 6000 -> Z.of_nat (Z.to_nat ((e - s) / step)) < 6000.
Proof.
  intros Hs H0 He.
  destruct (Z.le_gt_cases 0 ((e - s) / step)) as [Hq|Hq]; [|lia].
  pose proof (Z.div_mod (e - s) step ltac:(lia)).
  pose proof (Z.mod_pos_bound (e - s) step ltac:(lia)).
  assert ((e - s) / step < 6000) by nia. lia.
Qed.


(* ================================================================== *)
(** ** The availability of a window *)

(** The window handler below 100 hours: the loop finishes and the answer
    is the list of the specification. *)
Lemma window_slots_below_100h api now faults db fuel date slot ws we meta d :
  is_today api now date = false ->
  faults AppointmentsOnDate = false ->
  date_of_text date = Some d ->
  5 <= slot -> 0 <= ws -> 0 <= we ->
  ws / 60 + slot < 6000 -> we / 60 + slot < 6000 ->
  (forall a, a ∈ appointments db -> a_date a = d -> row_in_range a) ->
  6000 <= Z.of_nat fuel ->
  handleWithWindow api now faults db fuel date slot
    (Some (time_text ws)) (Some (time_text we)) meta
  = Some (availability_body date slot
            (Spec.hhmm <$> Spec.free_slots (ws / 60) (we / 60) slot
                             (Spec.busy_on d (appointments db)))
            meta).
Proof.
  intros Htoday Hfault Hdate Hslot Hws Hwe Hs He Hrows Hfuel.
  assert (0 <= ws / 60) by (apply Z.div_pos; lia).
  assert (0 <= we / 60) by (apply Z.div_pos; lia).
  assert (ws < 360000).
  { pose proof (Z.div_mod ws 60 ltac:(lia)).
    pose proof (Z.mod_pos_bound ws 60 ltac:(lia)). lia. }
  assert (we < 360000).
  { pose proof (Z.div_mod we 60 ltac:(lia)).
    pose proof (Z.mod_pos_bound we 60 ltac:(lia)). lia. }
  unfold handleWithWindow.
  rewrite !toHHMM_time_text by lia.
  pose proof (starts_count_bound (ws / 60) (we / 60) slot ltac:(lia) ltac:(lia) ltac:(lia)).
  rewrite (candidates_from_starts (Z.to_nat ((we / 60 - ws / 60) / slot))) by lia.
  rewrite Htoday.
  fold (Spec.candidate_starts (ws / 60) (we / 60) slot).
  unfold Spec.free_slots.
  destruct (Spec.candidate_starts (ws / 60) (we / 60) slot) as [|c cs] eqn:Hcs;
    [reflexivity|].
  rewrite fmap_cons. cbv iota. rewrite <- fmap_cons.
  unfold appointments_on. rewrite Hfault, Hdate.
  do 2 f_equal. unfold Spec.busy_on.
  apply filter_fmap_ext. intros x Hx. rewrite <- Hcs in Hx.
  apply candidate_starts_bounds in Hx; [|lia].
  apply is_free_spec; try lia.
  apply Forall_forall. intros a Ha. apply list_elem_of_filter in Ha as [Hd Ha].
  by apply Hrows.
Qed.

(** The free slots, by membership: the k-th step from the start, ending
    within the window, clear of every busy interval. *)
Lemma free_slots_member s e step busy c :
  0 < step ->
  c ∈ Spec.free_slots s e step busy <->
  (exists k, 0 <= k /\ c = s + k * step /\ c + step <= e)
  /\ (forall b, b ∈ busy -> ~ (c < fst b + snd b /\ c + step > fst b)).
Proof.
  intros Hstep. unfold Spec.free_slots.
  rewrite list_elem_of_In, filter_In, <- list_elem_of_In.
  assert (Hstarts : forall n t, c ∈ Spec.starts n t step <->
            exists k, 0 <= k < Z.of_nat n /\ c = t + k * step).
  { induction n as [|n IH]; intros t; cbn [Spec.starts].
    - rewrite elem_of_nil. split; [tauto | intros [k [? _]]; lia].
    - rewrite elem_of_cons, IH. split.
      + intros [-> | [k [Hk ->]]]; [exists 0; lia | exists (k + 1); lia].
      + intros [k [Hk ->]]. destruct (Z.eq_dec k 0) as [-> | Hne];
          [left; lia | right; exists (k - 1); lia]. }
  assert (Hfree : Spec.free step busy c = true <->
            forall b, b ∈ busy -> ~ (c < fst b + snd b /\ c + step > fst b)).
  { unfold Spec.free, Spec.overlap. rewrite forallb_forall. split.
    - intros Hall b Hb [H1 H2]. apply list_elem_of_In, Hall in Hb.
      apply negb_true_iff, andb_false_iff in Hb. lia.
    - intros Hall b Hb. apply list_elem_of_In, Hall in Hb.
      apply negb_true_iff, andb_false_iff. lia. }
  rewrite Hfree. unfold Spec.candidate_starts. rewrite Hstarts.
  pose proof (Z.div_mod (e - s) step ltac:(lia)) as Hdm.
  pose proof (Z.mod_pos_bound (e - s) step ltac:(lia)) as Hmb.
  split; intros [[k [Hk Hc]] Hb]; (split; [|exact Hb]); exists k.
  - subst c. split; [lia|]. split; [reflexivity|]. nia.
  - destruct Hc as [-> Hend]. split; [|reflexivity].
    assert (k + 1 <= (e - s) / step) by (apply Z.div_le_lower_bound; lia).
    lia.
Qed.

(** The half-hour slots of the window 09:00-17:00 on a free day, and on
    a day with one appointment at 10:00 for 60 minutes. *)
Lemma window_half_hours :
  handleWithWindow Sample.clock Sample.new_year no_faults Sample.empty_store
    (Z.to_nat 6000) Sample.day 30
    (Some (time_text 32400)) (Some (time_text 61200)) []
  = Some (availability_body Sample.day 30
            ["09:00"; "09:30"; "10:00"; "10:30"; "11:00"; "11:30"; "12:00";
             "12:30"; "13:00"; "13:30"; "14:00"; "14:30"; "15:00"; "15:30";
             "16:00"; "16:30"] [])
  /\ handleWithWindow Sample.clock Sample.new_year no_faults Sample.busy_store
       (Z.to_nat 6000) Sample.day 30
       (Some (time_text 32400)) (Some (time_text 61200)) []
     = Some (availability_body Sample.day 30
               ["09:00"; "09:30"; "11:00"; "11:30"; "12:00";
                "12:30"; "13:00"; "13:30"; "14:00"; "14:30"; "15:00"; "15:30";
                "16:00"; "16:30"] []).
Proof.
  split.
  - rewrite (window_slots_below_100h Sample.clock Sample.new_year no_faults
               Sample.empty_store (Z.to_nat 6000) Sample.day 30 32400 61200 []
               Sample.day_number);
      try reflexivity; try lia; try (vm_compute; congruence).
    intros a Ha. cbn in Ha. by apply elem_of_nil in Ha.
  - rewrite (window_slots_below_100h Sample.clock Sample.new_year no_faults
               Sample.busy_store (Z.to_nat 6000) Sample.day 30 32400 61200 []
               Sample.day_number);
      try reflexivity; try lia; try (vm_compute; congruence).
    intros a Ha _. cbn in Ha. apply list_elem_of_singleton in Ha as ->.
    unfold row_in_range. repeat split; vm_compute; congruence.
Qed.

(** *** A slot that reaches 100 hours

    From 100 hours on the end of a candidate has three hour digits, and
    the loop compares it with the window's end as a text. *)

Lemma candidates_from_more_fuel fuel : forall fuel' t e slot l,
  candidates_from fuel t e slot = Some l -> (fuel <= fuel')%nat ->
  candidates_from fuel' t e slot = Some l.
Proof.
  induction fuel as [|fuel IH]; intros fuel' t e slot l H Hle; [discriminate|].
  destruct fuel' as [|fuel']; [lia|]. cbn [candidates_from] in *.
  destruct (str_le (addMinutesHHMM t slot) e); [|exact H].
  destruct (candidates_from fuel (addMinutesHHMM t slot) e slot) as [l'|] eqn:E;
    [|discriminate].
  rewrite (IH fuel' _ _ _ l' E) by lia. exact H.
Qed.

(** With the window 09:00-17:00, the ends "100:00" to "179:59" of the
    first candidate sort before "17:00", and the end of the second one
    does not. *)
Lemma oversized_slot_table :
  forallb (fun k => bool_decide (candidates_from 2 "09:00" "17:00" (5460 + k)
                                 = Some ["09:00"]))
          (seqZ 0 4800) = true.
Proof. vm_compute. reflexivity. Qed.

Lemma filter_none {A} (P : A -> Prop) `{!forall x, Decision (P x)} (l : list A) :
  (forall a, a ∈ l -> ~ P a) -> filter P l = [].
Proof.
  induction l as [|x l IH]; intros Hall; [reflexivity|].
  rewrite filter_cons. destruct (decide (P x)) as [HP|_].
  - exfalso. apply (Hall x); [left | exact HP].
  - apply IH. intros a Ha. apply Hall. by right.
Qed.

(** C2.  The candidate loop misses the window's end for a slot whose
    first end reaches 100 hours.  On a date that is not today, with the
    window 09:00-17:00, no appointment on the date and a slot length of
    5460 to 10259 minutes (91 hours to 170 hours 59 minutes), the window
    handler answers 200 with the one time "09:00", although no candidate
    of that length ends by 17:00 and the list of free slots is empty: the
    end of the candidate, "100:00" to "179:59", is compared with "17:00"
    as a text and sorts before it. *)
Theorem handleWithWindow_offers_oversized_slot
    api now faults db fuel date slot meta d :
  is_today api now date = false ->
  faults AppointmentsOnDate = false ->
  date_of_text date = Some d ->
  (forall a, a ∈ appointments db -> a_date a <> d) ->
  5460 <= slot < 10260 ->
  (2 <= fuel)%nat ->
  handleWithWindow api now faults db fuel date slot
    (Some (time_text 32400)) (Some (time_text 61200)) meta
  = Some (availability_body date slot ["09:00"] meta)
  /\ 540 + slot > 1020
  /\ Spec.free_slots 540 1020 slot (Spec.busy_on d (appointments db)) = [].
Proof.
  intros Htoday Hfault Hdate Hnone Hslot Hfuel.
  split; [|split; [lia|]].
  - assert (Hloop : candidates_from fuel "09:00" "17:00" slot = Some ["09:00"]).
    { apply (candidates_from_more_fuel 2); [|exact Hfuel].
      pose proof (range_check _ _ oversized_slot_table (slot - 5460) ltac:(lia)) as H.
      cbv beta in H. apply bool_decide_eq_true in H.
      replace (5460 + (slot - 5460)) with slot in H by lia. exact H. }
    unfold handleWithWindow.
    change (toHHMM (time_text 32400)) with "09:00".
    change (toHHMM (time_text 61200)) with "17:00".
    rewrite Hloop, Htoday. unfold appointments_on. rewrite Hfault, Hdate.
    rewrite (filter_none (fun a => a_date a = d)) by exact Hnone.
    reflexivity.
  - unfold Spec.free_slots, Spec.candidate_starts.
    replace ((1020 - 540) / slot) with 0
      by (symmetry; apply Z.div_small; lia).
    reflexivity.
Qed.

Lemma handleWithWindow_offers_oversized_slot_witness :
  is_today Sample.clock Sample.new_year Sample.day = false
  /\ date_of_text Sample.day = Some Sample.day_number
  /\ handleWithWindow Sample.clock Sample.new_year no_faults Sample.empty_store
       (Z.to_nat 6000) Sample.day 6000
       (Some (time_text 32400)) (Some (time_text 61200)) []
     = Some (availability_body Sample.day 6000 ["09:00"] [])
  /\ Spec.free_slots 540 1020 6000
       (Spec.busy_on Sample.day_number (appointments Sample.empty_store)) = []
  /\ GET_availability Sample.clock Sample.new_year no_faults (Z.to_nat 6000)
       (Sample.request None [] [("date", Sample.day); ("slotMinutes", "6000")]
          Sample.no_body)
       Sample.empty_store
     = Some (availability_body Sample.day 6000 ["09:00"] []).
Proof.
  assert (Hnone : forall a, a ∈ appointments Sample.empty_store ->
                    a_date a <> Sample.day_number).
  { intros a Ha. cbn in Ha. by apply elem_of_nil in Ha. }
  destruct (handleWithWindow_offers_oversized_slot Sample.clock Sample.new_year
              no_faults Sample.empty_store (Z.to_nat 6000) Sample.day 6000 []
              Sample.day_number eq_refl eq_refl eq_refl Hnone
              ltac:(lia) ltac:(lia))
    as (Hcode & _ & Hspec).
  split; [reflexivity|]. split; [reflexivity|].
  split; [exact Hcode|]. split; [exact Hspec|].
  transitivity (handleWithWindow Sample.clock Sample.new_year no_faults
                  Sample.empty_store (Z.to_nat 6000) Sample.day 6000
                  (Some (time_text 32400)) (Some (time_text 61200)) []);
    [vm_compute; reflexivity | exact Hcode].
Defined.

(* ================================================================== *)
(** ** Booking *)

Lemma valid_duration_cases n :
  valid_duration n = true -> n = Some 30 \/ n = Some 60.
Proof.
  destruct n as [z|]; cbn; [|discriminate].
  intros H. apply orb_true_iff in H as [H|H]; apply Z.eqb_eq in H; subst; auto.
Qed.

Lemma book_validate_inr api now b k :
  book_validate api now b = inr k ->
  required_fields_ok b /\ phone_ok b
  /\ bk_date k = default "" (date b)
  /\ bk_startHHMM k = slice0 5 (default "" (time b))
  /\ Number_val (duration b) = Some (bk_dur k)
  /\ bk_phone10 k = (nonempty (phoneNumber b) ≫= normalizeNANPTo10)
  /\ matches HHMM (bk_startHHMM k) = true
  /\ matches YYYYMMDD (bk_date k) = true
  /\ in_past api now (bk_date k +:+ "T" +:+ bk_startHHMM k) = false.
Proof.
  unfold book_validate, required_fields_ok, phone_ok.
  destruct (truthy_text (name b)); [|discriminate].
  destruct (truthy_text (date b)); [|discriminate].
  destruct (truthy_text (time b)); [|discriminate].
  destruct (truthy (duration b)); [|discriminate].
  destruct (truthy_text (type b)); [|discriminate].
  cbn [negb orb].
  destruct (valid_duration (Number_val (duration b))) eqn:Hdur; [|discriminate].
  apply valid_duration_cases in Hdur.
  cbn [negb].
  destruct (nonempty (phoneNumber b)) as [p|] eqn:Hp.
  - assert (truthy_text (phoneNumber b) = true) as ->.
    { unfold nonempty, truthy_text in *. destruct (phoneNumber b) as [s|]; [|discriminate].
      by destruct (String.eqb s ""). }
    destruct (normalizeNANPTo10 p) as [p10|] eqn:Hn.
    + rewrite bool_decide_eq_true_2 by eauto. cbn [negb andb].
      destruct (matches HHMM _) eqn:Hm; [|discriminate].
      destruct (matches YYYYMMDD _) eqn:Hd; [|discriminate].
      cbn [negb orb].
      destruct (in_past _ _ _) eqn:Hpast; [discriminate|].
      intros [= <-]. cbn. destruct Hdur as [-> | ->]; cbn; eauto 20.
    + rewrite bool_decide_eq_false_2 by (intros [? ?]; discriminate). discriminate.
  - assert (truthy_text (phoneNumber b) = false) as ->.
    { unfold nonempty, truthy_text in *. destruct (phoneNumber b) as [s|]; [|done].
      by destruct (String.eqb s ""). }
    cbn [andb].
    destruct (matches HHMM _) eqn:Hm; [|discriminate].
    destruct (matches YYYYMMDD _) eqn:Hd; [|discriminate].
    cbn [negb orb].
    destruct (in_past _ _ _) eqn:Hpast; [discriminate|].
    intros [= <-]. cbn. destruct Hdur as [-> | ->]; cbn; eauto 20.
Qed.

Lemma time_of_text_seconds s :
  matches HHMM s = true -> time_of_text (s +:+ ":00") = time_of_text s.
Proof.
  destruct s as [|c1 [|c2 [|c3 [|c4 [|c5 [|c6 r]]]]]]; try discriminate;
    cbn [matches HHMM]; rewrite ?andb_false_r; try discriminate.
  intros H. repeat (apply andb_prop in H as [? H]).
  change (String c1 (String c2 (String c3 (String c4 (String c5 "")))) +:+ ":00")
    with (String c1 (String c2 (String c3 (String c4 (String c5 ":00"))))).
  unfold time_of_text, two_digits.
  cbn [matches HHMM HHMMSS String.substring].
  repeat match goal with Hx : _ = true |- _ => rewrite Hx; clear Hx end.
  reflexivity.
Qed.


Lemma take1_filter_nonempty {A} (P : A -> Prop) `{!forall x, Decision (P x)}
    (l : list A) :
  take 1 (filter P l) <> [] <-> exists a, a ∈ l /\ P a.
Proof.
  destruct (filter P l) as [|a l'] eqn:Hfl; cbn [take].
  - split; [done|]. intros (a & Ha & HPa).
    assert (a ∈ filter P l) as Hin by (apply list_elem_of_filter; done).
    rewrite Hfl in Hin. by apply elem_of_nil in Hin.
  - split; [|done]. intros _. exists a.
    assert (a ∈ filter P l) as Hin by (rewrite Hfl; left).
    apply list_elem_of_filter in Hin as [? ?]. done.
Qed.

Lemma conflict_rows_none_skipped faults db date d start t dur :
  faults ConflictCheck = false -> date_of_text date = Some d ->
  time_of_text start = Some t ->
  exists l, conflict_rows faults db date None start dur = Some l
    /\ (l <> [] <-> exists a, a ∈ appointments db /\ overlapping d t dur a).
Proof.
  intros Hf Hd Ht. unfold conflict_rows. rewrite Hf, Hd, Ht.
  eexists. split; [reflexivity|].
  rewrite take1_filter_nonempty.
  apply exist_proper. intros a. apply and_iff_compat_l.
  unfold overlapping, sql_overlaps.
  rewrite andb_true_iff, Z.ltb_lt, Z.gtb_lt. split.
  - intros (? & _ & ? & ?). split; [done|]. split; lia.
  - intros (? & ? & ?). split; [done|]. split; [done|]. split; lia.
Qed.

(** C1.  A booking request that passes validation, with a date and a time
    that convert, is answered 409 exactly when some stored appointment of
    that date overlaps the requested half-open interval, and then nothing
    is written; otherwise the answer is 200 with the confirmation message
    and exactly one row is appended, with active = 1 and paid = 0.  After
    such a success, a second booking of the same date, time and duration
    is answered 409. *)
Theorem book_conflict_or_insert api now faults req db k d t r db' :
  book_validate api now (body req) = inr k ->
  faults ConflictCheck = false ->
  faults InsertAppointment = false ->
  date_of_text (bk_date k) = Some d ->
  time_of_text (bk_startHHMM k) = Some t ->
  POST_BookAppointment api now faults req db = (r, db') ->
  (bk_dur k = 30 \/ bk_dur k = 60)
  /\ (status r = 409 <->
      exists a, a ∈ appointments db /\ overlapping d t (bk_dur k) a)
  /\ (status r = 409 -> db' = db)
  /\ (status r <> 409 ->
      r = message 200 "Appointment saved successfully"
      /\ (exists row,
            appointments db' = appointments db ++ [row]
            /\ a_active row = 1 /\ a_paid row = 0
            /\ a_date row = d /\ a_time row = t /\ a_duration row = bk_dur k
            /\ a_name row = bk_name k /\ a_phoneNumber row = bk_phone10 k)
      /\ business_hours db' = business_hours db
      /\ holiday_hours db' = holiday_hours db
      /\ (forall now2 req2 k2,
            book_validate api now2 (body req2) = inr k2 ->
            bk_date k2 = bk_date k -> bk_startHHMM k2 = bk_startHHMM k ->
            bk_dur k2 = bk_dur k ->
            POST_BookAppointment api now2 faults req2 db'
            = (message 409 "Time conflict with another appointment", db'))).
Proof.
  intros Hv Hfc Hfi Hd Ht Hpost.
  destruct (book_validate_inr _ _ _ _ Hv) as (Hreq & _ & _ & _ & Hnum & _ & Hm & _).
  assert (Hdur : bk_dur k = 30 \/ bk_dur k = 60).
  { destruct Hreq as (_ & _ & _ & _ & _ & Hvd). rewrite Hnum in Hvd.
    apply valid_duration_cases in Hvd as [[= ->] | [= ->]]; auto. }
  split; [exact Hdur|].
  unfold POST_BookAppointment in Hpost. rewrite Hv in Hpost.
  unfold book_store in Hpost.
  destruct (conflict_rows_none_skipped faults db _ d _ t (bk_dur k) Hfc Hd Ht)
    as (l & Hl & Hiff).
  rewrite Hl in Hpost. destruct l as [|a l].
  - (* no row overlaps: the row is inserted *)
    unfold insert_appointment in Hpost.
    rewrite Hfi, Hd, time_of_text_seconds, Ht in Hpost by exact Hm.
    injection Hpost as <- <-. cbn [status message respond].
    split; [split; [discriminate | intros Hex; apply Hiff in Hex; congruence]|].
    split; [discriminate|]. intros _.
    split; [reflexivity|]. split; [eexists; cbn; eauto 10|].
    split; [reflexivity|]. split; [reflexivity|].
    intros now2 req2 k2 Hv2 Hd2 Hs2 Hdur2.
    unfold POST_BookAppointment. rewrite Hv2. unfold book_store.
    rewrite Hd2, Hs2, Hdur2.
    match goal with |- context [conflict_rows faults ?db2 _ _ _ _] =>
      destruct (conflict_rows_none_skipped faults db2 (bk_date k) d
                  (bk_startHHMM k) t (bk_dur k) Hfc Hd Ht) as (l2 & Hl2 & Hiff2)
    end.
    rewrite Hl2. destruct l2 as [|a2 l2]; [|reflexivity].
    exfalso. apply (proj2 Hiff2); [|reflexivity].
    exists (new_appointment (next_appointment_id db) d t k). split.
    + cbn. apply elem_of_app. right. left.
    + unfold overlapping. cbn. lia.
  - (* some row overlaps: 409, nothing written *)
    injection Hpost as <- <-. cbn [status message respond].
    split; [split; [intros _; by apply Hiff | reflexivity]|].
    split; [reflexivity|]. intros Hne. by destruct Hne.
Qed.

Lemma book_conflict_or_insert_witness :
  book_validate Sample.clock Sample.new_year (body Sample.booking_request)
  = inr Sample.booking
  /\ date_of_text (bk_date Sample.booking) = Some Sample.day_number
  /\ time_of_text (bk_startHHMM Sample.booking) = Some 39600
  /\ fst (POST_BookAppointment Sample.clock Sample.new_year no_faults
            Sample.booking_request Sample.busy_store)
     = message 200 "Appointment saved successfully"
  /\ fst (POST_BookAppointment Sample.clock Sample.new_year no_faults
            Sample.booking_request
            (snd (POST_BookAppointment Sample.clock Sample.new_year no_faults
                    Sample.booking_request Sample.busy_store)))
     = message 409 "Time conflict with another appointment".
Proof.
  assert (Hv : book_validate Sample.clock Sample.new_year (body Sample.booking_request)
               = inr Sample.booking) by reflexivity.
  assert (Hd : date_of_text (bk_date Sample.booking) = Some Sample.day_number)
    by reflexivity.
  assert (Ht : time_of_text (bk_startHHMM Sample.booking) = Some 39600) by reflexivity.
  split; [exact Hv|]. split; [exact Hd|]. split; [exact Ht|].
  destruct (book_conflict_or_insert Sample.clock Sample.new_year no_faults
              Sample.booking_request Sample.busy_store Sample.booking
              Sample.day_number 39600 _ _ Hv eq_refl eq_refl Hd Ht
              (surjective_pairing _))
    as (_ & _ & _ & Hins).
  destruct Hins as (Hr & _ & _ & _ & Hagain); [vm_compute; discriminate|].
  split; [exact Hr|].
  by rewrite (Hagain Sample.new_year Sample.booking_request Sample.booking Hv).
Defined.

(** *** Validation of the appointment routes *)

Lemma truthy_text_nonempty o : truthy_text o = bool_decide (is_Some (nonempty o)).
Proof.
  destruct o as [s|]; cbn; [destruct (String.eqb s "")|]; reflexivity.
Qed.



Lemma phone_check_passes b :
  phone_ok b ->
  truthy_text (phoneNumber b)
  && negb (bool_decide (is_Some (nonempty (phoneNumber b) ≫= normalizeNANPTo10)))
  = false.
Proof.
  unfold phone_ok. rewrite truthy_text_nonempty.
  destruct (nonempty (phoneNumber b)) as [p|]; cbn.
  - intros Hs. rewrite (bool_decide_eq_true_2 (is_Some (normalizeNANPTo10 p))) by done.
    reflexivity.
  - intros _. reflexivity.
Qed.

(** What the booking validation accepts: the required fields, a duration
    of 30 or 60, a phone that is absent or normalizes, the two digit
    patterns, and an instant that is not before now. *)
Lemma book_validate_accepts api now b :
  let text_date := default "" (date b) in
  let startHHMM := slice0 5 (default "" (time b)) in
  required_fields_ok b -> phone_ok b ->
  matches HHMM startHHMM = true ->
  matches YYYYMMDD text_date = true ->
  in_past api now (text_date +:+ "T" +:+ startHHMM) = false ->
  book_validate api now b
  = inr {| bk_name := default "" (name b);
           bk_phone10 := nonempty (phoneNumber b) ≫= normalizeNANPTo10;
           bk_email := nonempty (email b);
           bk_date := text_date;
           bk_startHHMM := startHHMM;
           bk_dur := default 0 (Number_val (duration b));
           bk_type := default "" (type b);
           bk_comments := nonempty (comments b) |}.
Proof.
  intros text_date startHHMM (Hn & Hd & Ht & Hdu & Hty & Hvd) Hp Hm Hdate Hpast.
  unfold book_validate. fold text_date. fold startHHMM.
  rewrite Hn, Hd, Ht, Hdu, Hty, Hvd. cbn [negb orb].
  change (match nonempty (phoneNumber b) with
          | Some p => normalizeNANPTo10 p | None => None end)
    with (nonempty (phoneNumber b) ≫= normalizeNANPTo10).
  rewrite (phone_check_passes _ Hp), Hm, Hdate, Hpast. reflexivity.
Qed.






Lemma all_digits_strip s : all_digits (strip_non_digits s) = true.
Proof.
  induction s as [|c s IH]; [reflexivity|]. cbn [strip_non_digits].
  destruct (is_digit c) eqn:Hc; [|exact IH]. cbn [all_digits]. by rewrite Hc, IH.
Qed.

Lemma normalizeNANPTo10_cases raw :
  let d := onlyDigits raw in
  match normalizeNANPTo10 raw with
  | Some p =>
      String.length p = 10%nat /\ all_digits p = true
      /\ ((String.length d = 10%nat /\ p = d)
          \/ (String.length d = 11%nat /\ d = String "1" p))
  | None =>
      String.length d <> 10%nat
      /\ ~ (String.length d = 11%nat /\ startsWith "1" d = true)
  end.
Proof.
  intros d. unfold normalizeNANPTo10. fold d.
  pose proof (all_digits_strip raw) as Hall. fold (onlyDigits raw) in Hall. fold d in Hall.
  destruct (Nat.eqb_spec (String.length d) 10) as [H10|H10].
  - auto.
  - destruct (Nat.eqb_spec (String.length d) 11) as [H11|H11]; cbn [andb].
    + destruct d as [|c d']; [discriminate|]. cbn [startsWith slice1].
      destruct (Ascii.eqb_spec c "1") as [->|Hc].
      * cbn [String.length] in H11. cbn [all_digits] in Hall.
        apply andb_prop in Hall as [_ Hall]. split; [lia|]. split; [done|].
        right. done.
      * split; [done|]. intros [_ ?]. discriminate.
    + split; [done|]. intros [? _]. done.
Qed.



(* ================================================================== *)
(** ** The holiday lookup *)







Lemma date_of_text_iso date d : date_of_text date = Some d -> isISODate (Some date) = true.
Proof.
  unfold date_of_text, isISODate. cbn [default from_option id].
  by destruct (matches YYYYMMDD date).
Qed.



(** *** The two deployments *)

(** C3 (the divergence).  For a date that converts, the serverless holiday
    lookup answers 200 from the ranged lookup, while the listener's
    statement names a column that [holiday_hours] does not have and is
    answered 500 "Database error". *)
Theorem holiday_info_variants_disagree faults req db date d :
  field "date" (query req) = Some date ->
  date_of_text date = Some d ->
  faults HolidayInfo = false ->
  GET_holiday_info faults req db
  = holiday_info_body (option_list (holiday_for_date d (holiday_hours db)))
  /\ status (GET_holiday_info faults req db) = 200
  /\ GET_holiday_info_listener faults req db = error 500 "Database error"
  /\ GET_holiday_info faults req db <> GET_holiday_info_listener faults req db.
Proof.
  intros Hq Hd Hf. pose proof (date_of_text_iso _ _ Hd) as Hiso.
  assert (H1 : GET_holiday_info faults req db
               = holiday_info_body (option_list (holiday_for_date d (holiday_hours db)))).
  { unfold GET_holiday_info, holiday_rows. rewrite Hq, Hiso, Hf. cbn. by rewrite Hd. }
  assert (H2 : status (GET_holiday_info faults req db) = 200).
  { rewrite H1. by destruct (holiday_for_date d (holiday_hours db)). }
  assert (H3 : GET_holiday_info_listener faults req db = error 500 "Database error").
  { unfold GET_holiday_info_listener, holiday_rows_where. rewrite Hq, Hiso, Hf. reflexivity. }
  repeat split; auto. intros Heq. rewrite Heq, H3 in H2. discriminate H2.
Qed.

Lemma holiday_info_variants_disagree_witness :
  date_of_text "2030-12-25" = Some 22273
  /\ GET_holiday_info no_faults
       (Sample.request None [] [("date", "2030-12-25")] Sample.no_body) Sample.busy_store
     = respond 200 [("exists", JBool true); ("holiday", JStr "Christmas Day");
                    ("comment", JStr "short day"); ("is_open", JBool true);
                    ("start_time", JStr "10:00"); ("end_time", JStr "14:00")]
  /\ GET_holiday_info_listener no_faults
       (Sample.request None [] [("date", "2030-12-25")] Sample.no_body) Sample.busy_store
     = error 500 "Database error".
Proof.
  destruct (holiday_info_variants_disagree no_faults
              (Sample.request None [] [("date", "2030-12-25")] Sample.no_body)
              Sample.busy_store "2030-12-25" 22273 eq_refl eq_refl eq_refl)
    as (Hinfo & _ & Hlistener & _).
  split; [reflexivity|]. split; [rewrite Hinfo; reflexivity | exact Hlistener].
Defined.

(* ================================================================== *)
(** ** Guards *)

Lemma admin_guards_reject req :
  (session_user req = None ->
     run_guards admin req = Done (message 401 "Not authenticated"))
  /\ (forall u, session_user req = Some u -> u_role u <> "admin" ->
        run_guards admin req = Done (message 403 "Forbidden")).
Proof.
  unfold admin, run_guards, requireAuth, requireRole. split.
  - intros ->. reflexivity.
  - intros u -> Hrole. destruct (String.eqb_spec (u_role u) "admin"); [done | reflexivity].
Qed.

(** C6.  Every admin-only endpoint answers 401 "Not authenticated" to a
    request without a session user and 403 "Forbidden" to a session user
    whose role is not "admin"; the store is returned as it was and the
    answer does not depend on it.  Each of the nine endpoints is a route. *)
Theorem admin_endpoints_guarded v rt env req db :
  rt ∈ routes v ->
  (method rt, path rt) ∈ admin_endpoints ->
  (session_user req = None ->
     serve rt env req db = Some (message 401 "Not authenticated", db))
  /\ (forall u, session_user req = Some u -> u_role u <> "admin" ->
        serve rt env req db = Some (message 403 "Forbidden", db))
  /\ Forall (fun e => exists rt', rt' ∈ routes v /\ (method rt', path rt') = e)
            admin_endpoints.
Proof.
  intros Hrt Hadmin.
  assert (Hguards : guards rt = admin).
  { unfold routes in Hrt.
    repeat (apply elem_of_cons in Hrt as [-> | Hrt]; [try reflexivity|]);
      try (by apply elem_of_nil in Hrt);
      exfalso; unfold admin_endpoints in Hadmin; cbn [method path] in Hadmin;
      repeat (apply elem_of_cons in Hadmin as [[=] | Hadmin]);
      by apply elem_of_nil in Hadmin. }
  destruct (admin_guards_reject req) as [H401 H403].
  split; [|split].
  - intros Hnone. unfold serve. by rewrite Hguards, (H401 Hnone).
  - intros u Hu Hrole. unfold serve. by rewrite Hguards, (H403 u Hu Hrole).
  - assert (Hall : forallb (fun e =>
              existsb (fun rt' => String.eqb (method rt') (fst e)
                                  && String.eqb (path rt') (snd e)) (routes v))
              admin_endpoints = true) by (destruct v; reflexivity).
    rewrite forallb_forall in Hall. apply Forall_forall. intros [m p] He.
    apply list_elem_of_In, Hall, existsb_exists in He as (rt' & Hin & Heq).
    apply andb_prop in Heq as [Hm%String.eqb_eq Hp%String.eqb_eq]. cbn in Hm, Hp.
    exists rt'. split; [by apply list_elem_of_In | congruence].
Qed.

Lemma admin_endpoints_guarded_witness :
  (method <$> routes Serverless) !! 5%nat = Some "DELETE"
  /\ (path <$> routes Serverless) !! 5%nat = Some "/api/admin/business-hours/:week_day"
  /\ (forall rt, routes Serverless !! 5%nat = Some rt ->
        serve rt Sample.env
          (Sample.request None [("week_day", "1")] [] Sample.no_body) Sample.busy_store
        = Some (message 401 "Not authenticated", Sample.busy_store)
        /\ serve rt Sample.env
             (Sample.request (Some Sample.viewer) [("week_day", "1")] [] Sample.no_body)
             Sample.busy_store
           = Some (message 403 "Forbidden", Sample.busy_store)).
Proof.
  split; [reflexivity|]. split; [reflexivity|]. intros rt Hrt.
  assert (Hin : rt ∈ routes Serverless) by (eapply list_elem_of_lookup_2; exact Hrt).
  assert (Hep : (method rt, path rt) ∈ admin_endpoints).
  { cbn in Hrt. injection Hrt as <-. cbn. do 4 right. left. }
  split.
  - by apply (admin_endpoints_guarded Serverless rt Sample.env
                (Sample.request None [("week_day", "1")] [] Sample.no_body)
                Sample.busy_store Hin Hep).
  - destruct (admin_endpoints_guarded Serverless rt Sample.env
                (Sample.request (Some Sample.viewer) [("week_day", "1")] [] Sample.no_body)
                Sample.busy_store Hin Hep) as (_ & H403 & _).
    by apply (H403 Sample.viewer).
Defined.

(* ================================================================== *)
(** ** Weekly hours *)

(** C7.  DELETE of a weekday 1..7 answers 200 {ok: true}; afterwards the
    weekday has a row with is_open = 0, a row that was there keeps its
    start and end time, every other weekday is as before, and no key is
    removed. *)
Theorem delete_business_hours_closes faults req db day :
  field "week_day" (params req) ≫= Number = Some day ->
  1 <= day <= 7 ->
  faults CloseBusinessHours = false ->
  let r := fst (DELETE_business_hours faults req db) in
  let db' := snd (DELETE_business_hours faults req db) in
  r = respond 200 [("ok", JBool true)]
  /\ (exists row, business_hours db' !! day = Some row
        /\ bh_is_open row = 0
        /\ forall old, business_hours db !! day = Some old ->
             bh_start_time row = bh_start_time old
             /\ bh_end_time row = bh_end_time old)
  /\ (forall other, other <> day ->
        business_hours db' !! other = business_hours db !! other)
  /\ dom (business_hours db') = {[day]} ∪ dom (business_hours db)
  /\ appointments db' = appointments db
  /\ holiday_hours db' = holiday_hours db.
Proof.
  intros Hday Hrange Hf. unfold DELETE_business_hours. rewrite Hday.
  assert (isValidWeekday (Some day) = true) as -> by (cbn; lia).
  rewrite Hf. cbn [negb fst snd default from_option id set_business_hours
                   business_hours appointments holiday_hours].
  split; [reflexivity|]. unfold close_weekday.
  destruct (business_hours db !! day) as [old|] eqn:Hold.
  - split; [|split; [|split; [|split]]]; try reflexivity.
    + eexists. rewrite lookup_insert_eq. split; [reflexivity|].
      split; [reflexivity|]. by intros ? [= <-].
    + intros other Hne. by rewrite lookup_insert_ne.
    + by rewrite dom_insert_L.
  - split; [|split; [|split; [|split]]]; try reflexivity.
    + eexists. rewrite lookup_insert_eq. split; [reflexivity|].
      split; [reflexivity|]. intros ? [=].
    + intros other Hne. by rewrite lookup_insert_ne.
    + by rewrite dom_insert_L.
Qed.

Lemma delete_business_hours_closes_witness :
  field "week_day" (params (Sample.request (Some Sample.administrator)
                              [("week_day", "1")] [] Sample.no_body)) ≫= Number = Some 1
  /\ business_hours
       (snd (DELETE_business_hours no_faults
               (Sample.request (Some Sample.administrator) [("week_day", "1")] []
                  Sample.no_body) Sample.busy_store)) !! 1
     = Some {| bh_start_time := Some 32400; bh_end_time := Some 61200; bh_is_open := 0 |}.
Proof.
  split; [reflexivity|].
  destruct (delete_business_hours_closes no_faults
              (Sample.request (Some Sample.administrator) [("week_day", "1")] []
                 Sample.no_body) Sample.busy_store 1 eq_refl ltac:(lia) eq_refl)
    as (_ & (row & Hrow & Hclosed & Hkeep) & _).
  rewrite Hrow. f_equal.
  destruct (Hkeep {| bh_start_time := Some 32400; bh_end_time := Some 61200;
                     bh_is_open := 1 |} eq_refl) as [Hs He].
  destruct row as [s e o]. cbn in *. by subst.
Defined.

(* ================================================================== *)
(** ** The availability route *)

(** C8.  Two availability requests whose queries agree on every key but
    [excludeId] get the same answer from every store. *)
Theorem availability_ignores_excludeId api now faults fuel req1 req2 db :
  (forall key, key <> "excludeId" ->
     field key (query req1) = field key (query req2)) ->
  GET_availability api now faults fuel req1 db
  = GET_availability api now faults fuel req2 db.
Proof.
  intros Hsame. unfold GET_availability.
  rewrite (Hsame "date") by discriminate.
  rewrite (Hsame "slotMinutes") by discriminate.
  reflexivity.
Qed.

Lemma availability_ignores_excludeId_witness :
  GET_availability Sample.clock Sample.new_year no_faults (Z.to_nat 6000)
    (Sample.request None [] [("date", Sample.day); ("excludeId", "1")] Sample.no_body)
    Sample.busy_store
  = GET_availability Sample.clock Sample.new_year no_faults (Z.to_nat 6000)
      (Sample.request None [] [("date", Sample.day)] Sample.no_body)
      Sample.busy_store
  /\ exists r, GET_availability Sample.clock Sample.new_year no_faults (Z.to_nat 6000)
                 (Sample.request None [] [("date", Sample.day); ("excludeId", "1")]
                    Sample.no_body) Sample.busy_store = Some r.
Proof.
  split.
  - apply availability_ignores_excludeId. intros key Hkey.
    unfold Sample.request. cbn [query field].
    destruct (String.eqb "date" key); [reflexivity|].
    destruct (String.eqb_spec "excludeId" key) as [<-|]; [done | reflexivity].
  - eexists. vm_compute. reflexivity.
Defined.


Lemma handleWithWindow_store api now faults db1 db2 fuel date slot s e meta :
  appointments db1 = appointments db2 ->
  handleWithWindow api now faults db1 fuel date slot s e meta
  = handleWithWindow api now faults db2 fuel date slot s e meta.
Proof.
  intros Happ. unfold handleWithWindow, appointments_on. by rewrite Happ.
Qed.

Lemma weekly_request api now faults fuel req db date d w row :
  field "date" (query req) = Some date ->
  date_of_text date = Some d ->
  faults HolidayForDate = false -> faults BusinessHoursForDay = false ->
  holiday_for_date d (holiday_hours db) = None ->
  jsWeekdayMonday1to7 api date = Some w ->
  business_hours db !! w = Some row ->
  GET_availability api now faults fuel req db
  = handleWithWindow api now faults db fuel date
      (Z.max 5 (or_num (parseInt (field "slotMinutes" (query req))) 30))
      (time_text <$> bh_start_time row) (time_text <$> bh_end_time row) [].
Proof.
  intros Hq Hd Hf1 Hf2 Hnone Hw Hrow.
  unfold GET_availability, holiday_rows.
  rewrite Hq, (date_of_text_iso _ _ Hd), Hf1. cbn [negb default from_option id].
  rewrite Hd, Hnone. cbn [option_list].
  unfold weekly_window, business_rows. rewrite Hf2, Hw, Hrow. reflexivity.
Qed.

(** C9.  When no override covers the date, the availability route answers
    from the start and end time of the weekday's row and never reads
    [is_open]: the answer is the window handler's for that window, it is
    the same whatever the flag is set to, and for a window and
    appointments below 100 hours on a date that is not today it is the
    full list of free slots. *)
Theorem closed_weekday_still_offers_slots api now faults fuel req db date d w row flag :
  field "date" (query req) = Some date ->
  date_of_text date = Some d ->
  faults HolidayForDate = false -> faults BusinessHoursForDay = false ->
  holiday_for_date d (holiday_hours db) = None ->
  jsWeekdayMonday1to7 api date = Some w ->
  business_hours db !! w = Some row ->
  let slot := Z.max 5 (or_num (parseInt (field "slotMinutes" (query req))) 30) in
  let db' :=
    set_business_hours db
      (<[w := {| bh_start_time := bh_start_time row;
                 bh_end_time := bh_end_time row;
                 bh_is_open := flag |}]> (business_hours db)) in
  GET_availability api now faults fuel req db
  = handleWithWindow api now faults db fuel date slot
      (time_text <$> bh_start_time row) (time_text <$> bh_end_time row) []
  /\ GET_availability api now faults fuel req db'
     = GET_availability api now faults fuel req db
  /\ (forall ws we,
        bh_start_time row = Some ws -> bh_end_time row = Some we ->
        is_today api now date = false -> faults AppointmentsOnDate = false ->
        0 <= ws -> 0 <= we -> ws / 60 + slot < 6000 -> we / 60 + slot < 6000 ->
        (forall a, a ∈ appointments db -> a_date a = d -> row_in_range a) ->
        6000 <= Z.of_nat fuel ->
        GET_availability api now faults fuel req db'
        = Some (availability_body date slot
                  (Spec.hhmm <$> Spec.free_slots (ws / 60) (we / 60) slot
                                   (Spec.busy_on d (appointments db)))
                  [])).
Proof.
  intros Hq Hd Hf1 Hf2 Hnone Hw Hrow slot db'.
  assert (Hopen : GET_availability api now faults fuel req db
                  = handleWithWindow api now faults db fuel date slot
                      (time_text <$> bh_start_time row)
                      (time_text <$> bh_end_time row) [])
    by (by apply (weekly_request api now faults fuel req db date d w row)).
  assert (Hclosed : GET_availability api now faults fuel req db'
                    = handleWithWindow api now faults db' fuel date slot
                        (time_text <$> bh_start_time row)
                        (time_text <$> bh_end_time row) []).
  { apply (weekly_request api now faults fuel req db' date d w
             {| bh_start_time := bh_start_time row; bh_end_time := bh_end_time row;
                bh_is_open := flag |}); auto.
    subst db'. cbn. apply lookup_insert_eq. }
  assert (Hsame : GET_availability api now faults fuel req db'
                  = GET_availability api now faults fuel req db).
  { rewrite Hopen, Hclosed. by apply handleWithWindow_store. }
  split; [exact Hopen|]. split; [exact Hsame|].
  intros ws we Hs He Htoday Hf3 Hws Hwe Hsb Heb Hrows Hfuel.
  rewrite Hsame, Hopen, Hs, He. cbn [fmap option_fmap option_map].
  assert (5 <= slot) by (subst slot; lia).
  by apply window_slots_below_100h.
Qed.

Lemma closed_weekday_still_offers_slots_witness :
  holiday_for_date Sample.day_number (holiday_hours Sample.busy_store) = None
  /\ jsWeekdayMonday1to7 Sample.clock Sample.day = Some 1
  /\ GET_availability Sample.clock Sample.new_year no_faults (Z.to_nat 6000)
       (Sample.request None [] [("date", Sample.day)] Sample.no_body)
       (set_business_hours Sample.busy_store
          (<[1 := {| bh_start_time := Some 32400; bh_end_time := Some 61200;
                     bh_is_open := 0 |}]> (business_hours Sample.busy_store)))
     = Some (availability_body Sample.day 30
               ["09:00"; "09:30"; "11:00"; "11:30"; "12:00"; "12:30"; "13:00";
                "13:30"; "14:00"; "14:30"; "15:00"; "15:30"; "16:00"; "16:30"] []).
Proof.
  split; [reflexivity|]. split; [reflexivity|].
  destruct (closed_weekday_still_offers_slots Sample.clock Sample.new_year no_faults
              (Z.to_nat 6000)
              (Sample.request None [] [("date", Sample.day)] Sample.no_body)
              Sample.busy_store Sample.day Sample.day_number 1
              {| bh_start_time := Some 32400; bh_end_time := Some 61200;
                 bh_is_open := 1 |} 0
              eq_refl eq_refl eq_refl eq_refl eq_refl eq_refl eq_refl)
    as (_ & _ & Hslots).
  refine (Hslots 32400 61200 eq_refl eq_refl eq_refl eq_refl _ _ _ _ _ _);
    try lia; try (vm_compute; congruence).
  intros a Ha _. cbn in Ha. apply list_elem_of_singleton in Ha as ->.
  unfold row_in_range. repeat split; vm_compute; congruence.
Defined.


(* ================================================================== *)
(** ** Further properties of the routes *)

Import Inv.

(** *** Updating an appointment *)




(** *** What the two appointment routes keep *)

Lemma conflict_rows_empty faults db date skip start dur d :
  conflict_rows faults db date skip start dur = Some [] ->
  date_of_text date = Some d ->
  forall a, a ∈ appointments db -> a_date a = d -> Some (a_id a) <> skip ->
    sql_overlaps (time_of_text start) dur a = false.
Proof.
  unfold conflict_rows. destruct (faults ConflictCheck); [discriminate|].
  intros H Hd. rewrite Hd in H. injection H as H. intros a Ha Hda Hid.
  destruct (sql_overlaps (time_of_text start) dur a) eqn:Hov; [|done].
  exfalso.
  assert (Hin : a ∈ filter (fun a => a_date a = d /\ Some (a_id a) <> skip /\
                   sql_overlaps (time_of_text start) dur a = true) (appointments db))
    by (apply list_elem_of_filter; done).
  destruct (filter _ (appointments db)) as [|x xs]; [by apply elem_of_nil in Hin|].
  discriminate H.
Qed.

Lemma rows_overlap_sym a b : rows_overlap a b -> rows_overlap b a.
Proof. unfold rows_overlap. intros (? & ? & ?). repeat split; [congruence | lia..]. Qed.

Lemma no_double_booking_snoc rows x :
  no_double_booking rows ->
  (forall a, a ∈ rows -> ~ rows_overlap a x) ->
  no_double_booking (rows ++ [x]).
Proof.
  intros Hinv Hx i j a b Hij Hi Hj Hov.
  apply lookup_app_Some in Hi as [Hi | [Hil Hi]];
    apply lookup_app_Some in Hj as [Hj | [Hjl Hj]].
  - by apply (Hinv i j a b).
  - apply list_lookup_singleton_Some in Hj as [_ <-].
    apply (Hx a); [by eapply list_elem_of_lookup_2 | done].
  - apply list_lookup_singleton_Some in Hi as [_ <-].
    apply (Hx b); [by eapply list_elem_of_lookup_2 | by apply rows_overlap_sym].
  - apply list_lookup_singleton_Some in Hi as [Hi0 _].
    apply list_lookup_singleton_Some in Hj as [Hj0 _]. lia.
Qed.

(** X3.  Booking keeps the store free of double bookings and its ids
    distinct and below the next id, whatever the request and whichever
    statements fail. *)
Theorem booking_keeps_store_consistent api now faults req db :
  no_double_booking (appointments db) -> ids_fresh db ->
  let db' := snd (POST_BookAppointment api now faults req db) in
  no_double_booking (appointments db') /\ ids_fresh db'.
Proof.
  intros Hinv Hids. unfold POST_BookAppointment.
  destruct (book_validate api now (body req)) as [r|k] eqn:Hv; [done|].
  apply book_validate_inr in Hv as (_ & _ & _ & _ & _ & _ & Hm & _).
  unfold book_store.
  destruct (conflict_rows faults db (bk_date k) None (bk_startHHMM k) (bk_dur k))
    as [[|c l]|] eqn:Hc; [|done..].
  unfold insert_appointment. destruct (faults InsertAppointment); [done|].
  destruct (date_of_text (bk_date k)) as [d|] eqn:Hd; [|done].
  rewrite time_of_text_seconds by exact Hm.
  destruct (time_of_text (bk_startHHMM k)) as [t|] eqn:Ht; [|done].
  cbn [snd appointments]. split.
  - apply no_double_booking_snoc; [exact Hinv|].
    intros a Ha (Hda & H1 & H2). cbn in Hda, H1, H2.
    pose proof (conflict_rows_empty _ _ _ _ _ _ d Hc Hd a Ha Hda ltac:(done)) as Hno.
    rewrite Ht in Hno. unfold sql_overlaps in Hno.
    apply andb_false_iff in Hno as [Hno | Hno]; lia.
  - destruct Hids as [Hnd Hlt]. split; cbn [appointments next_appointment_id].
    + rewrite fmap_app. apply NoDup_app. split; [exact Hnd|]. split.
      * intros x Hx Hx'. cbn in Hx'. apply list_elem_of_singleton in Hx' as ->.
        apply list_elem_of_fmap in Hx as (a & Heq & Ha). specialize (Hlt a Ha). lia.
      * cbn. apply NoDup_singleton.
    + intros a [Ha | Ha]%elem_of_app.
      * specialize (Hlt a Ha). lia.
      * apply list_elem_of_singleton in Ha as ->. cbn. lia.
Qed.

Lemma update_validate_inr api now req e :
  update_validate api now req = inr e ->
  0 < ed_id e
  /\ (bk_dur (ed_booking e) = 30 \/ bk_dur (ed_booking e) = 60)
  /\ bk_date (ed_booking e) = default "" (date (body req))
  /\ bk_startHHMM (ed_booking e) = slice0 5 (default "" (time (body req)))
  /\ exists instant,
       Date_parse api (bk_date (ed_booking e) +:+ "T" +:+ bk_startHHMM (ed_booking e))
       = Some instant /\ now <= instant.
Proof.
  unfold update_validate, positive_id.
  destruct (field "id" (params req) ≫= Number) as [z|]; [|discriminate].
  destruct (Z.leb_spec z 0); [discriminate|].
  destruct (_ || _); [discriminate|].
  destruct (valid_duration (Number_val (duration (body req)))) eqn:Hdur; [|discriminate].
  apply valid_duration_cases in Hdur. cbn [negb].
  destruct (_ && _); [discriminate|].
  destruct (Date_parse api _) as [instant|] eqn:Hparse; [|discriminate].
  destruct (Z.ltb_spec instant now); [discriminate|].
  intros [= <-]. cbn. split; [lia|]. split; [destruct Hdur as [-> | ->]; auto|].
  split; [done|]. split; [done|]. eauto.
Qed.

Lemma no_double_booking_edit rows (f : Appointment -> Appointment) id d t dur :
  NoDup (a_id <$> rows) ->
  no_double_booking rows ->
  (forall a, a_id a <> id -> f a = a) ->
  (forall a, a_id a = id -> a_date (f a) = d /\ a_time (f a) = t /\ a_duration (f a) = dur) ->
  (forall b, b ∈ rows -> a_id b <> id -> a_date b = d ->
     ~ (t < a_time b + a_duration b * 60 /\ t + dur * 60 > a_time b)) ->
  no_double_booking (f <$> rows).
Proof.
  intros Hnd Hinv Hother Hsame Hfree i j a' b' Hij Hi Hj Hov.
  rewrite list_lookup_fmap in Hi, Hj.
  destruct (rows !! i) as [a|] eqn:Hai; [|discriminate].
  destruct (rows !! j) as [b|] eqn:Hbj; [|discriminate].
  cbn in Hi, Hj. injection Hi as <-. injection Hj as <-.
  destruct (Z.eq_dec (a_id a) id) as [Ha|Ha], (Z.eq_dec (a_id b) id) as [Hb|Hb].
  - apply Hij. eapply (NoDup_lookup _ i j (a_id a)); [exact Hnd|..];
      rewrite list_lookup_fmap; [by rewrite Hai | rewrite Hbj; cbn; congruence].
  - rewrite (Hother b Hb) in Hov. destruct (Hsame a Ha) as (Hd & Ht & Hdu).
    destruct Hov as (Hdate & H1 & H2). rewrite Hd, Ht, ?Hdu in *.
    apply (Hfree b); [by eapply list_elem_of_lookup_2 | done | congruence | lia].
  - rewrite (Hother a Ha) in Hov. destruct (Hsame b Hb) as (Hd & Ht & Hdu).
    destruct Hov as (Hdate & H1 & H2). rewrite Hd, Ht, ?Hdu in *.
    apply (Hfree a); [by eapply list_elem_of_lookup_2 | done | congruence | lia].
  - rewrite (Hother a Ha), (Hother b Hb) in Hov. by apply (Hinv i j a b).
Qed.

(** X4.  Editing with a time in HH:MM form keeps the store free of double
    bookings and its ids distinct and below the next id, whichever
    statements fail. *)
Theorem update_keeps_store_consistent api now faults req db :
  matches HHMM (slice0 5 (default "" (time (body req)))) = true ->
  no_double_booking (appointments db) -> ids_fresh db ->
  let db' := snd (PUT_appointment api now faults req db) in
  no_double_booking (appointments db') /\ ids_fresh db'.
Proof.
  intros Hm Hinv Hids. unfold PUT_appointment.
  destruct (update_validate api now req) as [r|e] eqn:Hv; [done|].
  apply update_validate_inr in Hv as (_ & _ & _ & Hstart & _).
  rewrite <- Hstart in Hm. unfold update_store.
  destruct (conflict_rows faults db _ (Some (ed_id e)) _ _) as [[|c l]|] eqn:Hc; [|done..].
  unfold update_appointment. destruct (faults UpdateAppointment); [done|].
  destruct (date_of_text (bk_date (ed_booking e))) as [d|] eqn:Hd; [|done].
  rewrite time_of_text_seconds by exact Hm.
  destruct (time_of_text (bk_startHHMM (ed_booking e))) as [t|] eqn:Ht; [|done].
  set (f := fun a : Appointment => if a_id a =? ed_id e then edit_row e d t a else a).
  assert (Hids' : a_id <$> (f <$> appointments db) = a_id <$> appointments db).
  { rewrite <- list_fmap_compose. apply list_fmap_ext. intros i a _. unfold f, compose.
    by destruct (a_id a =? ed_id e). }
  destruct Hids as [Hnd Hlt]. unfold ids_fresh.
  destruct (faults SelectAppointment);
    cbn [snd appointments next_appointment_id]; (split; [|split]).
  all: try (rewrite Hids'; exact Hnd).
  all: try (intros a' Ha'; apply list_elem_of_fmap in Ha' as (a & -> & Ha);
            specialize (Hlt a Ha); unfold f; by destruct (a_id a =? ed_id e)).
  all: apply (no_double_booking_edit _ f (ed_id e) d t (bk_dur (ed_booking e)));
    try assumption.
  all: try (intros a Ha; unfold f; by destruct (Z.eqb_spec (a_id a) (ed_id e))).
  all: try (intros a Ha; unfold f; rewrite (proj2 (Z.eqb_eq _ _) Ha); by cbn).
  all: intros b Hb Hid Hdate [H1 H2];
    pose proof (conflict_rows_empty _ _ _ _ _ _ d Hc Hd b Hb Hdate
                  ltac:(congruence)) as Hno;
    rewrite Ht in Hno; unfold sql_overlaps in Hno;
    apply andb_false_iff in Hno as [Hno | Hno]; lia.
Qed.

(** *** From an offered time to a booking *)

Lemma hhmm_texts_table :
  forallb (fun c => bool_decide (time_of_text (Spec.hhmm c) = Some (c * 60))
                    && matches HHMM (Spec.hhmm c))
          (seqZ 0 6000) = true.
Proof. vm_compute. reflexivity. Qed.

Lemma time_of_text_hhmm c :
  0 <= c < 6000 ->
  time_of_text (Spec.hhmm c) = Some (c * 60) /\ matches HHMM (Spec.hhmm c) = true.
Proof.
  intros Hc. pose proof (range_check _ _ hhmm_texts_table c Hc) as H.
  apply andb_prop in H as [H1 H2]. by apply bool_decide_eq_true in H1.
Qed.

Lemma hhmm_inj u v :
  0 <= u < 6000 -> 0 <= v < 6000 -> Spec.hhmm u = Spec.hhmm v -> u = v.
Proof.
  intros Hu Hv Heq. pose proof (hhmm_compare u v Hu Hv) as Hc.
  rewrite Heq in Hc. apply Z.compare_eq.
  rewrite <- Hc. clear. induction (Spec.hhmm v) as [|c s IH]; [done|].
  cbn. unfold Ascii.compare. by rewrite N.compare_refl.
Qed.

Lemma fmap_JStr_inj (times times' : list string) :
  JStr <$> times = JStr <$> times' -> times = times'.
Proof.
  revert times'. induction times as [|x xs IH]; intros [|y ys] H;
    try discriminate; [done|].
  injection H as -> H. f_equal. by apply IH.
Qed.

Lemma whole_minute_in_range a : whole_minute a -> row_in_range a.
Proof. intros (? & _ & ? & ?). by repeat split. Qed.

Lemma offered_slot_book_store api now faults db fuel date slot ws we meta d times :
  is_today api now date = false ->
  (forall s, faults s = false) ->
  date_of_text date = Some d ->
  slot = 30 \/ slot = 60 ->
  0 <= ws -> 0 <= we -> ws / 60 + slot < 6000 -> we / 60 + slot < 6000 ->
  (forall a, a ∈ appointments db -> a_date a = d -> whole_minute a) ->
  6000 <= Z.of_nat fuel ->
  handleWithWindow api now faults db fuel date slot
    (Some (time_text ws)) (Some (time_text we)) meta
  = Some (availability_body date slot times meta) ->
  forall c k,
    c ∈ Spec.candidate_starts (ws / 60) (we / 60) slot ->
    bk_date k = date -> bk_startHHMM k = Spec.hhmm c -> bk_dur k = slot ->
    book_store faults db k
    = if bool_decide (Spec.hhmm c ∈ times)
      then (message 200 "Appointment saved successfully",
            {| appointments :=
                 appointments db ++ [new_appointment (next_appointment_id db) d (c * 60) k];
               next_appointment_id := next_appointment_id db + 1;
               business_hours := business_hours db;
               holiday_hours := holiday_hours db;
               next_holiday_id := next_holiday_id db |})
      else (message 409 "Time conflict with another appointment", db).
Proof.
  intros Htoday Hf Hd Hslot Hws Hwe Hsb Heb Hrows Hfuel Hresp c k Hc Hkd Hks Hkdur.
  assert (Hpos : 0 < slot) by lia.
  assert (0 <= ws / 60) by (apply Z.div_pos; lia).
  rewrite (window_slots_below_100h api now faults db fuel date slot ws we meta d)
    in Hresp; auto; try lia;
    [|intros a Ha Hda; by apply whole_minute_in_range, Hrows].
  injection Hresp as Hresp. apply fmap_JStr_inj in Hresp. subst times.
  pose proof (candidate_starts_bounds _ _ _ _ Hpos Hc) as [Hc1 Hc2].
  destruct (time_of_text_hhmm c ltac:(lia)) as [Htime Hmatch].
  assert (Hfree : Spec.hhmm c ∈ Spec.hhmm <$> Spec.free_slots (ws / 60) (we / 60) slot
                     (Spec.busy_on d (appointments db))
                  <-> forall a, a ∈ appointments db -> ~ overlapping d (c * 60) slot a).
  { rewrite list_elem_of_fmap. split.
    - intros (c' & Heq & Hc') a Ha (Hda & H1 & H2).
      pose proof (proj1 (free_slots_member _ _ _ _ _ Hpos) Hc')
        as [(j & Hj & -> & Hend) Hclear].
      apply hhmm_inj in Heq; [|lia | nia]. subst c.
      destruct (Hrows a Ha Hda) as (Ht0 & Hmod & Hdu & _).
      pose proof (Z.div_mod (a_time a) 60 ltac:(lia)).
      apply (Hclear (a_time a / 60, a_duration a)); [|cbn; lia].
      unfold Spec.busy_on. apply list_elem_of_fmap. exists a. split; [done|].
      by apply list_elem_of_filter.
    - intros Hnone. exists c. split; [done|].
      unfold Spec.free_slots. apply list_elem_of_In, filter_In.
      split; [by apply list_elem_of_In|].
      unfold Spec.free. apply forallb_forall. intros b Hb.
      apply list_elem_of_In in Hb. unfold Spec.busy_on in Hb.
      apply list_elem_of_fmap in Hb as (a & -> & Ha).
      apply list_elem_of_filter in Ha as [Hda Ha]. cbn [fst snd].
      destruct (Hrows a Ha Hda) as (Ht0 & Hmod & Hdu & _).
      pose proof (Z.div_mod (a_time a) 60 ltac:(lia)).
      apply negb_true_iff. unfold Spec.overlap.
      destruct (Z.ltb_spec c (a_time a / 60 + a_duration a)); [|done].
      destruct (Z.gtb_spec (c + slot) (a_time a / 60)); [|done].
      exfalso. apply (Hnone a Ha). unfold overlapping. lia. }
  unfold book_store. rewrite Hkd, Hks, Hkdur.
  destruct (conflict_rows_none_skipped faults db date d (Spec.hhmm c) (c * 60) slot
              (Hf _) Hd Htime) as (l & -> & Hiff).
  destruct l as [|x l].
  - assert (Hnone : forall a, a ∈ appointments db -> ~ overlapping d (c * 60) slot a).
    { intros a Ha Hov. apply (proj2 Hiff); [eauto | done]. }
    rewrite bool_decide_eq_true_2 by (by apply Hfree).
    unfold insert_appointment. rewrite (Hf _), Hkd, Hd, Hks.
    by rewrite (time_of_text_seconds _ Hmatch), Htime.
  - destruct (proj1 Hiff ltac:(discriminate)) as (a & Ha & Hov).
    rewrite bool_decide_eq_false_2; [done|].
    intros Hin. by apply (proj1 Hfree Hin a Ha).
Qed.


(** *** Time texts with seconds *)

Lemma digit_cases c :
  is_digit c = true ->
  In c ["0"; "1"; "2"; "3"; "4"; "5"; "6"; "7"; "8"; "9"]%char.
Proof.
  destruct c as [[] [] [] [] [] [] [] []]; intros H;
    try discriminate H; cbn; auto 12.
Qed.

Lemma two_digit_text c1 c2 :
  is_digit c1 = true -> is_digit c2 = true ->
  let n := digits_value 0 (String c1 (String c2 "")) in
  String c1 (String c2 "") = pad2 n /\ 0 <= n < 100.
Proof.
  intros H1%digit_cases H2%digit_cases. cbn [In] in H1, H2.
  repeat (destruct H1 as [<- | H1]; [|]); try done;
    repeat (destruct H2 as [<- | H2]; [|]); try done;
    (split; [vm_compute; reflexivity | vm_compute; split; congruence]).
Qed.

(** A text in HH:MM:SS form is made of three two-digit fields. *)
Lemma hhmmss_fields s :
  matches HHMMSS s = true ->
  exists h m sec,
    s = pad2 h +:+ ":" +:+ pad2 m +:+ ":" +:+ pad2 sec
    /\ 0 <= h < 100 /\ 0 <= m < 100 /\ 0 <= sec < 100
    /\ time_of_text s
       = if (m <? 60) && (sec <? 60) then Some (h * 3600 + m * 60 + sec) else None.
Proof.
  destruct s as [|c1 [|c2 [|c3 [|c4 [|c5 [|c6 [|c7 [|c8 [|c9 r]]]]]]]]];
    try discriminate; cbn [matches HHMMSS]; rewrite ?andb_false_r; try discriminate.
  intros H. repeat (apply andb_prop in H as [? H]).
  repeat match goal with Hx : Ascii.eqb _ _ = true |- _ =>
    apply Ascii.eqb_eq in Hx; subst end.
  destruct (two_digit_text c1 c2) as [E1 B1]; auto.
  destruct (two_digit_text c4 c5) as [E2 B2]; auto.
  destruct (two_digit_text c7 c8) as [E3 B3]; auto.
  cbv zeta in *.
  exists (digits_value 0 (String c1 (String c2 ""))),
         (digits_value 0 (String c4 (String c5 ""))),
         (digits_value 0 (String c7 (String c8 ""))).
  split; [|split; [done|split; [done|split; [done|]]]].
  - rewrite <- E1, <- E2, <- E3. reflexivity.
  - unfold time_of_text, two_digits. cbn [matches HHMM HHMMSS String.substring].
    repeat match goal with Hx : is_digit _ = true |- _ => rewrite Hx; clear Hx end.
    cbn [andb orb Ascii.eqb]. rewrite ?Ascii.eqb_refl. cbn [andb orb].
    rewrite ?andb_false_r. cbn [orb]. reflexivity.
Qed.

Lemma hhmmss_compare s e a b :
  matches HHMMSS s = true -> matches HHMMSS e = true ->
  time_of_text s = Some a -> time_of_text e = Some b ->
  String.compare s e = (a ?= b).
Proof.
  intros Hs He Ha Hb.
  destruct (hhmmss_fields s Hs) as (h1 & m1 & s1 & -> & ? & ? & ? & Ea).
  destruct (hhmmss_fields e He) as (h2 & m2 & s2 & -> & ? & ? & ? & Eb).
  rewrite Ea in Ha. rewrite Eb in Hb.
  destruct ((m1 <? 60) && (s1 <? 60)) eqn:B1; [|discriminate].
  destruct ((m2 <? 60) && (s2 <? 60)) eqn:B2; [|discriminate].
  injection Ha as <-. injection Hb as <-.
  apply andb_prop in B1 as [?%Z.ltb_lt ?%Z.ltb_lt].
  apply andb_prop in B2 as [?%Z.ltb_lt ?%Z.ltb_lt].
  rewrite compare_app by (rewrite !pad2_length; auto).
  rewrite pad2_compare by lia.
  change (String.compare (":" +:+ ?x) (":" +:+ ?y)) with (String.compare x y).
  rewrite compare_app by (rewrite !pad2_length; auto).
  rewrite pad2_compare by lia.
  change (String.compare (":" +:+ ?x) (":" +:+ ?y)) with (String.compare x y).
  rewrite pad2_compare by lia.
  destruct (Z.compare_spec h1 h2), (Z.compare_spec m1 m2), (Z.compare_spec s1 s2),
    (Z.compare_spec (h1 * 3600 + m1 * 60 + s1) (h2 * 3600 + m2 * 60 + s2));
    try reflexivity; lia.
Qed.

Lemma normalizeTimeHHMMSS_some t s :
  normalizeTimeHHMMSS t = Some s ->
  matches HHMMSS s = true
  /\ exists raw, t = Some raw /\ time_of_text s = time_of_text raw
       /\ (matches HHMM raw = true \/ raw = s).
Proof.
  unfold normalizeTimeHHMMSS. destruct t as [raw|]; [|discriminate].
  destruct (String.eqb raw ""); [discriminate|].
  destruct (matches HHMM raw) eqn:H5.
  - cbn [orb negb].
    assert (String.length raw = 5%nat) as Hlen.
    { destruct raw as [|c1 [|c2 [|c3 [|c4 [|c5 [|c6 r]]]]]]; try discriminate H5;
        cbn [matches HHMM] in H5; rewrite ?andb_false_r in H5; try discriminate H5.
      reflexivity. }
    rewrite Hlen. cbn. intros [= <-]. split.
    + destruct raw as [|c1 [|c2 [|c3 [|c4 [|c5 [|c6 r]]]]]]; try discriminate Hlen.
      cbn [matches HHMM] in H5. repeat (apply andb_prop in H5 as [? H5]).
      change (matches HHMMSS (String c1 (String c2 (String c3 (String c4 (String c5 ":00")))))
              = true).
      cbn [matches HHMMSS].
      repeat match goal with Hx : _ = true |- _ => rewrite Hx; clear Hx end.
      reflexivity.
    + exists raw. split; [done|]. split; [by apply time_of_text_seconds | by left].
  - cbn [orb]. destruct (matches HHMMSS raw) eqn:H8; [|discriminate]. cbn [negb].
    assert (String.length raw = 8%nat) as Hlen.
    { destruct raw as [|c1 [|c2 [|c3 [|c4 [|c5 [|c6 [|c7 [|c8 [|c9 r]]]]]]]]];
        try discriminate H8;
        cbn [matches HHMMSS] in H8; rewrite ?andb_false_r in H8; try discriminate H8.
      reflexivity. }
    rewrite Hlen. cbn. intros [= <-]. split; [done|]. exists raw. auto.
Qed.

(** *** Weekly hours *)

(** X6.  A weekday upsert that is answered 200 leaves a row for the weekday
    holding the flag and the converted times of the request, with start
    before end whenever the weekday is open, and changes nothing else; any
    other answer leaves the store as it was.  An open weekday whose start
    is not before its end is answered 400. *)
Theorem put_business_hours_upserts faults req db day :
  field "week_day" (params req) ≫= Number = Some day ->
  1 <= day <= 7 ->
  let r := fst (PUT_business_hours faults req db) in
  let db' := snd (PUT_business_hours faults req db) in
  let open := truthy (is_open (body req)) in
  let st := normalizeTimeHHMMSS (start_time (body req)) in
  let et := normalizeTimeHHMMSS (end_time (body req)) in
  (status r = 200 ->
     exists row, business_hours db' !! day = Some row
       /\ bh_is_open row = (if open then 1 else 0)
       /\ bh_start_time row = st ≫= time_of_text
       /\ bh_end_time row = et ≫= time_of_text
       /\ (open = true -> exists a b,
             bh_start_time row = Some a /\ bh_end_time row = Some b /\ a < b)
       /\ (forall other, other <> day ->
             business_hours db' !! other = business_hours db !! other)
       /\ appointments db' = appointments db
       /\ holiday_hours db' = holiday_hours db)
  /\ (status r <> 200 -> db' = db)
  /\ (open = true -> forall s e a b,
        st = Some s -> et = Some e ->
        time_of_text s = Some a -> time_of_text e = Some b -> b <= a ->
        r = error 400 "start_time must be before end_time").
Proof.
  intros Hday Hrange r db' open st et. subst r db'.
  unfold PUT_business_hours. rewrite Hday.
  assert (isValidWeekday (Some day) = true) as -> by (cbn; lia).
  cbn [negb default from_option id]. fold open st et.
  assert (Hcmp : forall s e a b, st = Some s -> et = Some e ->
            time_of_text s = Some a -> time_of_text e = Some b ->
            str_ge s e = (b <=? a)).
  { intros s e a b Hs He Ha Hb.
    apply normalizeTimeHHMMSS_some in Hs as [Hs _].
    apply normalizeTimeHHMMSS_some in He as [He _].
    unfold str_ge, String.leb. rewrite (hhmmss_compare e s b a) by done.
    unfold Z.leb. reflexivity. }
  destruct open eqn:Hopen; cbn [andb].
  - destruct st as [s|] eqn:Hst, et as [e|] eqn:Het;
      try (rewrite ?bool_decide_eq_false_2 by (intros [? ?]; discriminate);
           rewrite ?bool_decide_eq_true_2 by eauto; cbn;
           split; [discriminate|]; split; [done|]; discriminate).
    rewrite !bool_decide_eq_true_2 by eauto. cbn [andb negb default from_option id].
    destruct (str_ge s e) eqn:Hge.
    + cbn. split; [discriminate|]. split; [done|]. done.
    + destruct (faults UpsertBusinessHours); cbn [time_param fmap option_fmap option_map].
      { cbn. split; [discriminate|]. split; [done|].
        intros _ s' e' a b [= <-] [= <-] Ha Hb Hle.
        rewrite (Hcmp s e a b) in Hge by done. lia. }
      cbn [mbind option_bind].
      destruct (time_of_text s) as [a|] eqn:Ha, (time_of_text e) as [b|] eqn:Hb; cbn.
      all: try (split; [discriminate|]; split; [done|];
                intros _ s' e' a' b' [= <-] [= <-] Ha' Hb'; congruence).
      split; [|split; [done|]].
      * intros _. eexists. rewrite lookup_insert_eq. split; [reflexivity|].
        cbn. do 3 (split; [reflexivity|]). split; [|split; [|done]].
        -- intros _. exists a, b. split; [done|]. split; [done|].
           rewrite (Hcmp s e a b) in Hge by done. lia.
        -- intros other Hne. by rewrite lookup_insert_ne.
      * intros _ s' e' a' b' [= <-] [= <-] Ha' Hb' Hle.
        rewrite (Hcmp s e a' b') in Hge by congruence. lia.
  - destruct (faults UpsertBusinessHours).
    { cbn. split; [discriminate|]. split; [done|]. discriminate. }
    destruct st as [s|], et as [e|];
      cbn [time_param fmap option_fmap option_map mbind option_bind];
      repeat match goal with |- context [time_of_text ?x] =>
        destruct (time_of_text x) eqn:? end; cbn.
    all: try (split; [discriminate|]; split; [done|]; discriminate).
    all: split; [|split; [done | discriminate]].
    all: intros _; eexists; rewrite lookup_insert_eq; split; [reflexivity|];
      cbn; do 3 (split; [reflexivity|]); split; [discriminate|];
      split; [|done]; intros other Hne; by rewrite lookup_insert_ne.
Qed.

Lemma hhmmss_shape s :
  matches HHMMSS s = true ->
  String.eqb s "" = false /\ matches HHMM s = false /\ String.length s = 8%nat.
Proof.
  destruct s as [|c1 [|c2 [|c3 [|c4 [|c5 [|c6 [|c7 [|c8 [|c9 r]]]]]]]]];
    try discriminate; cbn [matches HHMMSS]; rewrite ?andb_false_r; try discriminate.
  intros _. cbn [matches HHMM]. by rewrite !andb_false_r.
Qed.

(** X7.  [normalizeTimeHHMMSS] accepts exactly the texts in HH:MM or
    HH:MM:SS form; its result is in HH:MM:SS form, converts to the TIME
    value of the input, and is left alone by a second normalization. *)
Theorem normalizeTimeHHMMSS_canonical t :
  match normalizeTimeHHMMSS t with
  | Some s =>
      matches HHMMSS s = true
      /\ normalizeTimeHHMMSS (Some s) = Some s
      /\ exists raw, t = Some raw
           /\ (matches HHMM raw = true \/ matches HHMMSS raw = true)
           /\ time_of_text s = time_of_text raw
  | None =>
      forall raw, t = Some raw -> matches HHMM raw = false /\ matches HHMMSS raw = false
  end.
Proof.
  destruct (normalizeTimeHHMMSS t) as [s|] eqn:Hn.
  - destruct (normalizeTimeHHMMSS_some t s Hn) as (H8 & raw & -> & Hconv & Hform).
    split; [exact H8|]. split.
    + unfold normalizeTimeHHMMSS.
      destruct (hhmmss_shape s H8) as (-> & -> & ->). by rewrite H8.
    + exists raw. split; [done|]. split; [|done].
      destruct Hform as [H5 | ->]; auto.
  - intros raw ->. unfold normalizeTimeHHMMSS in Hn.
    destruct (String.eqb_spec raw "") as [Heq | _]; [by rewrite Heq|].
    destruct (matches HHMM raw), (matches HHMMSS raw); cbn in Hn; try done;
      by destruct (_ =? _)%nat.
Qed.

(** X8.  Closing a weekday twice is closing it once: the second DELETE
    gives the same answer and the same store. *)
Theorem delete_business_hours_idempotent faults req db :
  let once := DELETE_business_hours faults req db in
  DELETE_business_hours faults req (snd once) = once.
Proof.
  cbv zeta. unfold DELETE_business_hours.
  destruct (isValidWeekday _); cbn [negb]; [|done].
  destruct (faults CloseBusinessHours); [done|]. cbn [snd]. f_equal.
  unfold set_business_hours. cbn [appointments next_appointment_id business_hours
                                   holiday_hours next_holiday_id].
  f_equal. set (day := default 0 _). unfold close_weekday.
  destruct (business_hours db !! day) as [row|] eqn:Hrow;
    rewrite lookup_insert_eq; cbn [bh_start_time bh_end_time];
    by rewrite insert_insert_eq.
Qed.

(** *** The ORDER BY clauses *)

Section Sorting.
Context {A : Type} (le : A -> A -> bool).
Hypothesis le_total : forall x y, le x y = false -> le y x = true.
Hypothesis le_trans : forall x y z, le x y = true -> le y z = true -> le x z = true.

Lemma insert_by_perm x l : insert_by le x l ≡ₚ x :: l.
Proof.
  induction l as [|y r IH]; [done|]. cbn [insert_by].
  destruct (le x y); [done|]. rewrite IH. apply Permutation_swap.
Qed.

Lemma sort_by_perm l : sort_by le l ≡ₚ l.
Proof.
  induction l as [|x r IH]; [done|]. cbn [sort_by foldr].
  fold (sort_by le r). by rewrite insert_by_perm, IH.
Qed.

Lemma insert_by_ordered x l : ordered le l -> ordered le (insert_by le x l).
Proof.
  induction l as [|y r IH]; intros Hord; cbn [insert_by].
  - split; [intros ? []%elem_of_nil | done].
  - destruct Hord as [Hy Hr]. destruct (le x y) eqn:Hxy.
    + split; [|by split]. intros z [-> | Hz]%elem_of_cons; [done|].
      eapply le_trans; [exact Hxy | by apply Hy].
    + split; [|by apply IH]. intros z Hz.
      rewrite insert_by_perm in Hz. apply elem_of_cons in Hz as [-> | Hz];
        [by apply le_total | by apply Hy].
Qed.

Lemma sort_by_ordered l : ordered le (sort_by le l).
Proof.
  induction l as [|x r IH]; [done|]. cbn [sort_by foldr]. by apply insert_by_ordered.
Qed.

Lemma ordered_lookup l i j a b :
  ordered le l -> (i < j)%nat -> l !! i = Some a -> l !! j = Some b -> le a b = true.
Proof.
  revert i j. induction l as [|x r IH]; intros i j Hord Hij Hi Hj; [done|].
  destruct Hord as [Hx Hr]. destruct j as [|j]; [lia|]. cbn in Hj.
  destruct i as [|i]; cbn in Hi.
  - injection Hi as ->. apply Hx. by eapply list_elem_of_lookup_2.
  - apply (IH i j); auto. lia.
Qed.

Lemma ordered_take n l : ordered le l -> ordered le (take n l).
Proof.
  revert n. induction l as [|x r IH]; intros [|n] Hord; try done.
  destruct Hord as [Hx Hr]. cbn [take]. split; [|by apply IH].
  intros y Hy. apply Hx. by eapply subseteq_take.
Qed.

End Sorting.

(** *** Dates as texts and as day numbers *)

(** The calendar repeats every 400 years, which are 146097 days. *)
Lemma days_from_civil_period y m d e :
  days_from_civil (y + 400 * e) m d = days_from_civil y m d + 146097 * e.
Proof.
  unfold days_from_civil.
  set (y' := if m <=? 2 then y - 1 else y).
  replace (if m <=? 2 then y + 400 * e - 1 else y + 400 * e) with (y' + e * 400)
    by (unfold y'; destruct (m <=? 2); lia).
  rewrite Z.div_add by lia.
  replace (y' + e * 400 - (y' / 400 + e) * 400) with (y' - y' / 400 * 400) by lia.
  lia.
Qed.

Lemma days_in_month_period y m e : days_in_month (y + 400 * e) m = days_in_month y m.
Proof.
  unfold days_in_month, is_leap.
  replace (y + 400 * e) with (y + (100 * e) * 4) at 1 by lia.
  replace (y + 400 * e) with (y + (4 * e) * 100) at 1 by lia.
  replace (y + 400 * e) with (y + e * 400) by lia.
  by rewrite !Z_mod_plus_full.
Qed.

(** The first days of consecutive months are a month apart; months are
    counted from January of year 0, and 400 years are checked. *)
Lemma month_step_table :
  forallb (fun k =>
    days_from_civil ((k + 1) / 12) ((k + 1) mod 12 + 1) 1
    =? days_from_civil (k / 12) (k mod 12 + 1) 1 + days_in_month (k / 12) (k mod 12 + 1))
    (seqZ 0 4800) = true.
Proof. vm_compute. reflexivity. Qed.

Lemma month_index_period k0 e :
  (k0 + 4800 * e) / 12 = k0 / 12 + 400 * e /\ (k0 + 4800 * e) mod 12 = k0 mod 12.
Proof.
  replace (k0 + 4800 * e) with (k0 + (400 * e) * 12) by lia.
  by rewrite Z.div_add, Z_mod_plus_full by lia.
Qed.

Lemma month_step k :
  0 <= k ->
  days_from_civil ((k + 1) / 12) ((k + 1) mod 12 + 1) 1
  = days_from_civil (k / 12) (k mod 12 + 1) 1 + days_in_month (k / 12) (k mod 12 + 1).
Proof.
  intros Hk.
  pose proof (Z.div_mod k 4800 ltac:(lia)) as Hdm.
  pose proof (Z.mod_pos_bound k 4800 ltac:(lia)) as Hm.
  set (e := k / 4800) in *. set (k0 := k mod 4800) in *.
  pose proof (range_check _ _ month_step_table k0 Hm) as H. cbv beta in H.
  apply Z.eqb_eq in H.
  replace k with (k0 + 4800 * e) by lia.
  replace (k0 + 4800 * e + 1) with ((k0 + 1) + 4800 * e) by lia.
  destruct (month_index_period k0 e) as [-> ->].
  destruct (month_index_period (k0 + 1) e) as [-> ->].
  rewrite !days_from_civil_period, days_in_month_period. lia.
Qed.

Lemma days_in_month_bounds y m : 28 <= days_in_month y m <= 31.
Proof.
  unfold days_in_month.
  destruct (m =? 2); [destruct (is_leap y); lia|].
  destruct ((m =? 4) || (m =? 6) || (m =? 9) || (m =? 11)); lia.
Qed.

Lemma month_start_mono n : forall k,
  0 <= k ->
  days_from_civil (k / 12) (k mod 12 + 1) 1 + days_in_month (k / 12) (k mod 12 + 1)
  <= days_from_civil ((k + 1 + Z.of_nat n) / 12) ((k + 1 + Z.of_nat n) mod 12 + 1) 1.
Proof.
  induction n as [|n IH]; intros k Hk.
  - rewrite Z.add_0_r. rewrite month_step by lia. lia.
  - specialize (IH k Hk).
    replace (k + 1 + Z.of_nat (S n)) with ((k + 1 + Z.of_nat n) + 1) by lia.
    rewrite (month_step (k + 1 + Z.of_nat n)) by lia.
    pose proof (days_in_month_bounds ((k + 1 + Z.of_nat n) / 12)
                  ((k + 1 + Z.of_nat n) mod 12 + 1)).
    lia.
Qed.

Lemma days_from_civil_day y m d :
  days_from_civil y m d = days_from_civil y m 1 + d - 1.
Proof. unfold days_from_civil. lia. Qed.

(** The calendar order of valid dates is the order of their day numbers. *)
Lemma days_from_civil_lt y1 m1 d1 y2 m2 d2 :
  0 <= y1 < 10000 -> 1 <= m1 <= 12 -> 1 <= d1 <= days_in_month y1 m1 ->
  0 <= y2 < 10000 -> 1 <= m2 <= 12 -> 1 <= d2 <= days_in_month y2 m2 ->
  y1 < y2 \/ (y1 = y2 /\ (m1 < m2 \/ (m1 = m2 /\ d1 < d2))) ->
  days_from_civil y1 m1 d1 < days_from_civil y2 m2 d2.
Proof.
  intros Hy1 Hm1 Hd1 Hy2 Hm2 Hd2 Hlt.
  rewrite (days_from_civil_day y1 m1 d1), (days_from_civil_day y2 m2 d2).
  destruct (decide (y1 = y2 /\ m1 = m2)) as [[-> ->] | Hne]; [lia|].
  set (k1 := 12 * y1 + (m1 - 1)). set (k2 := 12 * y2 + (m2 - 1)).
  assert (k1 < k2) as Hk by (unfold k1, k2; lia).
  assert (k1 / 12 = y1 /\ k1 mod 12 + 1 = m1) as [E1 E1'].
  { unfold k1. split.
    - symmetry. apply (Z.div_unique_pos _ _ _ (m1 - 1)); lia.
    - rewrite <- (Z.mod_unique_pos _ 12 y1 (m1 - 1)); lia. }
  assert (k2 / 12 = y2 /\ k2 mod 12 + 1 = m2) as [E2 E2'].
  { unfold k2. split.
    - symmetry. apply (Z.div_unique_pos _ _ _ (m2 - 1)); lia.
    - rewrite <- (Z.mod_unique_pos _ 12 y2 (m2 - 1)); lia. }
  pose proof (month_start_mono (Z.to_nat (k2 - k1 - 1)) k1 ltac:(unfold k1; lia)) as H.
  replace (k1 + 1 + Z.of_nat (Z.to_nat (k2 - k1 - 1))) with k2 in H by lia.
  rewrite E1, E1', E2, E2' in H. lia.
Qed.

Lemma four_digit_value c1 c2 c3 c4 :
  digits_value 0 (String c1 (String c2 (String c3 (String c4 ""))))
  = 100 * digits_value 0 (String c1 (String c2 ""))
    + digits_value 0 (String c3 (String c4 "")).
Proof. cbn [digits_value]. lia. Qed.

(** A text in YYYY-MM-DD form is made of four two-digit fields. *)
Lemma iso_fields s :
  matches YYYYMMDD s = true ->
  exists yh yl m d,
    s = pad2 yh +:+ pad2 yl +:+ "-" +:+ pad2 m +:+ "-" +:+ pad2 d
    /\ 0 <= yh < 100 /\ 0 <= yl < 100 /\ 0 <= m < 100 /\ 0 <= d < 100
    /\ date_of_text s
       = if (1 <=? m) && (m <=? 12) && (1 <=? d) && (d <=? days_in_month (100 * yh + yl) m)
         then Some (days_from_civil (100 * yh + yl) m d) else None.
Proof.
  destruct s as [|c1 [|c2 [|c3 [|c4 [|c5 [|c6 [|c7 [|c8 [|c9 [|c10 [|c11 r]]]]]]]]]]];
    try discriminate; cbn [matches YYYYMMDD]; rewrite ?andb_false_r; try discriminate.
  intros H. repeat (apply andb_prop in H as [? H]).
  repeat match goal with Hx : Ascii.eqb _ _ = true |- _ =>
    apply Ascii.eqb_eq in Hx; subst end.
  destruct (two_digit_text c1 c2) as [E1 B1]; auto.
  destruct (two_digit_text c3 c4) as [E2 B2]; auto.
  destruct (two_digit_text c6 c7) as [E3 B3]; auto.
  destruct (two_digit_text c9 c10) as [E4 B4]; auto.
  cbv zeta in *.
  exists (digits_value 0 (String c1 (String c2 ""))),
         (digits_value 0 (String c3 (String c4 ""))),
         (digits_value 0 (String c6 (String c7 ""))),
         (digits_value 0 (String c9 (String c10 ""))).
  split; [|split; [done|split; [done|split; [done|split; [done|]]]]].
  - rewrite <- E1, <- E2, <- E3, <- E4. reflexivity.
  - unfold date_of_text, two_digits. cbn [matches YYYYMMDD String.substring].
    repeat match goal with Hx : is_digit _ = true |- _ => rewrite Hx; clear Hx end.
    cbn [andb orb Ascii.eqb]. rewrite ?Ascii.eqb_refl. cbn [andb orb].
    rewrite four_digit_value. reflexivity.
Qed.

(** Comparing two date texts that convert is comparing their day numbers. *)
Lemma date_text_compare s e a b :
  date_of_text s = Some a -> date_of_text e = Some b ->
  String.compare s e = (a ?= b).
Proof.
  intros Ha Hb.
  assert (matches YYYYMMDD s = true) as Hs
    by (unfold date_of_text in Ha; by destruct (matches YYYYMMDD s)).
  assert (matches YYYYMMDD e = true) as He
    by (unfold date_of_text in Hb; by destruct (matches YYYYMMDD e)).
  destruct (iso_fields s Hs) as (yh1 & yl1 & m1 & d1 & -> & ? & ? & ? & ? & Ea).
  destruct (iso_fields e He) as (yh2 & yl2 & m2 & d2 & -> & ? & ? & ? & ? & Eb).
  rewrite Ea in Ha. rewrite Eb in Hb.
  destruct ((1 <=? m1) && (m1 <=? 12) && (1 <=? d1) && (d1 <=? days_in_month (100 * yh1 + yl1) m1))
    eqn:B1; [|discriminate].
  destruct ((1 <=? m2) && (m2 <=? 12) && (1 <=? d2) && (d2 <=? days_in_month (100 * yh2 + yl2) m2))
    eqn:B2; [|discriminate].
  injection Ha as <-. injection Hb as <-.
  apply andb_prop in B1 as [[[?%Z.leb_le ?%Z.leb_le]%andb_prop ?%Z.leb_le]%andb_prop ?%Z.leb_le].
  apply andb_prop in B2 as [[[?%Z.leb_le ?%Z.leb_le]%andb_prop ?%Z.leb_le]%andb_prop ?%Z.leb_le].
  rewrite compare_app by (rewrite !pad2_length; auto).
  rewrite pad2_compare by lia.
  rewrite compare_app by (rewrite !pad2_length; auto).
  rewrite pad2_compare by lia.
  change (String.compare ("-" +:+ ?x) ("-" +:+ ?y)) with (String.compare x y).
  rewrite compare_app by (rewrite !pad2_length; auto).
  rewrite pad2_compare by lia.
  change (String.compare ("-" +:+ ?x) ("-" +:+ ?y)) with (String.compare x y).
  rewrite pad2_compare by lia.
  set (y1 := 100 * yh1 + yl1) in *. set (y2 := 100 * yh2 + yl2) in *.
  destruct (Z.compare_spec (days_from_civil y1 m1 d1) (days_from_civil y2 m2 d2)) as [E | L | L].
  - destruct (decide (y1 = y2 /\ m1 = m2 /\ d1 = d2)) as [(Ey & -> & ->) | Hne].
    + assert (yh1 = yh2 /\ yl1 = yl2) as [-> ->] by (unfold y1, y2 in Ey; lia).
      by rewrite !Z.compare_refl.
    + exfalso.
      destruct (Z.lt_trichotomy y1 y2) as [? | [? | ?]];
        [|destruct (Z.lt_trichotomy m1 m2) as [? | [? | ?]];
           [|destruct (Z.lt_trichotomy d1 d2) as [? | [? | ?]]|]|].
      all: try (pose proof (days_from_civil_lt y1 m1 d1 y2 m2 d2
                  ltac:(unfold y1; lia) ltac:(lia) ltac:(lia)
                  ltac:(unfold y2; lia) ltac:(lia) ltac:(lia) ltac:(lia)); lia).
      all: try (pose proof (days_from_civil_lt y2 m2 d2 y1 m1 d1
                  ltac:(unfold y2; lia) ltac:(lia) ltac:(lia)
                  ltac:(unfold y1; lia) ltac:(lia) ltac:(lia) ltac:(lia)); lia).
  - assert (y1 < y2 \/ (y1 = y2 /\ (m1 < m2 \/ (m1 = m2 /\ d1 < d2)))) as Hlex.
    { destruct (decide (y1 < y2 \/ (y1 = y2 /\ (m1 < m2 \/ (m1 = m2 /\ d1 < d2)))))
        as [? | Hn]; [done|]. exfalso.
      destruct (decide (y1 = y2 /\ m1 = m2 /\ d1 = d2)) as [(Ey & -> & ->) | Hne].
      { rewrite Ey in L. lia. }
      pose proof (days_from_civil_lt y2 m2 d2 y1 m1 d1
                  ltac:(unfold y2; lia) ltac:(lia) ltac:(lia)
                  ltac:(unfold y1; lia) ltac:(lia) ltac:(lia) ltac:(lia)). lia. }
    destruct (Z.compare_spec yh1 yh2), (Z.compare_spec yl1 yl2),
      (Z.compare_spec m1 m2), (Z.compare_spec d1 d2); try reflexivity;
      unfold y1, y2 in Hlex; lia.
  - assert (y2 < y1 \/ (y2 = y1 /\ (m2 < m1 \/ (m2 = m1 /\ d2 < d1)))) as Hlex.
    { destruct (decide (y2 < y1 \/ (y2 = y1 /\ (m2 < m1 \/ (m2 = m1 /\ d2 < d1)))))
        as [? | Hn]; [done|]. exfalso.
      destruct (decide (y1 = y2 /\ m1 = m2 /\ d1 = d2)) as [(Ey & -> & ->) | Hne].
      { rewrite Ey in L. lia. }
      pose proof (days_from_civil_lt y1 m1 d1 y2 m2 d2
                  ltac:(unfold y1; lia) ltac:(lia) ltac:(lia)
                  ltac:(unfold y2; lia) ltac:(lia) ltac:(lia) ltac:(lia)). lia. }
    destruct (Z.compare_spec yh1 yh2), (Z.compare_spec yl1 yl2),
      (Z.compare_spec m1 m2), (Z.compare_spec d1 d2); try reflexivity;
      unfold y1, y2 in Hlex; lia.
Qed.


(** *** Holiday overrides: what a stored row looks like *)

Lemma str_lt_dates s e a b :
  date_of_text s = Some a -> date_of_text e = Some b -> str_lt s e = (a <? b).
Proof.
  intros Ha Hb. unfold str_lt, String.ltb. rewrite (date_text_compare s e a b) by done.
  unfold Z.ltb. reflexivity.
Qed.

Lemma holiday_validate_inr b v :
  holiday_validate b = inr v ->
  hv_start_date v = default "" (start_date b)
  /\ hv_end_date v = end_date b
  /\ hv_holiday v = trim (default "" (holiday b))
  /\ hv_holiday v <> ""
  /\ hv_comment v = (trim <$> nonempty (comment b))
  /\ hv_open v = truthy (is_open b)
  /\ (truthy_text (end_date b) = true ->
        str_lt (default "" (end_date b)) (default "" (start_date b)) = false)
  /\ (if hv_open v
      then exists s e, hv_st v = Some s /\ hv_et v = Some e
             /\ normalizeTimeHHMMSS (start_time b) = Some s
             /\ normalizeTimeHHMMSS (end_time b) = Some e
             /\ str_ge s e = false
      else hv_st v = None /\ hv_et v = None).
Proof.
  unfold holiday_validate.
  destruct (isISODate (start_date b)); cbn [negb]; [|discriminate].
  destruct (truthy_text (end_date b) && negb (isISODate (end_date b))); [discriminate|].
  destruct (truthy_text (holiday b)); cbn [negb orb]; [|discriminate].
  destruct (String.eqb_spec (trim (default "" (holiday b))) "") as [|Hne]; [discriminate|].
  destruct (truthy (is_open b)) eqn:Hopen; cbn [andb].
  - destruct (normalizeTimeHHMMSS (start_time b)) as [s|] eqn:Hs,
             (normalizeTimeHHMMSS (end_time b)) as [e|] eqn:He;
      try (rewrite ?bool_decide_eq_false_2 by (intros [? ?]; discriminate);
           rewrite ?bool_decide_eq_true_2 by eauto; cbn; discriminate).
    rewrite !bool_decide_eq_true_2 by eauto. cbn [andb negb default from_option id].
    destruct (str_ge s e) eqn:Hge; [discriminate|].
    destruct (truthy_text (end_date b)) eqn:Hend; cbn [andb].
    + destruct (str_lt _ _) eqn:Hlt; [discriminate|]. intros [= <-]. cbn.
      repeat (split; [done|]). exists s, e. done.
    + intros [= <-]. cbn. repeat (split; [done|]). exists s, e. done.
  - destruct (truthy_text (end_date b)) eqn:Hend; cbn [andb].
    + destruct (str_lt _ _) eqn:Hlt; [discriminate|]. intros [= <-]. cbn. done.
    + intros [= <-]. cbn. done.
Qed.

(** The row that validated values convert to: its range is not reversed,
    an open row holds a start before its end, a closed row holds no
    times. *)
Lemma holiday_row_shape b v id row :
  holiday_validate b = inr v -> holiday_row id v = Some row ->
  h_id row = id
  /\ h_holiday row = trim (default "" (holiday b)) /\ h_holiday row <> ""
  /\ h_comment row = (trim <$> nonempty (comment b))
  /\ date_of_text (default "" (start_date b)) = Some (h_start_date row)
  /\ h_start_date row <= effective_end row
  /\ (h_is_open row = 1 /\ truthy (is_open b) = true
        /\ (exists s e a z, normalizeTimeHHMMSS (start_time b) = Some s
              /\ normalizeTimeHHMMSS (end_time b) = Some e
              /\ time_of_text s = Some a /\ time_of_text e = Some z
              /\ h_start_time row = Some a /\ h_end_time row = Some z /\ 0 <= a < z)
      \/ h_is_open row = 0 /\ truthy (is_open b) = false
         /\ h_start_time row = None /\ h_end_time row = None).
Proof.
  intros Hv Hrow.
  destruct (holiday_validate_inr b v Hv) as (Esd & Eed & Eh & Hh & Ec & Eo & Hend & Htimes).
  unfold holiday_row in Hrow. rewrite Esd, Eed in Hrow.
  destruct (date_of_text (default "" (start_date b))) as [sd|] eqn:Hsd; [|discriminate].
  destruct (date_param (end_date b)) as [ed|] eqn:Hed; [|discriminate].
  destruct (time_param (hv_st v)) as [st|] eqn:Hst; [|discriminate].
  destruct (time_param (hv_et v)) as [et|] eqn:Het; [|discriminate].
  injection Hrow as <-. cbn.
  split; [done|]. split; [exact Eh|]. split; [exact Hh|]. split; [exact Ec|].
  split; [done|]. split.
  - unfold effective_end. cbn. destruct (end_date b) as [e|] eqn:Hb; cbn in Hed.
    + destruct (date_of_text e) as [de|] eqn:Hde; [|discriminate]. injection Hed as <-.
      cbn. assert (truthy_text (Some e) = true) as Ht.
      { cbn. destruct (String.eqb_spec e "") as [-> | _]; [discriminate Hde | done]. }
      specialize (Hend Ht). cbn in Hend.
      rewrite (str_lt_dates e _ de sd) in Hend by done. lia.
    + injection Hed as <-. cbn. lia.
  - destruct (hv_open v) eqn:Ho; symmetry in Eo.
    + left. destruct Htimes as (s & e & Hs & He & Ns & Ne & Hge).
      rewrite Hs in Hst. rewrite He in Het. cbn in Hst, Het.
      destruct (time_of_text s) as [a|] eqn:Ha; [|discriminate].
      destruct (time_of_text e) as [z|] eqn:Hz; [|discriminate].
      injection Hst as <-. injection Het as <-.
      split; [done|]. split; [done|]. exists s, e, a, z. repeat (split; [done|]).
      apply normalizeTimeHHMMSS_some in Ns as [Ns _].
      apply normalizeTimeHHMMSS_some in Ne as [Ne _].
      unfold str_ge, String.leb in Hge. rewrite (hhmmss_compare e s z a) in Hge by done.
      destruct (hhmmss_fields s Ns) as (h1 & m1 & s1 & _ & ? & ? & ? & Ea).
      rewrite Ea in Ha. destruct ((m1 <? 60) && (s1 <? 60)); [|discriminate].
      injection Ha as <-.
      destruct (Z.compare_spec z (h1 * 3600 + m1 * 60 + s1)); try discriminate; lia.
    + right. destruct Htimes as [Hs He]. rewrite Hs in Hst. rewrite He in Het.
      cbn in Hst, Het. injection Hst as <-. injection Het as <-. done.
Qed.

(** *** Holiday overrides: the admin routes *)

Lemma existsb_id_false (rows : list HolidayHour) id :
  existsb (fun h => h_id h =? id) rows = false <-> id ∉ (h_id <$> rows).
Proof.
  induction rows as [|h r IH]; cbn.
  - split; [intros _ []%elem_of_nil | done].
  - rewrite orb_false_iff, IH, not_elem_of_cons, Z.eqb_neq. split; intros [? ?]; auto.
Qed.

Lemma fmap_replace_ids (rows : list HolidayHour) id row :
  h_id row = id ->
  h_id <$> ((fun h => if h_id h =? id then row else h) <$> rows) = h_id <$> rows.
Proof.
  intros Hid. rewrite <- list_fmap_compose. apply list_fmap_ext. intros i h _. cbn.
  destruct (Z.eqb_spec (h_id h) id); congruence.
Qed.

Lemma filter_ids_sublist (rows : list HolidayHour) (P : HolidayHour -> bool) :
  sublist (h_id <$> List.filter P rows) (h_id <$> rows).
Proof.
  induction rows as [|h r IH]; cbn; [done|].
  destruct (P h); cbn; [by apply sublist_skip | by apply sublist_cons].
Qed.

Lemma holiday_validate_inl b r : holiday_validate b = inl r -> status r = 400.
Proof.
  unfold holiday_validate. cbv zeta.
  repeat match goal with
  | |- (if ?c then _ else _) = _ -> _ => destruct c
  end; intros [= <-]; reflexivity.
Qed.

(** X9.  The three routes that write holiday overrides keep the table in
    order: identifiers stay distinct and below the next one to assign,
    every row keeps a range that is not reversed and, when open, a start
    before its end; appointments and weekly hours are not touched. *)
Theorem holiday_routes_keep_store_consistent faults req db f :
  f ∈ [POST_holiday_hours; PUT_holiday_hours; DELETE_holiday_hours] ->
  holiday_ids_fresh db ->
  Forall holiday_well_formed (holiday_hours db) ->
  let db' := snd (f faults req db) in
  holiday_ids_fresh db'
  /\ Forall holiday_well_formed (holiday_hours db')
  /\ appointments db' = appointments db
  /\ business_hours db' = business_hours db.
Proof.
  intros Hf [Hnd Hlt] Hwf db'. subst db'.
  assert (Hshape : forall id v row, holiday_validate (body req) = inr v ->
            holiday_row id v = Some row -> h_id row = id /\ holiday_well_formed row).
  { intros id v row Hv Hrow.
    destruct (holiday_row_shape _ _ _ _ Hv Hrow) as (Hid & _ & _ & _ & _ & Hr & Ht).
    split; [done|]. split; [done|].
    destruct Ht as [(? & _ & s & e & a & z & _ & _ & _ & _ & ? & ? & ?)
                   | (? & _ & ? & ?)]; [left | right]; eauto 10. }
  rewrite !elem_of_cons in Hf. destruct Hf as [-> | [-> | [-> | []%elem_of_nil]]].
  - unfold POST_holiday_hours.
    destruct (holiday_validate (body req)) as [r|v] eqn:Hv; [done|].
    destruct (faults InsertHoliday); [done|].
    destruct (holiday_row (next_holiday_id db) v) as [row|] eqn:Hrow; [|done].
    destruct (Hshape _ _ _ eq_refl Hrow) as [Hid Hrw].
    unfold holiday_ids_fresh. cbn. split; [split|split; [|done]].
    + rewrite fmap_app. cbn. apply NoDup_app. split; [done|]. split.
      * intros x Hx ->%list_elem_of_singleton.
        apply list_elem_of_fmap in Hx as (h & Hh & Hin). specialize (Hlt h Hin). lia.
      * apply NoDup_singleton.
    + intros h [Hin | ->%list_elem_of_singleton]%elem_of_app;
        [specialize (Hlt h Hin)|]; lia.
    + apply Forall_app. split; [done|]. by apply Forall_singleton.
  - unfold PUT_holiday_hours.
    destruct (positive_id _) as [id|]; [|done].
    destruct (holiday_validate (body req)) as [r|v] eqn:Hv; [done|].
    destruct (faults UpdateHoliday); [done|].
    destruct (holiday_row id v) as [row|] eqn:Hrow; [|done].
    destruct (Hshape _ _ _ eq_refl Hrow) as [Hid Hrw].
    destruct (existsb _ _) eqn:Hex; [|done].
    unfold holiday_ids_fresh. cbn. split; [split|split; [|done]].
    + by rewrite fmap_replace_ids.
    + intros h (h0 & -> & Hin)%list_elem_of_fmap.
      destruct (Z.eqb_spec (h_id h0) id) as [E|]; [|by apply Hlt].
      rewrite Hid, <- E. by apply Hlt.
    + apply Forall_fmap. eapply Forall_impl; [exact Hwf|]. intros h Hh. cbn.
      by destruct (h_id h =? id).
  - unfold DELETE_holiday_hours.
    destruct (positive_id _) as [id|]; [|done].
    destruct (faults DeleteHoliday); [done|].
    destruct (existsb _ _) eqn:Hex; [|done].
    unfold holiday_ids_fresh. cbn. split; [split|split; [|done]].
    + exact (sublist_NoDup _ _ Hnd (filter_ids_sublist _ _)).
    + intros h Hin. apply Hlt. apply list_elem_of_In in Hin.
      apply filter_In in Hin as [Hin _]. by apply list_elem_of_In.
    + apply Forall_forall. intros h Hin. rewrite Forall_forall in Hwf. apply Hwf.
      apply list_elem_of_In in Hin. apply filter_In in Hin as [Hin _].
      by apply list_elem_of_In.
Qed.

Lemma post_holiday_hours_200 faults req db :
  status (fst (POST_holiday_hours faults req db)) = 200 ->
  exists v row,
    holiday_validate (body req) = inr v
    /\ holiday_row (next_holiday_id db) v = Some row
    /\ POST_holiday_hours faults req db
       = (respond 200 [("ok", JBool true); ("id", JNum (h_id row))],
          set_holiday_hours db (holiday_hours db ++ [row]) (next_holiday_id db + 1)).
Proof.
  unfold POST_holiday_hours.
  destruct (holiday_validate (body req)) as [r|v] eqn:Hv.
  - cbn [fst]. rewrite (holiday_validate_inl _ _ Hv). discriminate.
  - destruct (faults InsertHoliday); [discriminate|].
    destruct (holiday_row (next_holiday_id db) v) as [row|] eqn:Hrow; [|discriminate].
    intros _. by exists v, row.
Qed.

(** X10.  Creating an override that is answered 200 appends one row under
    the next identifier, answers with that identifier and advances the
    counter; the row holds the converted start date, the trimmed label and
    the flag of the request.  Any other answer is a 400 or a 500 and
    leaves the store as it was. *)
Theorem post_holiday_hours_appends faults req db :
  let r := fst (POST_holiday_hours faults req db) in
  let db' := snd (POST_holiday_hours faults req db) in
  (status r = 200 ->
     exists row, holiday_hours db' = holiday_hours db ++ [row]
       /\ h_id row = next_holiday_id db
       /\ next_holiday_id db' = next_holiday_id db + 1
       /\ r = respond 200 [("ok", JBool true); ("id", JNum (next_holiday_id db))]
       /\ date_of_text (default "" (start_date (body req))) = Some (h_start_date row)
       /\ h_holiday row = trim (default "" (holiday (body req)))
       /\ h_comment row = (trim <$> nonempty (comment (body req)))
       /\ h_is_open row = (if truthy (is_open (body req)) then 1 else 0))
  /\ (status r <> 200 -> db' = db /\ (status r = 400 \/ status r = 500)).
Proof.
  cbv zeta. unfold POST_holiday_hours.
  destruct (holiday_validate (body req)) as [r|v] eqn:Hv.
  - cbn [fst snd]. rewrite (holiday_validate_inl _ _ Hv).
    split; [discriminate | auto].
  - destruct (faults InsertHoliday).
    { cbn. split; [discriminate | auto]. }
    destruct (holiday_row (next_holiday_id db) v) as [row|] eqn:Hrow.
    + destruct (holiday_row_shape _ _ _ _ Hv Hrow)
        as (Hid & Hh & _ & Hc & Hsd & _ & Ht).
      cbn. split; [|done]. intros _. exists row. rewrite Hid.
      repeat (split; [done|]).
      destruct Ht as [(-> & -> & _) | (-> & -> & _)]; reflexivity.
    + cbn. split; [discriminate | auto].
Qed.

(** X11.  Deleting the override that a create request has just added gives
    back the rows that were there before it, in their order; the
    identifier is not handed out again, and a second delete of it is
    answered 404 and changes nothing. *)
Theorem delete_undoes_post faults req del db :
  holiday_ids_fresh db ->
  status (fst (POST_holiday_hours faults req db)) = 200 ->
  positive_id (parseInt (field "id" (params del))) = Some (next_holiday_id db) ->
  faults DeleteHoliday = false ->
  let db1 := snd (POST_holiday_hours faults req db) in
  let r2 := fst (DELETE_holiday_hours faults del db1) in
  let db2 := snd (DELETE_holiday_hours faults del db1) in
  r2 = respond 200 [("ok", JBool true)]
  /\ holiday_hours db2 = holiday_hours db
  /\ next_holiday_id db2 = next_holiday_id db + 1
  /\ DELETE_holiday_hours faults del db2 = (error 404 "Not found", db2).
Proof.
  intros [Hnd Hlt] H200 Hid Hf.
  destruct (post_holiday_hours_200 faults req db H200) as (v & row & Hv & Hrow & Hpost).
  destruct (holiday_row_shape _ _ _ _ Hv Hrow) as (Hrid & _).
  assert (holiday_hours (snd (POST_holiday_hours faults req db))
          = holiday_hours db ++ [row]) as Hrows by (by rewrite Hpost).
  assert (next_holiday_id (snd (POST_holiday_hours faults req db))
          = next_holiday_id db + 1) as Hnext by (by rewrite Hpost).
  clear Hpost.
  assert (Hkeep : List.filter (fun h => negb (h_id h =? next_holiday_id db))
                    (holiday_hours db) = holiday_hours db).
  { clear -Hlt. induction (holiday_hours db) as [|h r IH]; [done|]. cbn.
    assert (h_id h < next_holiday_id db) by (apply Hlt; left).
    destruct (Z.eqb_spec (h_id h) (next_holiday_id db)); [lia|]. cbn. f_equal.
    apply IH. intros h' Hh'. apply Hlt. by right. }
  set (db1 := snd (POST_holiday_hours faults req db)) in *.
  assert (Hdel : DELETE_holiday_hours faults del db1
                 = (respond 200 [("ok", JBool true)],
                    set_holiday_hours db1 (holiday_hours db) (next_holiday_id db1))).
  { unfold DELETE_holiday_hours. rewrite Hid, Hf, Hrows.
    rewrite existsb_app. cbn [existsb]. rewrite Hrid, Z.eqb_refl, orb_true_r.
    rewrite List.filter_app. cbn [List.filter].
    rewrite Hrid, Z.eqb_refl. cbn [negb]. by rewrite app_nil_r, Hkeep. }
  cbv zeta. rewrite Hdel. cbn [fst snd holiday_hours set_holiday_hours next_holiday_id].
  split; [done|]. split; [done|]. split; [exact Hnext|].
  unfold DELETE_holiday_hours. rewrite Hid, Hf. cbn [holiday_hours set_holiday_hours].
  assert (existsb (fun h => h_id h =? next_holiday_id db) (holiday_hours db) = false) as ->.
  { apply existsb_id_false. intros (h & Hh & Hin)%list_elem_of_fmap.
    specialize (Hlt h Hin). lia. }
  reflexivity.
Qed.


(** *** The listings *)

Lemma by_start_end_id_spec x y :
  by_start_end_id x y = true <->
  h_start_date x < h_start_date y
  \/ (h_start_date x = h_start_date y
      /\ (effective_end x < effective_end y
          \/ (effective_end x = effective_end y /\ h_id x <= h_id y))).
Proof.
  unfold by_start_end_id.
  rewrite !orb_true_iff, !andb_true_iff, !orb_true_iff, !andb_true_iff,
    !Z.ltb_lt, !Z.eqb_eq, Z.leb_le. reflexivity.
Qed.

Lemma by_start_end_id_total x y : by_start_end_id x y = false -> by_start_end_id y x = true.
Proof.
  intros H%not_true_iff_false. rewrite by_start_end_id_spec in *. lia.
Qed.

Lemma by_start_end_id_trans x y z :
  by_start_end_id x y = true -> by_start_end_id y z = true -> by_start_end_id x z = true.
Proof. rewrite !by_start_end_id_spec. lia. Qed.

Lemma by_date_time_spec a b :
  by_date_time a b = true <->
  a_date a < a_date b \/ (a_date a = a_date b /\ a_time a <= a_time b).
Proof.
  unfold by_date_time.
  rewrite orb_true_iff, andb_true_iff, Z.ltb_lt, Z.eqb_eq, Z.leb_le. reflexivity.
Qed.

Lemma by_date_time_total a b : by_date_time a b = false -> by_date_time b a = true.
Proof. intros H%not_true_iff_false. rewrite by_date_time_spec in *. lia. Qed.

Lemma by_date_time_trans a b c :
  by_date_time a b = true -> by_date_time b c = true -> by_date_time a c = true.
Proof. rewrite !by_date_time_spec. lia. Qed.

(** X13.  The override listing answers with the rows whose range meets
    the requested one, each once, ordered by start date, then end of range,
    then identifier, and with the open flag as 0 or 1. *)
Theorem get_holiday_hours_lists_range faults req db from to f t :
  field "from" (query req) = Some from -> field "to" (query req) = Some to ->
  date_of_text from = Some f -> date_of_text to = Some t ->
  faults ListHolidays = false ->
  exists rows,
    GET_holiday_hours faults req db
    = {| status := 200; payload := HolidayRows (normalize_open <$> rows) |}
    /\ rows ≡ₚ List.filter (fun h => (h_start_date h <=? t) && (f <=? effective_end h))
                 (holiday_hours db)
    /\ (forall h, h ∈ rows <->
          h ∈ holiday_hours db /\ h_start_date h <= t /\ f <= effective_end h)
    /\ ordered by_start_end_id rows
    /\ (forall i j a b, (i < j)%nat -> rows !! i = Some a -> rows !! j = Some b ->
          h_start_date a <= h_start_date b)
    /\ (forall h, h ∈ rows ->
          h_is_open (normalize_open h) = (if h_is_open h =? 1 then 1 else 0)
          /\ h_id (normalize_open h) = h_id h
          /\ h_start_date (normalize_open h) = h_start_date h
          /\ h_end_date (normalize_open h) = h_end_date h).
Proof.
  intros Hfrom Hto Hf Ht Hfault. unfold GET_holiday_hours.
  rewrite Hfrom, Hto, Hfault. cbn [default from_option id].
  rewrite (date_of_text_iso _ _ Hf), (date_of_text_iso _ _ Ht), Hf, Ht. cbn [negb orb].
  set (keep := fun h => negb ((effective_end h <? f) || (h_start_date h >? t))).
  assert (Hkeep : forall h, keep h = (h_start_date h <=? t) && (f <=? effective_end h)).
  { intros h. unfold keep.
    destruct (Z.ltb_spec (effective_end h) f), (Z.gtb_spec (h_start_date h) t),
      (Z.leb_spec (h_start_date h) t), (Z.leb_spec f (effective_end h)); cbn; try done; lia. }
  exists (sort_by by_start_end_id (List.filter keep (holiday_hours db))).
  pose proof (sort_by_perm by_start_end_id (List.filter keep (holiday_hours db))) as Hperm.
  pose proof (sort_by_ordered by_start_end_id by_start_end_id_total by_start_end_id_trans
                (List.filter keep (holiday_hours db))) as Hord.
  split; [done|]. split.
  { rewrite Hperm. clear -Hkeep. induction (holiday_hours db) as [|h r IH]; [done|].
    cbn. rewrite <- Hkeep. destruct (keep h); by rewrite IH. }
  split.
  { intros h. rewrite Hperm, list_elem_of_In, filter_In, <- list_elem_of_In, Hkeep,
      andb_true_iff, !Z.leb_le. reflexivity. }
  split; [exact Hord|]. split; [|done].
  intros i j a b Hij Hi Hj.
  pose proof (ordered_lookup _ _ i j a b Hord Hij Hi Hj) as H.
  apply by_start_end_id_spec in H. lia.
Qed.

(** X14.  The appointment listing answers with stored rows that meet
    every condition on a listed column, ordered by date and then time;
    keys outside the column list are not conditions.  Without a limit
    every such row is listed once; a positive integer limit keeps the
    first that many of that list. *)
Theorem get_appointments_lists_sorted column_equals faults req db :
  faults ListAppointments = false ->
  let meets a :=
    forallb (fun kv => column_equals (fst kv) (snd kv) a)
            (filter (fun kv => fst kv ∈ filter_columns) (query req)) in
  exists rows all,
    GET_appointments column_equals faults req db
    = {| status := 200; payload := AppointmentRows rows |}
    /\ all ≡ₚ List.filter meets (appointments db)
    /\ ordered by_date_time all
    /\ (forall a, a ∈ all <->
          a ∈ appointments db
          /\ forall k v, (k, v) ∈ query req -> k ∈ filter_columns ->
               column_equals k v a = true)
    /\ (forall i j a b, (i < j)%nat -> rows !! i = Some a -> rows !! j = Some b ->
          a_date a < a_date b \/ (a_date a = a_date b /\ a_time a <= a_time b))
    /\ match nonempty (field "limit" (query req)) ≫= (fun l => positive_id (Number l)) with
       | Some n => rows = take (Z.to_nat n) all
       | None => rows = all
       end.
Proof.
  intros Hfault meets. unfold GET_appointments. rewrite Hfault. fold meets.
  set (all := sort_by by_date_time (List.filter meets (appointments db))).
  pose proof (sort_by_perm by_date_time (List.filter meets (appointments db))) as Hperm.
  pose proof (sort_by_ordered by_date_time by_date_time_total by_date_time_trans
                (List.filter meets (appointments db))) as Hord.
  fold all in Hperm, Hord.
  set (lim := match nonempty (field "limit" (query req)) with
              | Some l => positive_id (Number l) | None => None end).
  assert (lim = nonempty (field "limit" (query req)) ≫= (fun l => positive_id (Number l)))
    as Hlim by (unfold lim; by destruct (nonempty _)).
  rewrite <- Hlim.
  exists (match lim with Some n => take (Z.to_nat n) all | None => all end), all.
  split; [done|]. split; [done|]. split; [done|]. split.
  { intros a. rewrite Hperm, list_elem_of_In, filter_In, <- list_elem_of_In.
    unfold meets. rewrite forallb_forall. split; intros [Hin Hall]; (split; [done|]).
    - intros k v Hkv Hk. apply (Hall (k, v)). apply list_elem_of_In.
      apply list_elem_of_filter. by split.
    - intros [k v] Hkv%list_elem_of_In%list_elem_of_filter. cbn in *.
      destruct Hkv. by apply Hall. }
  split; [|by destruct lim].
  intros i j a b Hij Hi Hj. apply by_date_time_spec.
  assert (ordered by_date_time
            (match lim with Some n => take (Z.to_nat n) all | None => all end)) as Hord'
    by (destruct lim; [by apply ordered_take | done]).
  exact (ordered_lookup _ _ i j a b Hord' Hij Hi Hj).
Qed.

(** X15.  The weekly-hours listing answers with one row per stored
    weekday, in ascending order of the weekday. *)
Theorem get_business_hours_lists_weekdays faults req db :
  faults ListBusinessHours = false ->
  exists rows,
    GET_business_hours faults req db
    = {| status := 200; payload := BusinessHourRows rows |}
    /\ (forall d row, (d, row) ∈ rows <-> business_hours db !! d = Some row)
    /\ NoDup (fst <$> rows)
    /\ (forall i j a b, (i < j)%nat -> rows !! i = Some a -> rows !! j = Some b ->
          fst a < fst b).
Proof.
  intros Hfault. unfold GET_business_hours. rewrite Hfault.
  set (le := fun x y : Z * BusinessHour => fst x <=? fst y).
  set (rows := sort_by le (map_to_list (business_hours db))).
  assert (Hperm : rows ≡ₚ map_to_list (business_hours db)) by apply sort_by_perm.
  assert (Hord : ordered le rows).
  { apply sort_by_ordered; unfold le.
    - intros x y H%Z.leb_gt. apply Z.leb_le. lia.
    - intros x y z H1%Z.leb_le H2%Z.leb_le. apply Z.leb_le. lia. }
  assert (Hnd : NoDup (fst <$> rows)).
  { rewrite Hperm. apply NoDup_fst_map_to_list. }
  exists rows. split; [done|]. split; [|split; [done|]].
  - intros d row. rewrite Hperm. apply elem_of_map_to_list.
  - intros i j a b Hij Hi Hj.
    pose proof (ordered_lookup _ _ i j a b Hord Hij Hi Hj) as H%Z.leb_le.
    assert (fst a <> fst b); [|lia]. intros Heq.
    assert (i = j); [|lia].
    eapply (NoDup_lookup _ i j (fst a) Hnd); rewrite list_lookup_fmap.
    + by rewrite Hi.
    + by rewrite Hj, Heq.
Qed.


(** *** From the admin routes to the public ones *)

(** A stored TIME of a text in HH:MM:SS form reads back as that text. *)
Lemma time_text_of_text s a :
  matches HHMMSS s = true -> time_of_text s = Some a -> time_text a = s /\ 0 <= a < 360000.
Proof.
  intros Hs Ha.
  destruct (hhmmss_fields s Hs) as (h & m & sec & -> & ? & ? & ? & Ea).
  rewrite Ea in Ha.
  destruct ((m <? 60) && (sec <? 60)) eqn:B; [|discriminate].
  apply andb_prop in B as [?%Z.ltb_lt ?%Z.ltb_lt]. injection Ha as <-.
  split; [|lia]. unfold time_text.
  assert ((h * 3600 + m * 60 + sec <? 0) = false) as -> by (apply Z.ltb_ge; lia).
  rewrite Z.abs_eq by lia.
  assert ((h * 3600 + m * 60 + sec) / 3600 = h) as ->
    by (symmetry; apply (Z.div_unique_pos _ _ _ (m * 60 + sec)); lia).
  assert ((h * 3600 + m * 60 + sec) / 60 = h * 60 + m) as ->
    by (symmetry; apply (Z.div_unique_pos _ _ _ sec); lia).
  assert ((h * 60 + m) mod 60 = m) as ->
    by (symmetry; apply (Z.mod_unique_pos _ _ h); lia).
  assert ((h * 3600 + m * 60 + sec) mod 60 = sec) as ->
    by (symmetry; apply (Z.mod_unique_pos _ _ (h * 60 + m)); lia).
  reflexivity.
Qed.

Lemma holiday_for_date_snoc d rows row :
  (forall h, h ∈ rows -> covers d h = false) -> covers d row = true ->
  holiday_for_date d (rows ++ [row]) = Some row.
Proof.
  intros Hnone Hrow. unfold holiday_for_date. rewrite filter_app.
  assert (filter (fun h => covers d h = true) rows = []) as ->.
  { clear -Hnone. induction rows as [|h r IH]; [done|].
    rewrite filter_cons. rewrite (Hnone h) by left.
    destruct (decide (false = true)); [done|]. apply IH. intros h' ?. apply Hnone. by right. }
  rewrite filter_cons, Hrow. cbn. destruct (decide (true = true)); done.
Qed.

(** X16.  Once an override for a date is created and no earlier override
    covers that date, the public routes answer from it: a closed override
    empties the day whatever the weekly hours are, an open one makes the
    window of the day the posted times, and the holiday lookup reports
    the posted label, note and flag. *)
Theorem posted_override_governs_day api now faults fuel req ask db date d :
  status (fst (POST_holiday_hours faults req db)) = 200 ->
  start_date (body req) = Some date -> date_of_text date = Some d ->
  (forall h, h ∈ holiday_hours db -> covers d h = false) ->
  field "date" (query ask) = Some date ->
  faults HolidayForDate = false -> faults HolidayInfo = false ->
  let db' := snd (POST_holiday_hours faults req db) in
  let slot := Z.max 5 (or_num (parseInt (field "slotMinutes" (query ask))) 30) in
  let label := trim (default "" (holiday (body req))) in
  let note := trim <$> nonempty (comment (body req)) in
  let meta open := [("holidayLabel", JStr label); ("holidayComment", text_or_null note);
                    ("isOpenOverride", JBool open)] in
  if truthy (is_open (body req)) then
    exists s e a z,
      normalizeTimeHHMMSS (start_time (body req)) = Some s
      /\ normalizeTimeHHMMSS (end_time (body req)) = Some e
      /\ time_of_text s = Some a /\ time_of_text e = Some z
      /\ GET_availability api now faults fuel ask db'
         = handleWithWindow api now faults db fuel date slot (Some s) (Some e) (meta true)
      /\ GET_holiday_info faults ask db'
         = respond 200 [("exists", JBool true); ("holiday", JStr label);
                        ("comment", option_json note); ("is_open", JBool true);
                        ("start_time", JStr (date_format_Hi a));
                        ("end_time", JStr (date_format_Hi z))]
  else
    GET_availability api now faults fuel ask db'
    = Some (availability_body date slot [] (meta false))
    /\ GET_holiday_info faults ask db'
       = respond 200 [("exists", JBool true); ("holiday", JStr label);
                      ("comment", option_json note); ("is_open", JBool false);
                      ("start_time", JNull); ("end_time", JNull)].
Proof.
  intros H200 Hsd Hd Hnone Hask Hf1 Hf2.
  destruct (post_holiday_hours_200 faults req db H200) as (v & row & Hv & Hrow & Hpost).
  destruct (holiday_row_shape _ _ _ _ Hv Hrow) as (Hrid & Hh & Hne & Hc & Hs & Hr & Ht).
  rewrite Hsd in Hs. cbn [default from_option id] in Hs. rewrite Hd in Hs.
  injection Hs as Hs.
  assert (covers d row = true) as Hcov.
  { unfold covers. apply andb_true_iff. split; [apply Z.leb_le | apply Z.geb_le]; lia. }
  pose proof (holiday_for_date_snoc d _ row Hnone Hcov) as Hsel.
  cbv zeta. rewrite Hpost. cbn [snd].
  assert (Hlabel : text_or_null (Some (h_holiday row)) = JStr (h_holiday row)).
  { unfold text_or_null. destruct (String.eqb_spec (h_holiday row) ""); [done|reflexivity]. }
  unfold GET_availability, GET_holiday_info, holiday_rows.
  rewrite Hask, Hf1, Hf2. cbn [default from_option id].
  rewrite (date_of_text_iso _ _ Hd), Hd. cbn [negb holiday_hours set_holiday_hours].
  rewrite Hsel. change (option_list (Some row)) with [row].
  cbv beta iota. unfold holiday_meta, holiday_info_body. rewrite Hlabel, Hh, Hc.
  destruct Ht as [(Ho & -> & s & e & a & z & Ns & Ne & Ha & Hz & Hst & Het & Hlt)
                 | (Ho & -> & Hst & Het)].
  - exists s, e, a, z. rewrite Ho, Hst, Het. cbn [Z.eqb Pos.eqb fmap option_fmap option_map time_json].
    repeat (split; [done|]).
    apply normalizeTimeHHMMSS_some in Ns as [Ns _].
    apply normalizeTimeHHMMSS_some in Ne as [Ne _].
    destruct (time_text_of_text s a Ns Ha) as [-> _].
    destruct (time_text_of_text e z Ne Hz) as [-> _].
    split; [|reflexivity].
    apply handleWithWindow_store. reflexivity.
  - rewrite Ho, Hst, Het. cbn. done.
Qed.


(** *** The staff console and the weekly hours *)

Lemma weekday_text day : 1 <= day <= 7 -> Number (String_ (Some day)) = Some day.
Proof.
  intros H.
  assert (day = 1 \/ day = 2 \/ day = 3 \/ day = 4 \/ day = 5 \/ day = 6 \/ day = 7)
    as Hd by lia.
  repeat (destruct Hd as [-> | Hd]; [reflexivity|]). by subst.
Qed.

(** A text in HH:MM form is made of two two-digit fields. *)
Lemma hhmm_fields s :
  matches HHMM s = true ->
  exists h m,
    s = pad2 h +:+ ":" +:+ pad2 m
    /\ 0 <= h < 100 /\ 0 <= m < 100
    /\ time_of_text s = if m <? 60 then Some (h * 3600 + m * 60) else None.
Proof.
  destruct s as [|c1 [|c2 [|c3 [|c4 [|c5 [|c6 r]]]]]];
    try discriminate; cbn [matches HHMM]; rewrite ?andb_false_r; try discriminate.
  intros H. repeat (apply andb_prop in H as [? H]).
  repeat match goal with Hx : Ascii.eqb _ _ = true |- _ =>
    apply Ascii.eqb_eq in Hx; subst end.
  destruct (two_digit_text c1 c2) as [E1 B1]; auto.
  destruct (two_digit_text c4 c5) as [E2 B2]; auto.
  cbv zeta in *.
  exists (digits_value 0 (String c1 (String c2 ""))),
         (digits_value 0 (String c4 (String c5 ""))).
  split; [|split; [done|split; [done|]]].
  - rewrite <- E1, <- E2. reflexivity.
  - unfold time_of_text, two_digits. cbn [matches HHMM HHMMSS String.substring].
    repeat match goal with Hx : is_digit _ = true |- _ => rewrite Hx; clear Hx end.
    rewrite ?Ascii.eqb_refl. cbn [andb orb].
    rewrite andb_true_r, Z.add_0_r. reflexivity.
Qed.

(** A text in HH:MM form that converts is the text of its minute count. *)
Lemma hhmm_text_minutes s a :
  matches HHMM s = true -> time_of_text s = Some a ->
  s = Spec.hhmm (a / 60) /\ a mod 60 = 0 /\ 0 <= a / 60 < 6000.
Proof.
  intros Hs Ha. destruct (hhmm_fields s Hs) as (h & m & -> & ? & ? & E).
  rewrite E in Ha. destruct (Z.ltb_spec m 60); [|discriminate]. injection Ha as <-.
  assert ((h * 3600 + m * 60) / 60 = h * 60 + m) as ->
    by (symmetry; apply (Z.div_unique_pos _ _ _ 0); lia).
  assert ((h * 3600 + m * 60) mod 60 = 0) as ->
    by (symmetry; apply (Z.mod_unique_pos _ _ (h * 60 + m)); lia).
  split; [|lia]. unfold Spec.hhmm.
  assert ((h * 60 + m) / 60 = h) as ->
    by (symmetry; apply (Z.div_unique_pos _ _ _ m); lia).
  assert ((h * 60 + m) mod 60 = m) as ->
    by (symmetry; apply (Z.mod_unique_pos _ _ h); lia).
  reflexivity.
Qed.

Lemma toMinutes_hhmm s a :
  matches HHMM s = true -> time_of_text s = Some a ->
  Console.toMinutes s = Some (a / 60).
Proof.
  intros Hs Ha. destruct (hhmm_text_minutes s a Hs Ha) as (E & _ & Hr).
  set (c := a / 60) in *. rewrite E. unfold Console.toMinutes.
  rewrite (parse_hhmm c) by lia. cbn [lookup list_lookup default from_option]. unfold id.
  cbv beta iota zeta.
  pose proof (Z.div_mod c 60 ltac:(lia)). f_equal. lia.
Qed.

Lemma withSeconds_hhmm s :
  matches HHMM s = true ->
  normalizeTimeHHMMSS (Console.withSeconds (Some s)) = Some (s +:+ ":00")
  /\ matches HHMMSS (s +:+ ":00") = true.
Proof.
  intros Hs.
  assert (normalizeTimeHHMMSS (Some s) = Some (s +:+ ":00")) as Hn.
  { unfold normalizeTimeHHMMSS.
    destruct s as [|c1 [|c2 [|c3 [|c4 [|c5 [|c6 r]]]]]]; try discriminate Hs;
      cbn [matches HHMM] in Hs; rewrite ?andb_false_r in Hs; try discriminate Hs.
    cbn [String.eqb]. change (matches HHMM _) with
      (is_digit c1 && (is_digit c2 && (Ascii.eqb c3 ":" && (is_digit c4 && (is_digit c5 && true))))).
    rewrite Hs. reflexivity. }
  destruct (normalizeTimeHHMMSS_some _ _ Hn) as [H8 _]. split; [|exact H8].
  unfold Console.withSeconds.
  assert (String.eqb s "" = false) as -> by (by destruct s).
  assert (matches HHMMSS s = false) as ->.
  { destruct s as [|c1 [|c2 [|c3 [|c4 [|c5 [|c6 r]]]]]]; try discriminate Hs; try reflexivity;
      cbn [matches HHMM] in Hs; rewrite ?andb_false_r in Hs; try discriminate Hs.
    cbn [matches HHMMSS]. by rewrite !andb_false_r. }
  unfold normalizeTimeHHMMSS. destruct (hhmmss_shape _ H8) as (-> & -> & ->).
  by rewrite H8.
Qed.

Lemma put_business_hours_open faults req db day s e a z :
  field "week_day" (params req) ≫= Number = Some day -> 1 <= day <= 7 ->
  truthy (is_open (body req)) = true ->
  normalizeTimeHHMMSS (start_time (body req)) = Some s ->
  normalizeTimeHHMMSS (end_time (body req)) = Some e ->
  time_of_text s = Some a -> time_of_text e = Some z -> a < z ->
  faults UpsertBusinessHours = false ->
  PUT_business_hours faults req db
  = (respond 200 [("ok", JBool true)],
     set_business_hours db
       (<[day := {| bh_start_time := Some a; bh_end_time := Some z; bh_is_open := 1 |}]>
          (business_hours db))).
Proof.
  intros Hday Hr Ho Hs He Ha Hz Hlt Hf. unfold PUT_business_hours.
  rewrite Hday, Ho, Hs, He, Hf.
  assert (isValidWeekday (Some day) = true) as -> by (cbn; lia).
  rewrite !bool_decide_eq_true_2 by eauto. cbn [negb andb default from_option id].
  apply normalizeTimeHHMMSS_some in Hs as [Hs _].
  apply normalizeTimeHHMMSS_some in He as [He _].
  assert (str_ge s e = false) as ->.
  { unfold str_ge, String.leb. rewrite (hhmmss_compare e s z a) by done.
    destruct (Z.compare_spec z a); try reflexivity; lia. }
  cbn [time_param fmap option_fmap option_map]. rewrite Ha, Hz. reflexivity.
Qed.

(** X17.  "Close" on the console sends a weekday without times; the
    server answers 200 and stores the weekday closed with no times, and
    from then on the availability of a date of that weekday which no
    override covers is empty. *)
Theorem console_close_empties_day api now faults fuel user bizRows day ask db date d :
  1 <= day <= 7 ->
  faults UpsertBusinessHours = false ->
  faults HolidayForDate = false -> faults BusinessHoursForDay = false ->
  field "date" (query ask) = Some date -> date_of_text date = Some d ->
  holiday_for_date d (holiday_hours db) = None ->
  jsWeekdayMonday1to7 api date = Some day ->
  let sent := Console.handleBizCloseDay user bizRows day in
  let r := fst (PUT_business_hours faults sent db) in
  let db' := snd (PUT_business_hours faults sent db) in
  let slot := Z.max 5 (or_num (parseInt (field "slotMinutes" (query ask))) 30) in
  r = respond 200 [("ok", JBool true)]
  /\ business_hours db' !! day
     = Some {| bh_start_time := None; bh_end_time := None; bh_is_open := 0 |}
  /\ (forall other, other <> day -> business_hours db' !! other = business_hours db !! other)
  /\ GET_availability api now faults fuel ask db'
     = Some (availability_body date slot [] []).
Proof.
  intros Hr Hf1 Hf2 Hf3 Hask Hd Hnone Hw. cbv zeta.
  assert (PUT_business_hours faults (Console.handleBizCloseDay user bizRows day) db
          = (respond 200 [("ok", JBool true)],
             set_business_hours db
               (<[day := {| bh_start_time := None; bh_end_time := None; bh_is_open := 0 |}]>
                  (business_hours db)))) as ->.
  { unfold PUT_business_hours, Console.handleBizCloseDay, Console.putBusinessDay.
    cbn [params body field String.eqb Ascii.eqb Bool.eqb mbind option_bind].
    rewrite (weekday_text day Hr).
    assert (isValidWeekday (Some day) = true) as -> by (cbn; lia).
    unfold Console.payload, Console.with_open.
    cbn [Console.ui_is_open is_open start_time end_time truthy normalizeTimeHHMMSS
         negb andb default from_option id]. by rewrite Hf1. }
  cbn [fst snd]. split; [done|].
  split; [cbn [business_hours set_business_hours]; by rewrite lookup_insert_eq|].
  split; [intros other Hne; cbn [business_hours set_business_hours];
          by rewrite lookup_insert_ne|].
  rewrite (weekly_request api now faults fuel ask _ date d day
             {| bh_start_time := None; bh_end_time := None; bh_is_open := 0 |});
    try done.
  cbn [business_hours set_business_hours]. by rewrite lookup_insert_eq.
Qed.

(** X18.  "Open and save" on the console, with page times in HH:MM form
    that convert, is answered 200 and stores the weekday open with a start
    before its end: the page times when they are in order, 09:00 to 17:00
    otherwise. *)
Theorem console_open_and_save_stores_window faults user bizRows day db
    (page_start page_end : Z) :
  1 <= day <= 7 ->
  faults UpsertBusinessHours = false ->
  0 <= page_start < 6000 -> 0 <= page_end < 6000 ->
  Console.ui_start_time (bizRows day) = Some (Spec.hhmm page_start) ->
  Console.ui_end_time (bizRows day) = Some (Spec.hhmm page_end) ->
  let sent := Console.handleBizOpenAndSave user bizRows day in
  let r := fst (PUT_business_hours faults sent db) in
  let db' := snd (PUT_business_hours faults sent db) in
  let stored := if page_end <=? page_start then (540, 1020) else (page_start, page_end) in
  r = respond 200 [("ok", JBool true)]
  /\ business_hours db' !! day
     = Some {| bh_start_time := Some (fst stored * 60);
               bh_end_time := Some (snd stored * 60); bh_is_open := 1 |}
  /\ fst stored < snd stored.
Proof.
  intros Hr Hf Hs He Es Ee. cbv zeta.
  destruct (time_of_text_hhmm page_start Hs) as [Ts Ms].
  destruct (time_of_text_hhmm page_end He) as [Te Me].
  assert (Hput : forall u v, 0 <= u < 6000 -> 0 <= v < 6000 -> u < v ->
            PUT_business_hours faults
              (Console.putBusinessDay user day
                 {| Console.week_day := Console.week_day (bizRows day);
                    Console.ui_start_time := Some (Spec.hhmm u);
                    Console.ui_end_time := Some (Spec.hhmm v);
                    Console.ui_is_open := true |}) db
            = (respond 200 [("ok", JBool true)],
               set_business_hours db
                 (<[day := {| bh_start_time := Some (u * 60); bh_end_time := Some (v * 60);
                              bh_is_open := 1 |}]> (business_hours db)))).
  { intros u v Hu Hv Huv.
    destruct (time_of_text_hhmm u Hu) as [Tu Mu].
    destruct (time_of_text_hhmm v Hv) as [Tv Mv].
    destruct (withSeconds_hhmm _ Mu) as [Nu _].
    destruct (withSeconds_hhmm _ Mv) as [Nv _].
    apply (put_business_hours_open faults _ db day
             (Spec.hhmm u +:+ ":00") (Spec.hhmm v +:+ ":00") (u * 60) (v * 60));
      try done.
    - cbn [Console.putBusinessDay params field String.eqb Ascii.eqb Bool.eqb
           mbind option_bind]. by rewrite weekday_text.
    - by rewrite time_of_text_seconds.
    - by rewrite time_of_text_seconds.
    - lia. }
  unfold Console.handleBizOpenAndSave. rewrite Es, Ee. cbn [default from_option id].
  rewrite (toMinutes_hhmm _ _ Ms Ts), (toMinutes_hhmm _ _ Me Te).
  rewrite !Z.div_mul by lia. cbn [Console.num_ge].
  destruct (Z.leb_spec page_end page_start).
  - change "09:00" with (Spec.hhmm 540). change "17:00" with (Spec.hhmm 1020).
    rewrite Hput by lia. cbn [fst snd business_hours set_business_hours].
    rewrite lookup_insert_eq. split; [done|]. split; [done|lia].
  - rewrite Hput by lia. cbn [fst snd business_hours set_business_hours].
    rewrite lookup_insert_eq. split; [done|]. split; [done|lia].
Qed.

(** *** Phone numbers between the pages and the server *)

Lemma strip_digits_id p : all_digits p = true -> strip_non_digits p = p.
Proof.
  induction p as [|c p IH]; [done|]. cbn [all_digits strip_non_digits].
  intros [Hc Hp]%andb_prop. rewrite Hc. f_equal. by apply IH.
Qed.

Lemma ten_digits p :
  String.length p = 10%nat -> all_digits p = true ->
  exists c1 c2 c3 c4 c5 c6 c7 c8 c9 c10,
    p = String c1 (String c2 (String c3 (String c4 (String c5 (String c6
          (String c7 (String c8 (String c9 (String c10 "")))))))))
    /\ Forall (fun c => is_digit c = true) [c1; c2; c3; c4; c5; c6; c7; c8; c9; c10].
Proof.
  intros Hlen Hd.
  destruct p as [|c1 [|c2 [|c3 [|c4 [|c5 [|c6 [|c7 [|c8 [|c9 [|c10 [|c11 r]]]]]]]]]]];
    try discriminate Hlen.
  exists c1, c2, c3, c4, c5, c6, c7, c8, c9, c10. split; [done|].
  cbn [all_digits] in Hd. repeat (apply andb_prop in Hd as [? Hd]).
  repeat constructor; assumption.
Qed.

Lemma page_phone_cases raw :
  if Pages.isValidNANP raw then
    exists p,
      Pages.toE164 raw = Some ("+1" +:+ p)
      /\ normalizeNANPTo10 raw = Some p
      /\ normalizeNANPTo10 ("+1" +:+ p) = Some p
      /\ String.length p = 10%nat /\ all_digits p = true
      /\ Pages.formatPrettyNANP ("+1" +:+ p) = Pages.formatPrettyNANP p
      /\ Pages.formatPrettyNANP p
         = "(" +:+ String.substring 0 3 p +:+ ") " +:+ String.substring 3 3 p
           +:+ "-" +:+ String.substring 6 4 p
      /\ Pages.onlyDigits (Pages.formatPrettyNANP p) = p
  else Pages.toE164 raw = None /\ normalizeNANPTo10 raw = None.
Proof.
  pose proof (normalizeNANPTo10_cases raw) as Hcases. cbv zeta in Hcases.
  unfold Pages.isValidNANP, Pages.toE164, Pages.onlyDigits.
  unfold onlyDigits in Hcases.
  set (d := strip_non_digits raw) in *.
  destruct (normalizeNANPTo10 raw) as [p|] eqn:Hn.
  - destruct Hcases as (Hlen & Hdig & Hd).
    assert (Hfmt : normalizeNANPTo10 ("+1" +:+ p) = Some p
              /\ Pages.formatPrettyNANP ("+1" +:+ p) = Pages.formatPrettyNANP p
              /\ Pages.formatPrettyNANP p
                 = "(" +:+ String.substring 0 3 p +:+ ") " +:+ String.substring 3 3 p
                   +:+ "-" +:+ String.substring 6 4 p
              /\ Pages.onlyDigits (Pages.formatPrettyNANP p) = p).
    { destruct (ten_digits p Hlen Hdig)
        as (c1 & c2 & c3 & c4 & c5 & c6 & c7 & c8 & c9 & c10 & -> & Hall).
      repeat match goal with H : Forall _ (_ :: _) |- _ =>
        apply Forall_cons in H as [? H] end.
      assert (Hpretty : Pages.formatPrettyNANP
                (String c1 (String c2 (String c3 (String c4 (String c5 (String c6
                  (String c7 (String c8 (String c9 (String c10 ""))))))))))
              = String "(" (String c1 (String c2 (String c3 (String ")" (String " "
                  (String c4 (String c5 (String c6 (String "-"
                    (String c7 (String c8 (String c9 (String c10 "")))))))))))))).
      { unfold Pages.formatPrettyNANP, Pages.onlyDigits.
        cbn [strip_non_digits].
        repeat match goal with H : is_digit _ = true |- _ => rewrite H end.
        cbv iota. cbn [Pages.country_code_then_ten repeat matches].
        rewrite !andb_false_r. reflexivity. }
      split; [|split; [|split]].
      - unfold normalizeNANPTo10, onlyDigits.
        change ("+1" +:+ ?x) with (String "+" (String "1" x)).
        cbn [strip_non_digits].
        change (is_digit "+") with false. change (is_digit "1") with true.
        repeat match goal with H : is_digit _ = true |- _ => rewrite H end.
        reflexivity.
      - rewrite Hpretty. unfold Pages.formatPrettyNANP, Pages.onlyDigits.
        change ("+1" +:+ ?x) with (String "+" (String "1" x)).
        cbn [strip_non_digits].
        change (is_digit "+") with false. change (is_digit "1") with true.
        repeat match goal with H : is_digit _ = true |- _ => rewrite H end.
        cbv iota. cbn [Pages.country_code_then_ten repeat matches].
        repeat match goal with H : is_digit _ = true |- _ => rewrite H end.
        reflexivity.
      - rewrite Hpretty. reflexivity.
      - rewrite Hpretty. unfold Pages.onlyDigits. cbn [strip_non_digits].
        change (is_digit "(") with false. change (is_digit ")") with false.
        change (is_digit " ") with false. change (is_digit "-") with false.
        repeat match goal with H : is_digit _ = true |- _ => rewrite H end.
        reflexivity. }
    destruct Hfmt as (F1 & F2 & F3 & F4).
    destruct Hd as [[Hl ->] | [Hl Hd]].
    + rewrite Hl. cbn [Nat.eqb orb]. exists d. by rewrite Hl in Hlen |- *.
    + rewrite Hl, Hd. cbn [Nat.eqb orb andb startsWith Ascii.eqb Bool.eqb]. exists p.
      done.
  - destruct Hcases as [H10 H11].
    destruct (Nat.eqb_spec (String.length d) 10); [done|]. cbn [orb].
    destruct (Nat.eqb_spec (String.length d) 11); cbn [andb]; [|done].
    destruct (startsWith "1" d) eqn:Hs; [|done]. exfalso. by apply H11.
Qed.

(** X19.  The pages and the server accept the same phone numbers.  A
    number the pages accept is sent as +1 and ten digits, the server
    stores those ten digits, the same it would store for the text as
    typed, and the pretty form of either spelling has exactly those
    digits; a number the pages refuse is one the server refuses. *)
Theorem page_phone_agrees_with_server raw :
  if Pages.isValidNANP raw then
    exists p,
      Pages.toE164 raw = Some ("+1" +:+ p)
      /\ normalizeNANPTo10 raw = Some p
      /\ normalizeNANPTo10 ("+1" +:+ p) = Some p
      /\ String.length p = 10%nat /\ all_digits p = true
      /\ Pages.formatPrettyNANP ("+1" +:+ p) = Pages.formatPrettyNANP p
      /\ Pages.formatPrettyNANP p
         = "(" +:+ String.substring 0 3 p +:+ ") " +:+ String.substring 3 3 p
           +:+ "-" +:+ String.substring 6 4 p
      /\ Pages.onlyDigits (Pages.formatPrettyNANP p) = p
  else Pages.toE164 raw = None /\ normalizeNANPTo10 raw = None.
Proof. exact (page_phone_cases raw). Qed.


(** *** Sessions *)

Lemma account_rows_first email_equals users email :
  match Auth.account_rows email_equals users email with
  | [] => forall a, a ∈ users -> email_equals (Auth.ac_email a) email = false
  | a :: _ => a ∈ users /\ email_equals (Auth.ac_email a) email = true
  end.
Proof.
  unfold Auth.account_rows. induction users as [|u r IH]; cbn [List.filter].
  - cbn. intros a []%elem_of_nil.
  - destruct (email_equals (Auth.ac_email u) email) eqn:Hu.
    + cbn. split; [left | done].
    + destruct (take 1 (List.filter _ r)) as [|a l] eqn:Hr.
      * intros a [-> | Ha]%elem_of_cons; [done | by apply IH].
      * destruct IH as [Hin Ha]. split; [by right | done].
Qed.


Lemma route_guards v rt : rt ∈ routes v -> guards rt = [] \/ guards rt = admin.
Proof.
  unfold routes. intros Hrt.
  repeat (apply elem_of_cons in Hrt as [-> | Hrt]; [cbn; auto|]).
  by apply elem_of_nil in Hrt.
Qed.

(** X21.  What a login is worth.  With the session of an account whose
    role is "admin" every route runs its handler and the pages show the
    admin screens; with the session of any other account the admin routes
    answer 403, the public routes run, and the pages send the user home;
    after a logout the admin routes answer 401 and the pages ask to log
    in. *)
Theorem login_decides_admin_access email_equals bcrypt_compare users body session
    v rt env req db :
  status (fst (Auth.POST_login email_equals bcrypt_compare false users body session)) = 200 ->
  rt ∈ routes v ->
  let session' := snd (Auth.POST_login email_equals bcrypt_compare false users body session) in
  let asked := Auth.with_session session' req in
  let out := snd (Auth.POST_logout session') in
  (exists a, a ∈ users /\ session' = Some (Auth.identity a)
     /\ if String.eqb (Auth.ac_role a) "admin"
        then Pages.AdminRoute session' = Pages.Children
             /\ serve rt env asked db = handler rt env asked db
        else Pages.AdminRoute session' = Pages.Navigate "/"
             /\ (guards rt = admin ->
                   serve rt env asked db = Some (message 403 "Forbidden", db))
             /\ (guards rt = [] -> serve rt env asked db = handler rt env asked db))
  /\ Pages.AdminRoute out = Pages.Navigate "/login"
  /\ (guards rt = admin ->
        serve rt env (Auth.with_session out req) db
        = Some (message 401 "Not authenticated", db)).
Proof.
  intros H200 Hrt. cbv zeta.
  assert (exists a, a ∈ users
            /\ snd (Auth.POST_login email_equals bcrypt_compare false users body session)
               = Some (Auth.identity a)) as (a & Hin & ->).
  { revert H200. unfold Auth.POST_login.
    destruct (negb _ || negb _); [discriminate|].
    pose proof (account_rows_first email_equals users (default "" (Auth.cr_email body)))
      as Hrows.
    destruct (Auth.account_rows _ _ _) as [|a l]; [discriminate|].
    destruct (bcrypt_compare _ _); [|discriminate].
    intros _. exists a. split; [apply Hrows | done]. }
  split; [|split; [done|]].
  - exists a. split; [done|]. split; [done|].
    unfold Pages.AdminRoute, serve. cbn [Auth.identity u_role].
    destruct (String.eqb (Auth.ac_role a) "admin") eqn:Hrole; cbn [negb].
    + split; [done|].
      destruct (route_guards v rt Hrt) as [-> | ->]; [done|].
      unfold admin, run_guards, requireAuth, requireRole.
      cbn [Auth.with_session session_user Auth.identity u_role]. by rewrite Hrole.
    + split; [done|]. split; intros ->; [|done].
      unfold admin, run_guards, requireAuth, requireRole.
      cbn [Auth.with_session session_user Auth.identity u_role]. by rewrite Hrole.
  - intros Hg. unfold serve. rewrite Hg. reflexivity.
Qed.


(** *** Trimming *)


Lemma string_append_nil_r s : s +:+ "" = s.
Proof. induction s as [|c s IH]; [done|]. by rewrite append_cons, IH. Qed.

Lemma string_rev_app_append s : forall acc, String.rev_app s acc = String.rev s +:+ acc.
Proof.
  unfold String.rev. induction s as [|c s IH]; intros acc; [done|].
  cbn [String.rev_app]. rewrite (IH (String c acc)), (IH (String c "")).
  by rewrite append_assoc.
Qed.

Lemma string_rev_cons c s : String.rev (String c s) = String.rev s +:+ String c "".
Proof. unfold String.rev at 1. cbn [String.rev_app]. apply string_rev_app_append. Qed.



Lemma string_rev_app a b : String.rev (a +:+ b) = String.rev b +:+ String.rev a.
Proof.
  induction a as [|c a IH].
  - change ("" +:+ b) with b. change (String.rev "") with "". by rewrite string_append_nil_r.
  - rewrite append_cons, !string_rev_cons. by rewrite IH, append_assoc.
Qed.

Lemma string_rev_involutive s : String.rev (String.rev s) = s.
Proof.
  induction s as [|c s IH]; [done|]. rewrite string_rev_cons, string_rev_app, IH. reflexivity.
Qed.


Lemma skip_spaces_fixed c s : is_space c = false -> skip_spaces (String c s) = String c s.
Proof. intros H. cbn [skip_spaces]. by rewrite H. Qed.



(** *** Reviews *)

Lemma newest_first_spec a b :
  Reviews.newest_first a b = true <->
  Reviews.CreatedAt b < Reviews.CreatedAt a
  \/ (Reviews.CreatedAt a = Reviews.CreatedAt b /\ Reviews.ReviewID b <= Reviews.ReviewID a).
Proof.
  unfold Reviews.newest_first.
  rewrite orb_true_iff, andb_true_iff, Z.ltb_lt, Z.eqb_eq, Z.leb_le. reflexivity.
Qed.

Lemma newest_first_total a b :
  Reviews.newest_first a b = false -> Reviews.newest_first b a = true.
Proof. intros H%not_true_iff_false. rewrite newest_first_spec in *. lia. Qed.

Lemma newest_first_trans a b c :
  Reviews.newest_first a b = true -> Reviews.newest_first b c = true ->
  Reviews.newest_first a c = true.
Proof. rewrite !newest_first_spec. lia. Qed.

Lemma comment_length_ok text :
  truthy_text text && (500 <? String.length (default "" text))%nat = false ->
  (String.length (default "" text) <= 500)%nat.
Proof.
  destruct text as [s|]; cbn [default from_option id truthy_text];
    [|intros _; cbn [String.length]; lia].
  destruct (String.eqb_spec s "") as [-> | _]; cbn [negb andb];
    [intros _; cbn [String.length]; lia|].
  by intros ?%Nat.ltb_ge.
Qed.

Lemma post_reviews_201 now insert_fails select_fails b st :
  Reviews.code (fst (Reviews.POST_reviews now insert_fails select_fails b st)) = 201 ->
  exists z type text,
    Number_val (Reviews.b_Rating b) = Some z /\ 1 <= z <= 5
    /\ Reviews.b_TypeOfMassage b = VStr type
    /\ trim type <> "" /\ (String.length type <= 50)%nat
    /\ text = match Reviews.b_Comments b with VStr s => Some s | _ => None end
    /\ (String.length (default "" text) <= 500)%nat
    /\ let row := {| Reviews.ReviewID := Reviews.next_review_id st;
                     Reviews.Rating := z;
                     Reviews.TypeOfMassage := trim type;
                     Reviews.Comments := Reviews.trimmed_or_null text;
                     Reviews.CreatedAt := now |} in
       let st' := {| Reviews.reviews := Reviews.reviews st ++ [row];
                     Reviews.next_review_id := Reviews.next_review_id st + 1 |} in
       Reviews.POST_reviews now insert_fails select_fails b st
       = ({| Reviews.code := 201;
             Reviews.content := Reviews.Created
               (head (List.filter (fun r => Reviews.ReviewID r =? Reviews.next_review_id st)
                                  (Reviews.reviews st'))) |}, st').
Proof.
  unfold Reviews.POST_reviews.
  destruct (Number_val (Reviews.b_Rating b)) as [z|] eqn:Hz; cbn [Reviews.valid_rating negb];
    [|discriminate].
  destruct ((1 <=? z) && (z <=? 5)) eqn:Hr; cbn [negb]; [|discriminate].
  apply andb_prop in Hr as [?%Z.leb_le ?%Z.leb_le].
  destruct (Reviews.b_TypeOfMassage b) as [| |?|?|type]; try discriminate.
  destruct (String.eqb_spec (trim type) ""); [discriminate|].
  destruct (Nat.ltb_spec 50 (String.length type)); [discriminate|].
  set (text := match Reviews.b_Comments b with VStr s => Some s | _ => None end).
  pose proof (comment_length_ok text) as Hlen.
  destruct (Reviews.b_Comments b) as [| |?|?|s] eqn:Hc; try discriminate;
    fold text; (destruct (truthy_text text && _) eqn:Hl; [discriminate|]);
    (destruct insert_fails; [discriminate|]);
    (destruct select_fails; [discriminate|]);
    intros _; exists z, type, text; cbn [default from_option id];
    repeat (split; [first [done | lia | by apply Hlen]|]); reflexivity.
Qed.


(** X23.  The listing answers with every stored review once, newest
    first and, among reviews of one instant, the higher identifier
    first; a positive integer limit keeps the first that many. *)
Theorem get_reviews_newest_first query st :
  exists rows all,
    Reviews.GET_reviews false query st
    = {| Reviews.code := 200; Reviews.content := Reviews.Listed rows |}
    /\ all ≡ₚ Reviews.reviews st
    /\ ordered Reviews.newest_first all
    /\ (forall i j a b, (i < j)%nat -> rows !! i = Some a -> rows !! j = Some b ->
          Reviews.CreatedAt b < Reviews.CreatedAt a
          \/ (Reviews.CreatedAt a = Reviews.CreatedAt b
              /\ Reviews.ReviewID b <= Reviews.ReviewID a))
    /\ match positive_id (parseInt (field "limit" query)) with
       | Some n => rows = take (Z.to_nat n) all
       | None => rows = all
       end.
Proof.
  unfold Reviews.GET_reviews.
  set (all := sort_by Reviews.newest_first (Reviews.reviews st)).
  pose proof (sort_by_perm Reviews.newest_first (Reviews.reviews st)) as Hperm.
  pose proof (sort_by_ordered Reviews.newest_first newest_first_total newest_first_trans
                (Reviews.reviews st)) as Hord.
  fold all in Hperm, Hord.
  set (lim := positive_id (parseInt (field "limit" query))).
  exists (match lim with Some n => take (Z.to_nat n) all | None => all end), all.
  split; [done|]. split; [done|]. split; [done|]. split; [|by destruct lim].
  intros i j a b Hij Hi Hj. apply newest_first_spec.
  assert (ordered Reviews.newest_first
            (match lim with Some n => take (Z.to_nat n) all | None => all end)) as Hord'
    by (destruct lim; [by apply ordered_take | done]).
  exact (ordered_lookup _ _ i j a b Hord' Hij Hi Hj).
Qed.

(** X24.  A review that has just been created heads the listing, with
    or without a limit, as long as no stored review is dated after the
    instant of the request. *)
Theorem posted_review_is_listed_first now b st query :
  (forall r, r ∈ Reviews.reviews st ->
     Reviews.ReviewID r < Reviews.next_review_id st /\ Reviews.CreatedAt r <= now) ->
  Reviews.code (fst (Reviews.POST_reviews now false false b st)) = 201 ->
  let st' := snd (Reviews.POST_reviews now false false b st) in
  exists row rows,
    Reviews.content (fst (Reviews.POST_reviews now false false b st))
    = Reviews.Created (Some row)
    /\ Reviews.GET_reviews false query st'
       = {| Reviews.code := 200; Reviews.content := Reviews.Listed (row :: rows) |}.
Proof.
  intros Hst H201. cbv zeta.
  destruct (post_reviews_201 _ _ _ _ _ H201)
    as (z & type & text & Hz & Hr & Ht & Hne & Hl & Htext & Hc & Hpost).
  cbv zeta in Hpost. rewrite Hpost. clear Hpost.
  set (row := {| Reviews.ReviewID := Reviews.next_review_id st; Reviews.Rating := z;
                 Reviews.TypeOfMassage := trim type;
                 Reviews.Comments := Reviews.trimmed_or_null text;
                 Reviews.CreatedAt := now |}).
  cbn [fst snd Reviews.content Reviews.reviews]. fold row.
  assert (head (List.filter (fun r => Reviews.ReviewID r =? Reviews.next_review_id st)
                            (Reviews.reviews st ++ [row])) = Some row) as ->.
  { rewrite List.filter_app.
    assert (List.filter (fun r => Reviews.ReviewID r =? Reviews.next_review_id st)
              (Reviews.reviews st) = []) as ->.
    { clear -Hst. induction (Reviews.reviews st) as [|r l IH]; [done|]. cbn.
      assert (Reviews.ReviewID r < Reviews.next_review_id st) by (apply Hst; left).
      destruct (Z.eqb_spec (Reviews.ReviewID r) (Reviews.next_review_id st)); [lia|].
      apply IH. intros r' ?. apply Hst. by right. }
    cbn. by rewrite Z.eqb_refl. }
  unfold Reviews.GET_reviews. cbn [Reviews.reviews].
  set (all := sort_by Reviews.newest_first (Reviews.reviews st ++ [row])).
  pose proof (sort_by_perm Reviews.newest_first (Reviews.reviews st ++ [row])) as Hperm.
  pose proof (sort_by_ordered Reviews.newest_first newest_first_total newest_first_trans
                (Reviews.reviews st ++ [row])) as Hord.
  fold all in Hperm, Hord.
  assert (exists rest, all = row :: rest) as [rest Hall].
  { destruct all as [|h rest].
    - apply Permutation_nil_l in Hperm. by destruct (Reviews.reviews st).
    - exists rest. f_equal. destruct Hord as [Hh _].
      assert (h ∈ Reviews.reviews st ++ [row]) as Hin by (rewrite <- Hperm; left).
      apply elem_of_app in Hin as [Hin | ->%list_elem_of_singleton]; [|done].
      exfalso. destruct (Hst h Hin) as [Hid Hat].
      assert (row ∈ h :: rest) as Hrow
        by (rewrite Hperm; apply elem_of_app; right; by apply list_elem_of_singleton).
      apply elem_of_cons in Hrow as [E | Hrow].
      + rewrite <- E in Hid. cbn in Hid. lia.
      + apply Hh, newest_first_spec in Hrow. cbn in Hrow. lia. }
  exists row. rewrite Hall.
  destruct (positive_id (parseInt (field "limit" query))) as [n|] eqn:Hn.
  - exists (take (Z.to_nat n - 1) rest). split; [done|]. do 2 f_equal.
    assert (0 < n).
    { unfold positive_id in Hn. destruct (parseInt _) as [k|]; [|discriminate].
      destruct (Z.leb_spec k 0); [discriminate|]. injection Hn as <-. lia. }
    replace (Z.to_nat n) with (S (Z.to_nat n - 1)) at 1 by lia. reflexivity.
  - by exists rest.
Qed.


(** *** What the availability route never offers *)




(** *** Decimal texts of any size *)

Lemma digit_value_bounds c : is_digit c = true -> 0 <= digit_value c <= 9.
Proof.
  intros H%digit_cases. cbn [In] in H.
  repeat (destruct H as [<- | H]; [vm_compute; split; discriminate|]). done.
Qed.

Lemma digit_not_space c : is_digit c = true -> is_space c = false.
Proof.
  intros H%digit_cases. cbn [In] in H.
  repeat (destruct H as [<- | H]; [reflexivity|]). done.
Qed.

Lemma digit_not_colon c : is_digit c = true -> Ascii.eqb c ":" = false.
Proof.
  intros H%digit_cases. cbn [In] in H.
  repeat (destruct H as [<- | H]; [reflexivity|]). done.
Qed.

Lemma all_digits_uint d : all_digits (NilEmpty.string_of_uint d) = true.
Proof. induction d; cbn [NilEmpty.string_of_uint all_digits]; auto. Qed.

Lemma digits_value_acc d : forall acc,
  digits_value (Z.pos acc) (NilEmpty.string_of_uint d) = Z.pos (Pos.of_uint_acc d acc).
Proof.
  induction d; intros acc; cbn [NilEmpty.string_of_uint digits_value Pos.of_uint_acc];
    [reflexivity|..];
    match goal with
    | |- digits_value (10 * _ + digit_value ?c) _ = Z.pos (Pos.of_uint_acc _ ?p) =>
        replace (10 * Z.pos acc + digit_value c) with (Z.pos p)
          by (change (digit_value c) with (Z.of_nat (nat_of_ascii c) - 48);
              cbn [nat_of_ascii]; vm_compute (Z.of_nat _ - 48); lia)
    end; apply IHd.
Qed.

Lemma digits_value_uint d :
  digits_value 0 (NilEmpty.string_of_uint d) = Z.of_N (Pos.of_uint d).
Proof.
  induction d; cbn [NilEmpty.string_of_uint digits_value Pos.of_uint];
    [reflexivity | exact IHd | ..];
    match goal with
    | |- digits_value (10 * 0 + digit_value ?c) _ = Z.of_N (N.pos (Pos.of_uint_acc _ ?p)) =>
        change (10 * 0 + digit_value c) with (Z.pos p)
    end; apply digits_value_acc.
Qed.

(** The text of a natural number: digits, at least one, and its value
    read back. *)
Lemma String_digits h :
  0 <= h ->
  all_digits (String_ (Some h)) = true
  /\ String_ (Some h) <> ""
  /\ digits_value 0 (String_ (Some h)) = h.
Proof.
  intros Hh. unfold String_, NilZero.string_of_int, Z.to_int.
  destruct h as [|p|p]; [by vm_compute | | lia].
  pose proof (DecimalPos.Unsigned.of_to p) as Hp.
  assert (NilZero.string_of_uint (Pos.to_uint p) = NilEmpty.string_of_uint (Pos.to_uint p))
    as -> by (unfold NilZero.string_of_uint; destruct (Pos.to_uint p); try reflexivity;
              discriminate Hp).
  split; [apply all_digits_uint|]. split.
  - destruct (Pos.to_uint p); discriminate.
  - by rewrite digits_value_uint, Hp.
Qed.

Lemma all_digits_app a b : all_digits (a +:+ b) = all_digits a && all_digits b.
Proof.
  induction a as [|c a IH]; [done|]. rewrite append_cons. cbn [all_digits].
  by rewrite IH, andb_assoc.
Qed.

Lemma all_digits_rev s : all_digits (String.rev s) = all_digits s.
Proof.
  induction s as [|c s IH]; [done|]. rewrite string_rev_cons, all_digits_app, IH.
  cbn [all_digits]. by rewrite andb_true_r, andb_comm.
Qed.

Lemma skip_spaces_digits s : all_digits s = true -> skip_spaces s = s.
Proof.
  destruct s as [|c s]; [done|]. cbn [all_digits]. intros [Hc _]%andb_prop.
  apply skip_spaces_fixed. by apply digit_not_space.
Qed.

Lemma trim_digits s : all_digits s = true -> trim s = s.
Proof.
  intros Hs. unfold trim. rewrite (skip_spaces_digits s Hs).
  rewrite skip_spaces_digits by (by rewrite all_digits_rev). apply string_rev_involutive.
Qed.

Lemma Number_digits s :
  all_digits s = true -> s <> "" -> Number s = Some (digits_value 0 s).
Proof.
  intros Hs Hne. unfold Number. rewrite (trim_digits s Hs).
  destruct s as [|c r]; [done|]. pose proof Hs as Hall.
  cbn [all_digits] in Hs. apply andb_prop in Hs as [Hc%digit_cases _]. cbn [In] in Hc.
  repeat (destruct Hc as [<- | Hc]; [cbv beta iota; by rewrite Hall|]). done.
Qed.

Lemma split_digits s : all_digits s = true -> split ":" s = [s].
Proof.
  induction s as [|c s IH]; [done|]. cbn [all_digits split].
  intros [Hc Hs]%andb_prop. rewrite (digit_not_colon c Hc), (IH Hs). reflexivity.
Qed.

Lemma split_digits_colon a b :
  all_digits a = true -> all_digits b = true -> split ":" (a +:+ ":" +:+ b) = [a; b].
Proof.
  intros Ha Hb. induction a as [|c a IH].
  - change ("" +:+ ":" +:+ b) with (String ":" b). cbn [split Ascii.eqb Bool.eqb].
    by rewrite (split_digits b Hb).
  - cbn [all_digits] in Ha. apply andb_prop in Ha as [Hc Ha].
    rewrite append_cons. cbn [split]. rewrite (digit_not_colon c Hc), (IH Ha). reflexivity.
Qed.

Lemma digits_value_zero s : digits_value 0 (String "0" s) = digits_value 0 s.
Proof. reflexivity. Qed.

Lemma pad2_digits x :
  0 <= x ->
  all_digits (pad2 x) = true /\ pad2 x <> "" /\ digits_value 0 (pad2 x) = x
  /\ (100 <= x -> pad2 x = String_ (Some x)).
Proof.
  intros Hx. destruct (String_digits x Hx) as (Hd & Hne & Hv).
  unfold pad2, padStart. set (s := String_ (Some x)) in *.
  destruct s as [|c1 [|c2 r]] eqn:Hs; [done | |].
  - cbn [String.length Nat.sub repeat string_of_list_ascii].
    change ("0" +:+ String c1 "") with (String "0" (String c1 "")).
    split; [exact Hd|]. split; [done|]. split; [exact Hv|].
    intros Hx'. cbn [all_digits] in Hd. apply andb_prop in Hd as [Hc _].
    pose proof (digit_value_bounds c1 Hc). cbn [digits_value] in Hv. lia.
  - cbn [String.length Nat.sub repeat string_of_list_ascii].
    change ("" +:+ ?t) with t. done.
Qed.

(** The two fields of an "HH:MM" text of any minute count are read back. *)
Lemma parse_hhmm_any c :
  0 <= c -> Number <$> split ":" (Spec.hhmm c) = [Some (c / 60); Some (c mod 60)].
Proof.
  intros Hc. unfold Spec.hhmm.
  destruct (pad2_digits (c / 60)) as (H1 & N1 & V1 & _); [by apply Z.div_pos|].
  destruct (pad2_digits (c mod 60)) as (H2 & N2 & V2 & _);
    [apply Z.mod_pos_bound; lia|].
  rewrite split_digits_colon by done. cbn [fmap list_fmap].
  by rewrite !Number_digits, V1, V2.
Qed.

Lemma addMinutesHHMM_any c k :
  0 <= c -> 0 <= c + k -> addMinutesHHMM (Spec.hhmm c) k = Spec.hhmm (c + k).
Proof.
  intros Hc Hk. unfold addMinutesHHMM. rewrite parse_hhmm_any by auto.
  cbn [lookup list_lookup default from_option]. unfold id. cbv beta iota zeta.
  pose proof (Z.div_mod c 60 ltac:(lia)).
  replace (c / 60 * 60 + c mod 60 + k) with (c + k) by lia.
  rewrite Z.rem_mod_nonneg by lia. reflexivity.
Qed.

(** *** A window that ends in the hundredth hour *)

Lemma digit_vs_nine c : is_digit c = true -> Ascii.compare c "9" = Lt \/ c = "9"%char.
Proof.
  intros H%digit_cases. cbn [In] in H.
  repeat (destruct H as [<- | H]; [first [by left | by right]|]). done.
Qed.

Lemma digit_vs_colon c : is_digit c = true -> Ascii.compare c ":" = Lt.
Proof.
  intros H%digit_cases. cbn [In] in H.
  repeat (destruct H as [<- | H]; [reflexivity|]). done.
Qed.

(** From 100 hours on, the text of a time compares below every text of
    the hundredth hour. *)
Lemma str_le_beyond c me :
  6000 <= c -> 5940 <= me < 6000 -> str_le (Spec.hhmm c) (Spec.hhmm me) = true.
Proof.
  intros Hc Hme. unfold Spec.hhmm.
  assert (me / 60 = 99) as ->
    by (symmetry; apply (Z.div_unique_pos _ _ _ (me - 5940)); lia).
  change (pad2 99) with "99".
  assert (100 <= c / 60) as Hh by (apply Z.div_le_lower_bound; lia).
  destruct (pad2_digits (c / 60)) as (Hd & _ & Hv & Hs); [lia|].
  destruct (pad2 (c / 60)) as [|c1 [|c2 [|c3 r]]] eqn:Hp.
  - cbn in Hv. lia.
  - cbn [all_digits] in Hd. apply andb_prop in Hd as [H1 _].
    pose proof (digit_value_bounds c1 H1). cbn [digits_value] in Hv. lia.
  - cbn [all_digits] in Hd. apply andb_prop in Hd as [H1 [H2 _]%andb_prop].
    pose proof (digit_value_bounds c1 H1). pose proof (digit_value_bounds c2 H2).
    cbn [digits_value] in Hv. lia.
  - cbn [all_digits] in Hd.
    apply andb_prop in Hd as [H1 [H2 [H3 _]%andb_prop]%andb_prop].
    unfold str_le, String.leb. rewrite !append_cons.
    repeat change ("" +:+ ?x) with x.
    cbn [String.compare].
    destruct (digit_vs_nine c1 H1) as [-> | ->]; [reflexivity|].
    change (Ascii.compare "9" "9") with Eq. cbv iota.
    destruct (digit_vs_nine c2 H2) as [-> | ->]; [reflexivity|].
    change (Ascii.compare "9" "9") with Eq. cbv iota.
    by rewrite (digit_vs_colon c3 H3).
Qed.

Lemma candidates_from_beyond fuel : forall c me slot,
  0 < slot -> 0 <= c -> 6000 <= c + slot -> 5940 <= me < 6000 ->
  candidates_from fuel (Spec.hhmm c) (Spec.hhmm me) slot = None.
Proof.
  induction fuel as [|fuel IH]; intros c me slot Hs Hc Hb Hme; [reflexivity|].
  cbn [candidates_from]. rewrite addMinutesHHMM_any by lia.
  rewrite str_le_beyond by lia. rewrite IH by lia. reflexivity.
Qed.

Lemma candidates_from_never k : forall fuel c me slot,
  0 < slot -> 0 <= c -> 5940 <= me < 6000 ->
  c + Z.of_nat k * slot <= me -> 6000 <= c + (Z.of_nat k + 1) * slot ->
  candidates_from fuel (Spec.hhmm c) (Spec.hhmm me) slot = None.
Proof.
  induction k as [|k IH]; intros fuel c me slot Hs Hc Hme Hlow Hhigh.
  - apply candidates_from_beyond; lia.
  - destruct fuel as [|fuel]; [reflexivity|].
    cbn [candidates_from]. rewrite addMinutesHHMM_any by lia.
    rewrite str_le_hhmm by nia.
    assert ((c + slot <=? me) = true) as -> by (apply Z.leb_le; nia).
    rewrite (IH fuel (c + slot) me slot) by (try done; nia). reflexivity.
Qed.

(** X26.  Weekly hours that end in the hundredth hour (99:00 to 99:59)
    stop the availability route from answering.  When the candidate
    times, counted from the opening time in steps of the slot, pass from
    the closing time or before it straight to 100 hours or more, the
    candidate loop has not left after any number of iterations: from 100
    hours on every candidate end is a text that compares below the closing
    time.  The times of the model are exact up to 2^53 minutes, which
    bounds the iterations considered. *)
Theorem availability_never_answers_in_hundredth_hour api now faults req db
    date d w row ws we k fuel :
  field "date" (query req) = Some date -> date_of_text date = Some d ->
  faults HolidayForDate = false -> faults BusinessHoursForDay = false ->
  holiday_for_date d (holiday_hours db) = None ->
  jsWeekdayMonday1to7 api date = Some w ->
  business_hours db !! w = Some row ->
  bh_start_time row = Some ws -> bh_end_time row = Some we ->
  0 <= ws -> 356400 <= we < 360000 ->
  let slot := Z.max 5 (or_num (parseInt (field "slotMinutes" (query req))) 30) in
  ws / 60 + Z.of_nat k * slot <= we / 60 ->
  6000 <= ws / 60 + (Z.of_nat k + 1) * slot ->
  ws / 60 + Z.of_nat fuel * slot < 2 ^ 53 ->
  GET_availability api now faults fuel req db = None.
Proof.
  intros Hask Hd Hf1 Hf2 Hnone Hw Hrow Hs He Hws Hwe slot Hlow Hhigh _.
  rewrite (weekly_request api now faults fuel req db date d w row) by done.
  fold slot. rewrite Hs, He. cbn [fmap option_fmap option_map].
  assert (0 < slot) by (unfold slot; lia).
  assert (5940 <= we / 60 < 6000)
    by (split; [apply Z.div_le_lower_bound | apply Z.div_lt_upper_bound]; lia).
  assert (0 <= ws / 60) by (apply Z.div_pos; lia).
  assert (ws / 60 < 6000) by nia.
  assert (ws < 360000).
  { destruct (Z.lt_ge_cases ws 360000) as [|Hge]; [done|].
    assert (6000 <= ws / 60) by (apply Z.div_le_lower_bound; lia). lia. }
  unfold handleWithWindow. rewrite !toHHMM_time_text by lia.
  by rewrite (candidates_from_never k fuel (ws / 60) (we / 60) slot).
Qed.


(** *** The time picker of the booking wizard *)

Lemma sort_by_fmap {A B} (f : A -> B) (le : A -> A -> bool) (le' : B -> B -> bool)
    (l : list A) :
  (forall x y, x ∈ l -> y ∈ l -> le' (f x) (f y) = le x y) ->
  sort_by le' (f <$> l) = f <$> sort_by le l.
Proof.
  induction l as [|x l IH]; intros Hle; [done|].
  cbn [fmap list_fmap sort_by foldr]. fold (sort_by le' (f <$> l)) (sort_by le l).
  rewrite IH by (intros; apply Hle; by right).
  assert (Hsub : forall y, y ∈ sort_by le l -> y ∈ l)
    by (intros y; by rewrite sort_by_perm).
  clear IH. induction (sort_by le l) as [|y r IHr]; [done|].
  cbn [fmap list_fmap insert_by].
  rewrite Hle by (first [by left | right; apply Hsub; by left]).
  destruct (le x y); [done|]. cbn [fmap list_fmap]. f_equal.
  apply IHr. intros z Hz. apply Hsub. by right.
Qed.

Lemma hour_of_count c h :
  0 <= h -> (c = 60 * h \/ c = 60 * h + 30) -> c / 60 = h.
Proof.
  intros Hh [-> | ->]; symmetry;
    [apply (Z.div_unique_pos _ _ _ 0) | apply (Z.div_unique_pos _ _ _ 30)]; lia.
Qed.

Lemma place_keeps (map : list Pages.Row) (S : list Z) c :
  0 <= c < 6000 -> picker_holds map S ->
  picker_holds (Pages.place map (Spec.hhmm c)) (c :: S).
Proof.
  intros Hc (Hnd & Hrows & Hseen). unfold picker_holds. revert Hc Hnd Hrows Hseen.

  intros Hc Hnd Hrows Hseen. unfold Pages.place.
  rewrite (parse_hhmm c Hc). cbn [lookup list_lookup default from_option]. unfold id.
  cbv beta iota zeta.
  pose proof (Z.div_mod c 60 ltac:(lia)) as Hdm.
  pose proof (Z.mod_pos_bound c 60 ltac:(lia)) as Hm.
  assert (0 <= c / 60) as Hh0 by (apply Z.div_pos; lia).
  remember (c / 60) as h0 eqn:Hh0def. remember (c mod 60) as m0 eqn:Hm0def.
  set (upd := fun row : Pages.Row =>
    if Pages.same_key (Pages.hour row) (Some h0)
    then {| Pages.hour := Pages.hour row;
            Pages.zero := if Pages.strictly_equal (Some m0) 0
                          then Some (Spec.hhmm c) else Pages.zero row;
            Pages.thirty := if Pages.strictly_equal (Some m0) 30
                            then Some (Spec.hhmm c) else Pages.thirty row |}
    else row).
  assert (Hupd_hour : forall r, Pages.hour (upd r) = Pages.hour r)
    by (intros r; unfold upd; by destruct (Pages.same_key _ _)).
  set (base := if existsb (fun r => Pages.same_key (Pages.hour r) (Some h0)) map then map
               else map ++ [{| Pages.hour := Some h0; Pages.zero := None;
                               Pages.thirty := None |}]).
  assert (Hhours : Pages.hour <$> (upd <$> base) = Pages.hour <$> base).
  { rewrite <- list_fmap_compose. apply list_fmap_ext. intros i r _. apply Hupd_hour. }
  assert (Hex : existsb (fun r => Pages.same_key (Pages.hour r) (Some h0)) map = true
                <-> exists r, r ∈ map /\ Pages.hour r = Some h0).
  { rewrite existsb_exists. split; intros (r & Hin & Hr); exists r.
    - apply list_elem_of_In in Hin. split; [done|].
      destruct (Pages.hour r) as [h|]; [|done]. cbn in Hr. apply Z.eqb_eq in Hr. by subst.
    - split; [by apply list_elem_of_In|]. rewrite Hr. cbn. apply Z.eqb_refl. }
  assert (Hbase : forall r, r ∈ base ->
            r ∈ map \/ (r = {| Pages.hour := Some h0; Pages.zero := None;
                               Pages.thirty := None |}
                       /\ ~ exists r', r' ∈ map /\ Pages.hour r' = Some h0)).
  { intros r. unfold base.
    destruct (existsb _ map) eqn:E; [by left|].
    intros [Hin | ->%list_elem_of_singleton]%elem_of_app; [by left|]. right.
    split; [done|]. intros Hc'. apply Hex in Hc'. congruence. }
  assert (Hown : exists r, r ∈ base /\ Pages.hour r = Some h0).
  { unfold base. destruct (existsb _ map) eqn:E.
    - by apply Hex.
    - eexists. split; [apply elem_of_app; right; by apply list_elem_of_singleton | done]. }
  split; [|split].
  - rewrite Hhours. unfold base. destruct (existsb _ map) eqn:E; [done|].
    rewrite fmap_app. apply NoDup_app. split; [done|]. split; [|apply NoDup_singleton].
    intros k (r & -> & Hin)%list_elem_of_fmap Hk%list_elem_of_singleton.
    cbn in Hk. assert (false = true) by (apply Hex; eauto). discriminate.
  - intros r' (r & -> & Hin)%list_elem_of_fmap.
    destruct (Hbase r Hin) as [Hmap | [-> Hnew]].
    + destruct (Hrows r Hmap) as (h & Hh & Hpos & Hz & Ht). exists h.
      rewrite Hupd_hour. split; [done|]. split; [done|].
      unfold upd. rewrite Hh. cbn [Pages.same_key Pages.strictly_equal].
      destruct (Z.eqb_spec h h0) as [-> | Hne]; cbn [Pages.zero Pages.thirty].
      * split.
        -- destruct (Z.eqb_spec m0 0) as [E0 | N0].
           ++ assert (c = 60 * h0) as -> by lia.
              rewrite bool_decide_eq_true_2 by left. done.
           ++ rewrite Hz. apply (f_equal (fun b : bool => if b then _ else _)).
              apply bool_decide_ext. rewrite elem_of_cons. split; [by right|].
              intros [E | ?]; [lia | done].
        -- destruct (Z.eqb_spec m0 30) as [E0 | N0].
           ++ assert (c = 60 * h0 + 30) as -> by lia.
              rewrite bool_decide_eq_true_2 by left. done.
           ++ rewrite Ht. apply (f_equal (fun b : bool => if b then _ else _)).
              apply bool_decide_ext. rewrite elem_of_cons. split; [by right|].
              intros [E | ?]; [lia | done].
      * split.
        -- rewrite Hz. apply (f_equal (fun b : bool => if b then _ else _)).
           apply bool_decide_ext. rewrite elem_of_cons. split; [by right|].
           intros [E | ?]; [|done]. exfalso. apply Hne.
           rewrite Hh0def. symmetry. apply (hour_of_count c h Hpos). by left.
        -- rewrite Ht. apply (f_equal (fun b : bool => if b then _ else _)).
           apply bool_decide_ext. rewrite elem_of_cons. split; [by right|].
           intros [E | ?]; [|done]. exfalso. apply Hne.
           rewrite Hh0def. symmetry. apply (hour_of_count c h Hpos). by right.
    + exists h0. rewrite Hupd_hour. cbn [Pages.hour]. split; [done|]. split; [done|].
      unfold upd. cbn [Pages.hour Pages.same_key Pages.strictly_equal].
      rewrite Z.eqb_refl. cbn [Pages.zero Pages.thirty].
      assert (Hfresh : forall x, x ∈ S -> x / 60 <> h0).
      { intros x Hx E. destruct (Hseen x Hx) as (r & Hr & Hhr). apply Hnew.
        exists r. by rewrite <- E. }
      split.
      * destruct (Z.eqb_spec m0 0) as [E0 | N0].
        -- assert (c = 60 * h0) as -> by lia. by rewrite bool_decide_eq_true_2 by left.
        -- rewrite bool_decide_eq_false_2; [done|].
           intros [E | Hin']%elem_of_cons; [lia|].
           apply (Hfresh _ Hin'). apply hour_of_count; auto.
      * destruct (Z.eqb_spec m0 30) as [E0 | N0].
        -- assert (c = 60 * h0 + 30) as -> by lia.
           by rewrite bool_decide_eq_true_2 by left.
        -- rewrite bool_decide_eq_false_2; [done|].
           intros [E | Hin']%elem_of_cons; [lia|].
           apply (Hfresh _ Hin'). apply hour_of_count; auto.
  - intros x [-> | Hx]%elem_of_cons.
    + destruct Hown as (r & Hin & Hr). exists (upd r).
      split; [by apply list_elem_of_fmap_2 | by rewrite Hupd_hour, Hr, Hh0def].
    + destruct (Hseen x Hx) as (r & Hin & Hr). exists (upd r).
      split; [|by rewrite Hupd_hour].
      apply list_elem_of_fmap_2. unfold base.
      destruct (existsb _ map); [done | apply elem_of_app; by left].
Qed.

Lemma place_fold cs : forall map S,
  Forall (fun c => 0 <= c < 6000) cs -> picker_holds map S ->
  picker_holds (foldl Pages.place map (Spec.hhmm <$> cs)) (rev cs ++ S).
Proof.
  induction cs as [|c cs IH]; intros map S Hcs Hinv; [done|].
  apply Forall_cons in Hcs as [Hc Hcs]. cbn [fmap list_fmap foldl rev].
  rewrite <- app_assoc. apply IH; [done|]. by apply place_keeps.
Qed.

Lemma hhmm_nonempty c : Spec.hhmm c <> "".
Proof.
  unfold Spec.hhmm. destruct (pad2 (c / 60)); [|discriminate].
  change ("" +:+ ?x) with x. discriminate.
Qed.

(** X27.  Of the times that the availability route offers, the time
    picker of the booking wizard shows exactly those on the hour and on
    the half hour; an offered time at any other minute cannot be
    picked. *)
Theorem picker_shows_hours_and_half_hours (cs : list Z) t :
  Forall (fun c => 0 <= c < 6000) cs ->
  t ∈ Pages.pickable (Spec.hhmm <$> cs)
  <-> exists c, c ∈ cs /\ t = Spec.hhmm c /\ (c mod 60 = 0 \/ c mod 60 = 30).
Proof.
  intros Hcs. unfold Pages.pickable, Pages.groupHalfHours.
  rewrite (sort_by_fmap Spec.hhmm Z.leb String.leb).
  2:{ intros x y Hx Hy. rewrite Forall_forall in Hcs.
      apply (str_le_hhmm x y); by apply Hcs. }
  set (sorted := sort_by Z.leb cs).
  assert (Hperm : sorted ≡ₚ cs) by apply sort_by_perm.
  assert (Forall (fun c => 0 <= c < 6000) sorted) as Hsorted by (by rewrite Hperm).
  destruct (place_fold sorted [] [] Hsorted) as (_ & Hrows & Hseen).
  { split; [constructor|]. split; [intros r []%elem_of_nil | intros x []%elem_of_nil]. }
  rewrite app_nil_r in Hrows, Hseen.
  assert (Hmem : forall x, x ∈ rev sorted <-> x ∈ cs)
    by (intros x; by rewrite list_elem_of_In, <- in_rev, <- list_elem_of_In, Hperm).
  set (rows := foldl Pages.place [] (Spec.hhmm <$> sorted)) in *.
  rewrite list_elem_of_bind. split.
  - intros (r & Ht & Hr). apply list_elem_of_In, filter_In in Hr as [Hr _].
    apply list_elem_of_In in Hr. destruct (Hrows r Hr) as (h & _ & Hh & Hz & Hth).
    apply elem_of_app in Ht as [Ht | Ht].
    + rewrite Hz in Ht. destruct (bool_decide_reflect (60 * h ∈ rev sorted)) as [Hin|];
        [|by apply elem_of_nil in Ht].
      cbn [truthy_text] in Ht. destruct (String.eqb _ ""); cbn [negb option_list] in Ht;
        [by apply elem_of_nil in Ht|].
      apply list_elem_of_singleton in Ht. exists (60 * h).
      split; [by apply Hmem|]. split; [done|]. left.
      rewrite Z.mul_comm. apply Z_mod_mult.
    + rewrite Hth in Ht.
      destruct (bool_decide_reflect (60 * h + 30 ∈ rev sorted)) as [Hin|];
        [|by apply elem_of_nil in Ht].
      cbn [truthy_text] in Ht. destruct (String.eqb _ ""); cbn [negb option_list] in Ht;
        [by apply elem_of_nil in Ht|].
      apply list_elem_of_singleton in Ht. exists (60 * h + 30).
      split; [by apply Hmem|]. split; [done|]. right.
      rewrite Z.add_comm, Z.mul_comm, Z_mod_plus_full. reflexivity.
  - intros (c & Hin & -> & Hmin).
    assert (0 <= c < 6000) as Hc by (rewrite Forall_forall in Hcs; by apply Hcs).
    apply Hmem in Hin. destruct (Hseen c Hin) as (r & Hr & Hhour).
    destruct (Hrows r Hr) as (h & Hh & Hpos & Hz & Hth).
    rewrite Hhour in Hh. injection Hh as <-.
    pose proof (Z.div_mod c 60 ltac:(lia)) as Hdm.
    assert (Htruthy : truthy_text (Some (Spec.hhmm c)) = true).
    { cbn. destruct (String.eqb_spec (Spec.hhmm c) ""); [|done].
      by destruct (hhmm_nonempty c). }
    exists r. destruct Hmin as [M | M].
    + assert (60 * (c / 60) = c) as E by lia. rewrite E in Hz.
      rewrite bool_decide_eq_true_2 in Hz by done.
      split.
      * rewrite Hz, Htruthy. apply elem_of_app. left. by apply list_elem_of_singleton.
      * apply list_elem_of_In, filter_In. split; [by apply list_elem_of_In|].
        by rewrite Hz, Htruthy.
    + assert (60 * (c / 60) + 30 = c) as E by lia. rewrite E in Hth.
      rewrite bool_decide_eq_true_2 in Hth by done.
      split.
      * rewrite Hth, Htruthy. apply elem_of_app. right. by apply list_elem_of_singleton.
      * apply list_elem_of_In, filter_In. split; [by apply list_elem_of_In|].
        rewrite Hth, Htruthy. apply orb_true_r.
Qed.


(** *** Booking and the opening hours *)

Lemma conflict_rows_hours faults db1 db2 date skip start dur :
  appointments db1 = appointments db2 ->
  conflict_rows faults db1 date skip start dur
  = conflict_rows faults db2 date skip start dur.
Proof. intros H. unfold conflict_rows. by rewrite H. Qed.

(** X28.  Neither the booking route nor the update route looks at the
    weekly hours or at the overrides: with the same appointments stored
    they give the same answer and store the same appointments, whatever
    the opening hours are.  A time outside the opening hours, or on a
    closed day, is booked like any other. *)
Theorem booking_ignores_opening_hours api now faults req db hours overrides next :
  let db2 := {| appointments := appointments db;
                next_appointment_id := next_appointment_id db;
                business_hours := hours;
                holiday_hours := overrides;
                next_holiday_id := next |} in
  fst (POST_BookAppointment api now faults req db2)
  = fst (POST_BookAppointment api now faults req db)
  /\ appointments (snd (POST_BookAppointment api now faults req db2))
     = appointments (snd (POST_BookAppointment api now faults req db))
  /\ fst (PUT_appointment api now faults req db2)
     = fst (PUT_appointment api now faults req db)
  /\ appointments (snd (PUT_appointment api now faults req db2))
     = appointments (snd (PUT_appointment api now faults req db)).
Proof.
  cbv zeta. set (db2 := {| appointments := appointments db |}).
  assert (Happ : appointments db2 = appointments db) by reflexivity.
  split; [|split; [|split]].
  - unfold POST_BookAppointment. destruct (book_validate _ _ _) as [r|k]; [done|].
    unfold book_store. rewrite (conflict_rows_hours faults db2 db (bk_date k) None (bk_startHHMM k) (bk_dur k) Happ).
    destruct (conflict_rows _ _ _ _ _ _) as [[|? ?]|]; try done.
    unfold insert_appointment. destruct (faults InsertAppointment); [done|].
    destruct (date_of_text _) as [?|]; [|done]. by destruct (time_of_text _) as [?|].
  - unfold POST_BookAppointment. destruct (book_validate _ _ _) as [r|k]; [done|].
    unfold book_store. rewrite (conflict_rows_hours faults db2 db (bk_date k) None (bk_startHHMM k) (bk_dur k) Happ).
    destruct (conflict_rows _ _ _ _ _ _) as [[|? ?]|]; try done.
    unfold insert_appointment. destruct (faults InsertAppointment); [done|].
    destruct (date_of_text _) as [?|]; [|done]. by destruct (time_of_text _) as [?|].
  - unfold PUT_appointment. destruct (update_validate _ _ _) as [r|e]; [done|].
    unfold update_store. cbv zeta. rewrite (conflict_rows_hours faults db2 db (bk_date (ed_booking e)) (Some (ed_id e))
               (bk_startHHMM (ed_booking e)) (bk_dur (ed_booking e)) Happ).
    destruct (conflict_rows _ _ _ _ _ _) as [[|? ?]|]; try done.
    unfold update_appointment. destruct (faults UpdateAppointment); [done|].
    destruct (date_of_text _) as [?|]; [|done].
    destruct (time_of_text _) as [?|]; [|done].
    cbn [appointments]. by destruct (faults SelectAppointment).
  - unfold PUT_appointment. destruct (update_validate _ _ _) as [r|e]; [done|].
    unfold update_store. cbv zeta. rewrite (conflict_rows_hours faults db2 db (bk_date (ed_booking e)) (Some (ed_id e))
               (bk_startHHMM (ed_booking e)) (bk_dur (ed_booking e)) Happ).
    destruct (conflict_rows _ _ _ _ _ _) as [[|? ?]|]; try done.
    unfold update_appointment. destruct (faults UpdateAppointment); [done|].
    destruct (date_of_text _) as [?|]; [|done].
    destruct (time_of_text _) as [?|]; [|done].
    cbn [appointments]. by destruct (faults SelectAppointment).
Qed.

(** *** From the wizard to a stored appointment *)

Lemma slice0_hhmm c : 0 <= c < 6000 -> slice0 5 (Spec.hhmm c) = Spec.hhmm c.
Proof.
  intros Hc. rewrite <- (string_append_nil_r (Spec.hhmm c)) at 1. apply slice0_app.
  unfold Spec.hhmm.
  assert (0 <= c / 60 < 100)
    by (split; [apply Z.div_pos | apply Z.div_lt_upper_bound]; lia).
  pose proof (Z.mod_pos_bound c 60 ltac:(lia)).
  rewrite !length_app, !pad2_length by lia. reflexivity.
Qed.

(** X29.  The wizard, the availability route and the booking route fit
    together.  When the wizard submits a form with a name, the half-hour
    duration and a time that the availability route offered for the date
    (a date other than today, rows at whole minutes, times below 100
    hours, a working store), and the time is not past on the server's
    clock, the booking is answered 200 and one appointment is stored: for
    that date and time, 30 minutes, with the ten digits of the typed phone
    number, active and unpaid. *)
Theorem wizard_booking_of_offered_time_is_saved api browser_now now faults db fuel
    form sent ws we meta d times :
  Pages.handleSubmit api browser_now form = Some sent ->
  Pages.f_name form <> "" -> Pages.f_duration form = "30" ->
  is_today api now (Pages.f_date form) = false ->
  (forall s, faults s = false) ->
  date_of_text (Pages.f_date form) = Some d ->
  0 <= ws -> 0 <= we -> ws / 60 + 30 < 6000 -> we / 60 + 30 < 6000 ->
  (forall a, a ∈ appointments db -> a_date a = d -> whole_minute a) ->
  6000 <= Z.of_nat fuel ->
  handleWithWindow api now faults db fuel (Pages.f_date form) 30
    (Some (time_text ws)) (Some (time_text we)) meta
  = Some (availability_body (Pages.f_date form) 30 times meta) ->
  Pages.f_time form ∈ times ->
  in_past api now (Pages.f_date form +:+ "T" +:+ Pages.f_time form) = false ->
  let req := {| session_user := None; params := []; query := []; body := sent |} in
  exists p t row,
    normalizeNANPTo10 (Pages.f_phoneNumber form) = Some p
    /\ time_of_text (Pages.f_time form) = Some t
    /\ fst (POST_BookAppointment api now faults req db)
       = message 200 "Appointment saved successfully"
    /\ appointments (snd (POST_BookAppointment api now faults req db))
       = appointments db ++ [row]
    /\ a_id row = next_appointment_id db
    /\ a_name row = Pages.f_name form /\ a_phoneNumber row = Some p
    /\ a_date row = d /\ a_time row = t /\ a_duration row = 30
    /\ a_active row = 1 /\ a_paid row = 0.
Proof.
  intros Hsent Hname Hdur Htoday Hf Hd Hws Hwe Hsb Heb Hrows Hfuel Hresp Hin Hpast req.
  (* the offered time is the text of a candidate *)
  assert (Hoffered : exists c, c ∈ Spec.candidate_starts (ws / 60) (we / 60) 30
                      /\ Pages.f_time form = Spec.hhmm c).
  { pose proof Hresp as Hresp'.
    rewrite (window_slots_below_100h api now faults db fuel _ 30 ws we meta d)
      in Hresp'; auto; try lia;
      [|intros a Ha Hda; by apply whole_minute_in_range, Hrows].
    injection Hresp' as Hresp'. apply fmap_JStr_inj in Hresp'. subst times.
    apply list_elem_of_fmap in Hin as (c & Ht & Hc). exists c. split; [|done].
    unfold Spec.free_slots in Hc. apply list_elem_of_In, filter_In in Hc as [Hc _].
    by apply list_elem_of_In. }
  destruct Hoffered as (c & Hc & Htime).
  pose proof (candidate_starts_bounds (ws / 60) (we / 60) 30 c ltac:(lia) Hc) as [Hc1 Hc2].
  assert (0 <= ws / 60) by (apply Z.div_pos; lia).
  assert (0 <= c < 6000) as Hrange by lia.
  destruct (time_of_text_hhmm c Hrange) as [Ht Hm].
  (* what the wizard sent *)
  unfold Pages.handleSubmit in Hsent.
  destruct (String.eqb (Pages.f_date form) "" || String.eqb (Pages.f_time form) "");
    [discriminate|].
  destruct (String.eqb (Pages.f_duration form) ""); [discriminate|].
  pose proof (page_phone_cases (Pages.f_phoneNumber form)) as Hphone.
  destruct (Pages.isValidNANP (Pages.f_phoneNumber form)); [|discriminate].
  destruct Hphone as (p & He164 & Hp & Hp' & Hlen & _).
  rewrite He164 in Hsent. cbn [negb] in Hsent.
  destruct (String.eqb_spec (Pages.f_type form) "") as [|Htype]; [discriminate|].
  destruct (in_past api browser_now _); [discriminate|]. injection Hsent as <-.
  exists p, (c * 60).
  (* the server's validation *)
  pose (b := body req). unfold req in b. cbn [body] in b.
  pose (k := {| bk_name := Pages.f_name form;
                bk_phone10 := Some p;
                bk_email := nonempty (Some (Pages.f_email form));
                bk_date := Pages.f_date form;
                bk_startHHMM := Spec.hhmm c;
                bk_dur := 30;
                bk_type := Pages.f_type form;
                bk_comments := nonempty (Some (Pages.f_comments form)) |}).
  assert (Hvalid : book_validate api now b = inr k).
  { assert (HneE : String.eqb ("+1" +:+ p) "" = false) by reflexivity.
    rewrite (book_validate_accepts api now b).
    - unfold b. cbn [name phoneNumber email date time duration type comments
                     default from_option id nonempty]. rewrite HneE, Hdur, Htime.
      cbn [mbind option_bind]. rewrite Hp', (slice0_hhmm c Hrange). reflexivity.
    - unfold required_fields_ok, b. cbn [name date time duration type truthy_text truthy].
      rewrite Hdur, Htime.
      destruct (String.eqb_spec (Pages.f_name form) ""); [done|].
      destruct (String.eqb_spec (Pages.f_type form) ""); [done|].
      destruct (String.eqb_spec (Pages.f_date form) "") as [E|];
        [rewrite E in Hd; discriminate Hd|].
      destruct (String.eqb_spec (Spec.hhmm c) "") as [E|];
        [by destruct (hhmm_nonempty c)|].
      repeat split.
    - unfold phone_ok, b. cbn [phoneNumber nonempty]. rewrite HneE, Hp'. eauto.
    - unfold b. cbn [time default from_option id]. by rewrite Htime, slice0_hhmm.
    - unfold b. cbn [date default from_option id]. unfold date_of_text in Hd.
      by destruct (matches YYYYMMDD (Pages.f_date form)).
    - unfold b. cbn [date time default from_option id].
      rewrite Htime, slice0_hhmm by done. by rewrite <- Htime. }
  subst req. unfold POST_BookAppointment. cbn [body]. fold b. rewrite Hvalid.
  rewrite (offered_slot_book_store api now faults db fuel (Pages.f_date form) 30 ws we
             meta d times Htoday Hf Hd ltac:(by left) Hws Hwe Hsb Heb Hrows Hfuel Hresp c k
             Hc eq_refl eq_refl eq_refl).
  rewrite Htime in Hin. rewrite bool_decide_eq_true_2 by exact Hin.
  eexists. cbn [fst snd appointments].
  split; [done|]. split; [by rewrite Htime|]. split; [done|]. split; [reflexivity|].
  cbn. done.
Qed.


(** *** The properties above on the sample data *)

Lemma sample_store_consistent :
  no_double_booking (appointments Sample.busy_store) /\ ids_fresh Sample.busy_store.
Proof.
  split.
  - intros i j a b Hij Hi Hj. cbn in Hi, Hj.
    destruct i as [|i], j as [|j]; try done; cbn in Hi, Hj; try done.
  - split.
    + cbn. apply NoDup_singleton.
    + intros a Ha. cbn in Ha. apply list_elem_of_singleton in Ha as ->. cbn. lia.
Qed.



Lemma booking_keeps_store_consistent_witness :
  no_double_booking (appointments Sample.busy_store)
  /\ ids_fresh Sample.busy_store
  /\ no_double_booking
       (appointments (snd (POST_BookAppointment Sample.clock Sample.new_year no_faults
                             Sample.booking_request Sample.busy_store)))
  /\ length (appointments (snd (POST_BookAppointment Sample.clock Sample.new_year no_faults
                                  Sample.booking_request Sample.busy_store))) = 2%nat.
Proof.
  destruct sample_store_consistent as [Hnd Hfresh].
  split; [exact Hnd|]. split; [exact Hfresh|].
  split; [|reflexivity].
  exact (proj1 (booking_keeps_store_consistent Sample.clock Sample.new_year no_faults
                  Sample.booking_request Sample.busy_store Hnd Hfresh)).
Defined.

Lemma update_keeps_store_consistent_witness :
  matches HHMM (slice0 5 (default "" (time (body Cases.move_request)))) = true
  /\ ids_fresh (snd (PUT_appointment Sample.clock Sample.new_year no_faults
                       Cases.move_request Sample.busy_store))
  /\ a_time <$> appointments (snd (PUT_appointment Sample.clock Sample.new_year no_faults
                                     Cases.move_request Sample.busy_store)) = [37800].
Proof.
  destruct sample_store_consistent as [Hnd Hfresh].
  split; [reflexivity|]. split; [|reflexivity].
  exact (proj2 (update_keeps_store_consistent Sample.clock Sample.new_year no_faults
                  Cases.move_request Sample.busy_store eq_refl Hnd Hfresh)).
Defined.


Lemma sample_overrides_consistent :
  holiday_ids_fresh Sample.busy_store
  /\ Forall holiday_well_formed (holiday_hours Sample.busy_store).
Proof.
  split; [split|].
  - cbn. apply NoDup_cons. split; [|apply NoDup_singleton].
    intros H. apply list_elem_of_singleton in H. discriminate H.
  - intros h Hh. cbn in Hh. apply elem_of_cons in Hh as [-> | Hh];
      [|apply list_elem_of_singleton in Hh as ->]; cbn; lia.
  - cbn. constructor; [|constructor; [|constructor]].
    + split; [cbn; lia|]. right. repeat split.
    + split; [cbn; lia|]. left. split; [reflexivity|].
      exists 36000, 50400. repeat split; lia.
Qed.

Lemma put_business_hours_upserts_witness :
  field "week_day" (params Cases.tuesday_request) ≫= Number = Some 2
  /\ business_hours (snd (PUT_business_hours no_faults Cases.tuesday_request
                            Sample.busy_store)) !! 2
     = Some {| bh_start_time := Some 28800; bh_end_time := Some 43200;
               bh_is_open := 1 |}
  /\ business_hours (snd (PUT_business_hours no_faults Cases.tuesday_request
                            Sample.busy_store)) !! 1
     = business_hours Sample.busy_store !! 1.
Proof.
  destruct (put_business_hours_upserts no_faults Cases.tuesday_request
              Sample.busy_store 2 eq_refl ltac:(lia))
    as (H200 & _ & _).
  destruct H200 as (row & Hrow & Hopen & Hst & Het & _ & Hother & _);
    [reflexivity|].
  split; [reflexivity|]. split.
  - rewrite Hrow. destruct row as [st et op]. cbn in Hopen, Hst, Het.
    by rewrite Hopen, Hst, Het.
  - apply Hother. lia.
Defined.

Lemma holiday_routes_keep_store_consistent_witness :
  holiday_ids_fresh Sample.busy_store
  /\ holiday_ids_fresh (snd (POST_holiday_hours no_faults Cases.new_year_closed
                               Sample.busy_store))
  /\ length (holiday_hours (snd (POST_holiday_hours no_faults Cases.new_year_closed
                                   Sample.busy_store))) = 3%nat.
Proof.
  destruct sample_overrides_consistent as [Hfresh Hwf].
  split; [exact Hfresh|]. split; [|reflexivity].
  exact (proj1 (holiday_routes_keep_store_consistent no_faults Cases.new_year_closed
                  Sample.busy_store POST_holiday_hours
                  ltac:(left) Hfresh Hwf)).
Defined.

Lemma delete_undoes_post_witness :
  status (fst (POST_holiday_hours no_faults Cases.new_year_closed Sample.busy_store)) = 200
  /\ holiday_hours
       (snd (DELETE_holiday_hours no_faults Cases.delete_third
               (snd (POST_holiday_hours no_faults Cases.new_year_closed
                       Sample.busy_store))))
     = holiday_hours Sample.busy_store.
Proof.
  destruct sample_overrides_consistent as [Hfresh _].
  split; [reflexivity|].
  exact (proj1 (proj2 (delete_undoes_post no_faults Cases.new_year_closed
                         Cases.delete_third Sample.busy_store
                         Hfresh eq_refl eq_refl eq_refl))).
Defined.


Lemma get_holiday_hours_lists_range_witness :
  date_of_text "2030-12-01" = Some 22249 /\ date_of_text "2030-12-31" = Some 22279
  /\ exists rows,
       GET_holiday_hours no_faults Cases.december Sample.busy_store
       = {| status := 200; payload := HolidayRows (normalize_open <$> rows) |}
       /\ (Sample.christmas_day ∈ rows)
       /\ ordered by_start_end_id rows.
Proof.
  split; [reflexivity|]. split; [reflexivity|].
  destruct (get_holiday_hours_lists_range no_faults Cases.december Sample.busy_store
              "2030-12-01" "2030-12-31" 22249 22279
              eq_refl eq_refl eq_refl eq_refl eq_refl)
    as (rows & Hget & _ & Hin & Hord & _).
  exists rows. split; [exact Hget|]. split; [|exact Hord].
  apply Hin. split; [cbn; right; left|]. cbn. lia.
Defined.

Lemma get_appointments_lists_sorted_witness :
  exists rows all,
    GET_appointments (fun _ _ _ => true) no_faults
      (Sample.request (Some Sample.administrator) [] [] Sample.no_body)
      Sample.busy_store
    = {| status := 200; payload := AppointmentRows rows |}
    /\ rows = all /\ Sample.massage_at_ten ∈ all.
Proof.
  destruct (get_appointments_lists_sorted (fun _ _ _ => true) no_faults
              (Sample.request (Some Sample.administrator) [] [] Sample.no_body)
              Sample.busy_store eq_refl)
    as (rows & all & Hget & _ & _ & Hin & _ & Hlim).
  exists rows, all. split; [exact Hget|]. split; [exact Hlim|].
  apply Hin. split; [cbn; left | reflexivity].
Defined.

Lemma get_business_hours_lists_weekdays_witness :
  exists rows,
    GET_business_hours no_faults
      (Sample.request (Some Sample.administrator) [] [] Sample.no_body)
      Sample.busy_store
    = {| status := 200; payload := BusinessHourRows rows |}
    /\ NoDup (fst <$> rows).
Proof.
  destruct (get_business_hours_lists_weekdays no_faults
              (Sample.request (Some Sample.administrator) [] [] Sample.no_body)
              Sample.busy_store eq_refl) as (rows & Hget & _ & Hnd & _).
  exists rows. split; [exact Hget | exact Hnd].
Defined.

Lemma posted_override_governs_day_witness :
  status (fst (POST_holiday_hours no_faults Cases.new_year_closed Sample.busy_store)) = 200
  /\ date_of_text "2031-01-01" = Some Cases.new_year_number
  /\ GET_availability Sample.clock Sample.new_year no_faults (Z.to_nat 6000)
       (Cases.ask "2031-01-01")
       (snd (POST_holiday_hours no_faults Cases.new_year_closed Sample.busy_store))
     = Some (availability_body "2031-01-01" 30 []
               [("holidayLabel", JStr "New Year"); ("holidayComment", JNull);
                ("isOpenOverride", JBool false)]).
Proof.
  split; [reflexivity|]. split; [reflexivity|].
  assert (Hfree : forall h, h ∈ holiday_hours Sample.busy_store ->
                    covers Cases.new_year_number h = false).
  { intros h Hh. cbn in Hh. apply elem_of_cons in Hh as [-> | Hh];
      [|apply list_elem_of_singleton in Hh as ->]; reflexivity. }
  exact (proj1 (posted_override_governs_day Sample.clock Sample.new_year no_faults
                  (Z.to_nat 6000) Cases.new_year_closed (Cases.ask "2031-01-01")
                  Sample.busy_store "2031-01-01" Cases.new_year_number
                  eq_refl eq_refl eq_refl Hfree eq_refl eq_refl eq_refl)).
Defined.

Lemma console_close_empties_day_witness :
  holiday_for_date Sample.day_number (holiday_hours Sample.busy_store) = None
  /\ jsWeekdayMonday1to7 Sample.clock Sample.day = Some 1
  /\ GET_availability Sample.clock Sample.new_year no_faults (Z.to_nat 6000)
       (Cases.ask Sample.day)
       (snd (PUT_business_hours no_faults
               (Console.handleBizCloseDay (Some Sample.administrator)
                  Cases.page_rows 1)
               Sample.busy_store))
     = Some (availability_body Sample.day 30 [] []).
Proof.
  split; [reflexivity|]. split; [reflexivity|].
  exact (proj2 (proj2 (proj2
    (console_close_empties_day Sample.clock Sample.new_year no_faults
       (Z.to_nat 6000) (Some Sample.administrator) Cases.page_rows 1
       (Cases.ask Sample.day) Sample.busy_store Sample.day Sample.day_number
       ltac:(lia) eq_refl eq_refl eq_refl eq_refl eq_refl eq_refl eq_refl)))).
Defined.

Lemma console_open_and_save_stores_window_witness :
  Console.ui_start_time (Cases.page_rows 2) = Some (Spec.hhmm 540)
  /\ Console.ui_end_time (Cases.page_rows 2) = Some (Spec.hhmm 1020)
  /\ business_hours
       (snd (PUT_business_hours no_faults
               (Console.handleBizOpenAndSave (Some Sample.administrator)
                  Cases.page_rows 2)
               Sample.busy_store)) !! 2
     = Some {| bh_start_time := Some 32400; bh_end_time := Some 61200;
               bh_is_open := 1 |}.
Proof.
  split; [reflexivity|]. split; [reflexivity|].
  exact (proj1 (proj2
    (console_open_and_save_stores_window no_faults (Some Sample.administrator)
       Cases.page_rows 2 Sample.busy_store 540 1020
       ltac:(lia) eq_refl ltac:(lia) ltac:(lia) eq_refl eq_refl))).
Defined.

Lemma login_decides_admin_access_witness :
  status (fst (Auth.POST_login String.eqb Cases.hash_check false Cases.staff
                 Cases.owner_login None)) = 200
  /\ Pages.AdminRoute
       (snd (Auth.POST_login String.eqb Cases.hash_check false Cases.staff
               Cases.owner_login None)) = Pages.Children
  /\ Pages.AdminRoute
       (snd (Auth.POST_logout
               (snd (Auth.POST_login String.eqb Cases.hash_check false Cases.staff
                       Cases.owner_login None)))) = Pages.Navigate "/login".
Proof.
  assert (Hrt : {| method := "GET"; path := "/api/availability"; guards := [];
                   handler := fun env req db =>
                     (fun r => (r, db)) <$>
                       GET_availability (api env) (now env) (faults env) (fuel env)
                         req db |} ∈ routes Serverless) by left.
  destruct (login_decides_admin_access String.eqb Cases.hash_check Cases.staff
              Cases.owner_login None Serverless _ Sample.env
              (Cases.ask Sample.day) Sample.busy_store eq_refl Hrt)
    as (_ & Hout & _).
  split; [reflexivity|]. split; [reflexivity | exact Hout].
Defined.


Lemma posted_review_is_listed_first_witness :
  exists row rows,
    Reviews.content (fst (Reviews.POST_reviews Sample.new_year false false
                            Cases.five_stars Cases.no_reviews))
    = Reviews.Created (Some row)
    /\ Reviews.GET_reviews false [("limit", "1")]
         (snd (Reviews.POST_reviews Sample.new_year false false
                 Cases.five_stars Cases.no_reviews))
       = {| Reviews.code := 200; Reviews.content := Reviews.Listed (row :: rows) |}.
Proof.
  apply (posted_review_is_listed_first Sample.new_year Cases.five_stars
           Cases.no_reviews [("limit", "1")]); [|reflexivity].
  intros r Hr. cbn in Hr. by apply elem_of_nil in Hr.
Defined.


Lemma availability_never_answers_in_hundredth_hour_witness :
  jsWeekdayMonday1to7 Sample.clock Sample.day = Some 1
  /\ business_hours Cases.late_store !! 1
     = Some {| bh_start_time := Some 32400; bh_end_time := Some 358200;
               bh_is_open := 1 |}
  /\ GET_availability Sample.clock Sample.new_year no_faults 1000
       (Cases.ask Sample.day) Cases.late_store = None.
Proof.
  split; [reflexivity|]. split; [reflexivity|].
  apply (availability_never_answers_in_hundredth_hour Sample.clock Sample.new_year
           no_faults (Cases.ask Sample.day) Cases.late_store Sample.day
           Sample.day_number 1
           {| bh_start_time := Some 32400; bh_end_time := Some 358200;
              bh_is_open := 1 |}
           32400 358200 181%nat 1000%nat);
    try reflexivity; try lia; vm_compute; congruence.
Defined.

Lemma picker_shows_hours_and_half_hours_witness :
  "09:30" ∈ Pages.pickable (Spec.hhmm <$> [540; 555; 570])
  /\ ~ "09:15" ∈ Pages.pickable (Spec.hhmm <$> [540; 555; 570]).
Proof.
  assert (Hcs : Forall (fun c => 0 <= c < 6000) [540; 555; 570])
    by (repeat constructor; lia).
  split.
  - apply (picker_shows_hours_and_half_hours [540; 555; 570] "09:30" Hcs).
    exists 570. split; [right; right; left|]. split; [reflexivity | right; reflexivity].
  - intros Hin.
    apply (picker_shows_hours_and_half_hours [540; 555; 570] "09:15" Hcs) in Hin
      as (c & Hc & Ht & Hm).
    apply elem_of_cons in Hc as [-> | Hc]; [discriminate Ht|].
    apply elem_of_cons in Hc as [-> | Hc]; [vm_compute in Hm; destruct Hm; discriminate|].
    apply list_elem_of_singleton in Hc as ->. discriminate Ht.
Defined.

Lemma wizard_booking_of_offered_time_is_saved_witness :
  Pages.handleSubmit Sample.clock Sample.new_year Cases.wizard_form <> None
  /\ exists sent row,
       Pages.handleSubmit Sample.clock Sample.new_year Cases.wizard_form = Some sent
       /\ appointments
            (snd (POST_BookAppointment Sample.clock Sample.new_year no_faults
                    {| session_user := None; params := []; query := []; body := sent |}
                    Sample.busy_store))
          = [Sample.massage_at_ten; row]
       /\ a_time row = 39600 /\ a_phoneNumber row = Some "5550001111".
Proof.
  split; [vm_compute; discriminate|].
  destruct (Pages.handleSubmit Sample.clock Sample.new_year Cases.wizard_form)
    as [sent|] eqn:Hsent; [|vm_compute in Hsent; discriminate Hsent].
  assert (Hrows : forall a, a ∈ appointments Sample.busy_store ->
                    a_date a = Sample.day_number -> whole_minute a).
  { intros a Ha _. cbn in Ha. apply list_elem_of_singleton in Ha as ->.
    unfold whole_minute. cbn. repeat split; try lia; reflexivity. }
  assert (Hoffer : handleWithWindow Sample.clock Sample.new_year no_faults
                     Sample.busy_store (Z.to_nat 6000) (Pages.f_date Cases.wizard_form) 30
                     (Some (time_text 32400)) (Some (time_text 61200)) []
                   = Some (availability_body (Pages.f_date Cases.wizard_form) 30
                             Cases.offered_on_sample_day []))
    by (vm_compute; reflexivity).
  assert (Htime : Pages.f_time Cases.wizard_form ∈ Cases.offered_on_sample_day)
    by (apply list_elem_of_In; vm_compute; auto 20).
  assert (Htoday : is_today Sample.clock Sample.new_year (Pages.f_date Cases.wizard_form)
                   = false) by (vm_compute; reflexivity).
  assert (Hdate : date_of_text (Pages.f_date Cases.wizard_form) = Some Sample.day_number)
    by (vm_compute; reflexivity).
  assert (Hpast : in_past Sample.clock Sample.new_year
                    (Pages.f_date Cases.wizard_form +:+ "T"
                     +:+ Pages.f_time Cases.wizard_form) = false)
    by (vm_compute; reflexivity).
  assert (Hname : Pages.f_name Cases.wizard_form <> "") by (vm_compute; discriminate).
  destruct (wizard_booking_of_offered_time_is_saved Sample.clock Sample.new_year
              Sample.new_year no_faults Sample.busy_store (Z.to_nat 6000)
              Cases.wizard_form sent 32400 61200 [] Sample.day_number
              Cases.offered_on_sample_day Hsent Hname eq_refl Htoday
              (fun _ => eq_refl) Hdate ltac:(lia) ltac:(lia)
              ltac:(vm_compute; reflexivity) ltac:(vm_compute; reflexivity)
              Hrows ltac:(lia) Hoffer Htime Hpast)
    as (p & t & row & Hp & Ht & _ & Happ & _ & _ & Hphone & _ & Hrowtime & _).
  exists sent, row. split; [reflexivity|]. split; [exact Happ|].
  vm_compute in Hp, Ht. split; congruence.
Defined.
